(** * The name resolver and local cache of the Notion command-line client

    Shallow embedding of [scripts/notion.py]: the class [NotionCache]
    ([_load], [_save], [is_stale], [update_from_search], [find_by_path],
    [_find_by_title], [get_title]) and the functions [is_uuid] and
    [resolve_id].

    The cache keeps its state in [self.data], the document read back from
    a JSON file, and the methods reach into it with [.get], subscripts and
    [in], so what they do depends on the shape of that document.  The
    embedding therefore works on Python values: [None], booleans, strings,
    lists and insertion-ordered dictionaries, with the exceptions the
    operations raise.  JSON numbers are left out: neither the cache nor the
    fields read from a search result hold one.  Strings are sequences of
    ASCII characters. *)

From Stdlib Require Import String Ascii List ZArith Bool Arith Lia.
Import ListNotations.
Local Open Scope string_scope.

Set Implicit Arguments.
Set Warnings "-register-all".

(** ** Python strings *)

Module PyStr.

(** [c.lower()] on one character of the ASCII range; a character outside
    it is left as it is, where Python folds the cased ones. *)
Definition lower_char (c : ascii) : ascii :=
  let n := nat_of_ascii c in
  if (65 <=? n)%nat && (n <=? 90)%nat then ascii_of_nat (n + 32) else c.

(** [s.lower()] *)
Fixpoint lower (s : string) : string :=
  match s with
  | EmptyString => EmptyString
  | String c r => String (lower_char c) (lower r)
  end.

(** The ASCII characters [str.strip()] removes: tab, line feed, vertical
    tab, form feed, carriage return, the four separators 28..31 and space.
    Python also removes the white space outside ASCII (the no-break space,
    the next-line control and others), which this does not. *)
Definition is_space (c : ascii) : bool :=
  let n := nat_of_ascii c in
  ((9 <=? n)%nat && (n <=? 13)%nat) || ((28 <=? n)%nat && (n <=? 32)%nat).

Fixpoint lstrip (s : string) : string :=
  match s with
  | EmptyString => EmptyString
  | String c r => if is_space c then lstrip r else s
  end.

Fixpoint rstrip (s : string) : string :=
  match s with
  | EmptyString => EmptyString
  | String c r =>
      match rstrip r with
      | EmptyString => if is_space c then EmptyString else String c EmptyString
      | r' => String c r'
      end
  end.

(** [s.strip()] *)
Definition strip (s : string) : string := rstrip (lstrip s).

(** [s.split(sep)] for a one-character separator: never the empty list. *)
Fixpoint split (sep : ascii) (s : string) : list string :=
  match s with
  | EmptyString => [EmptyString]
  | String c r =>
      if Ascii.eqb c sep then EmptyString :: split sep r
      else match split sep r with
           | seg :: segs => String c seg :: segs
           | [] => [String c EmptyString]
           end
  end.

(** [s.replace(c, "")] for a one-character [c]. *)
Fixpoint remove_char (c : ascii) (s : string) : string :=
  match s with
  | EmptyString => EmptyString
  | String a r => if Ascii.eqb a c then remove_char c r else String a (remove_char c r)
  end.

(** [c in s] for a character [c]. *)
Fixpoint mem_char (c : ascii) (s : string) : bool :=
  match s with
  | EmptyString => false
  | String a r => Ascii.eqb a c || mem_char c r
  end.

(** [all(p(c) for c in s)] *)
Fixpoint all_chars (p : ascii -> bool) (s : string) : bool :=
  match s with
  | EmptyString => true
  | String a r => p a && all_chars p r
  end.

(** [t in s] for strings: [t] occurs in [s] as a contiguous run. *)
Fixpoint is_infix (t s : string) : bool :=
  String.prefix t s ||
  match s with
  | EmptyString => false
  | String _ r => is_infix t r
  end.

(** [seq[-1]] on a non-empty list of strings. *)
Definition last_of (l : list string) : string := List.last l EmptyString.

End PyStr.

(** ** Dictionaries

    A Python [dict] keeps its keys in insertion order, and an assignment to
    a key that is present keeps the key where it is.  Keys are the hashable
    values of the model. *)

Inductive key : Type :=
| KNone
| KBool (b : bool)
| KStr (s : string).

Definition key_eqb (a b : key) : bool :=
  match a, b with
  | KNone, KNone => true
  | KBool x, KBool y => Bool.eqb x y
  | KStr x, KStr y => String.eqb x y
  | _, _ => false
  end.

Section Dict.
Variable V : Type.

Definition dict := list (key * V).

(** [d.get(k)] as an option. *)
Fixpoint dict_get (k : key) (d : dict) : option V :=
  match d with
  | [] => None
  | (k', v) :: r => if key_eqb k' k then Some v else dict_get k r
  end.

(** [k in d] *)
Fixpoint dict_mem (k : key) (d : dict) : bool :=
  match d with
  | [] => false
  | (k', _) :: r => key_eqb k' k || dict_mem k r
  end.

(** [d[k] = v]: overwrite in place, or append a new key at the end. *)
Fixpoint dict_set (k : key) (v : V) (d : dict) : dict :=
  match d with
  | [] => [(k, v)]
  | (k', v') :: r =>
      if key_eqb k' k then (k', v) :: r else (k', v') :: dict_set k v r
  end.

End Dict.

Arguments dict_get {V} k d.
Arguments dict_mem {V} k d.
Arguments dict_set {V} k v d.

(** ** Python values *)

Inductive value : Type :=
| VNone
| VBool (b : bool)
| VStr (s : string)
| VList (l : list value)
| VDict (d : list (key * value)).

Definition value_of_key (k : key) : value :=
  match k with
  | KNone => VNone
  | KBool b => VBool b
  | KStr s => VStr s
  end.

(** The key a value hashes to; lists and dictionaries are unhashable. *)
Definition key_of_value (v : value) : option key :=
  match v with
  | VNone => Some KNone
  | VBool b => Some (KBool b)
  | VStr s => Some (KStr s)
  | VList _ | VDict _ => None
  end.

(** [bool(v)] *)
Definition truthy (v : value) : bool :=
  match v with
  | VNone => false
  | VBool b => b
  | VStr s => negb (String.eqb s "")
  | VList l => match l with [] => false | _ => true end
  | VDict d => match d with [] => false | _ => true end
  end.

(** [v is None] *)
Definition is_none (v : value) : bool :=
  match v with VNone => true | _ => false end.

(** [a == b].  Lists compare element by element, dictionaries key by key
    whatever the order of the keys. *)
Fixpoint py_eq (a b : value) {struct a} : bool :=
  match a, b with
  | VNone, VNone => true
  | VBool x, VBool y => Bool.eqb x y
  | VStr x, VStr y => String.eqb x y
  | VList xs, VList ys =>
      (fix go (xs ys : list value) {struct xs} : bool :=
         match xs, ys with
         | [], [] => true
         | x :: xs', y :: ys' => py_eq x y && go xs' ys'
         | _, _ => false
         end) xs ys
  | VDict d, VDict e =>
      Nat.eqb (length d) (length e) &&
      (fix all (d : list (key * value)) : bool :=
         match d with
         | [] => true
         | (k, v) :: d' =>
             match dict_get k e with
             | Some w => py_eq v w
             | None => false
             end && all d'
         end) d
  | _, _ => false
  end.

(** ** Exceptions and fallible computations *)

Inductive exn : Type :=
| AttributeError
| KeyError
| TypeError
| IndexError
| ValueError
| OSError
| ClickException (msg : string).

Inductive outcome (A : Type) : Type :=
| Ok (a : A)
| Raise (e : exn).

Arguments Ok {A} a.
Arguments Raise {A} e.

Definition obind {A B} (m : outcome A) (k : A -> outcome B) : outcome B :=
  match m with
  | Ok a => k a
  | Raise e => Raise e
  end.

Declare Scope outcome_scope.
Delimit Scope outcome_scope with outcome.
Notation "x <- m ;; k" := (obind m (fun x => k))
  (at level 61, m at next level, right associativity) : outcome_scope.

(** ** Operations on values, with the exceptions Python raises *)

Module Py.
Local Open Scope outcome_scope.

(** [v.get(k, default)] for a string key: only dictionaries have [get]. *)
Definition get (v : value) (k : string) (default : value) : outcome value :=
  match v with
  | VDict d => Ok (match dict_get (KStr k) d with Some x => x | None => default end)
  | _ => Raise AttributeError
  end.

(** [v.items()] *)
Definition items (v : value) : outcome (list (key * value)) :=
  match v with
  | VDict d => Ok d
  | _ => Raise AttributeError
  end.

(** Position of a boolean used as a sequence index ([bool] is an [int]). *)
Definition bool_index (b : bool) : nat := if b then 1 else 0.

Definition char_at (n : nat) (s : string) : outcome value :=
  match String.get n s with
  | Some c => Ok (VStr (String c EmptyString))
  | None => Raise IndexError
  end.

Definition elem_at (n : nat) (l : list value) : outcome value :=
  match nth_error l n with
  | Some x => Ok x
  | None => Raise IndexError
  end.

(** [v[i]] *)
Definition getitem (v i : value) : outcome value :=
  match v with
  | VDict d =>
      match key_of_value i with
      | Some k => match dict_get k d with Some x => Ok x | None => Raise KeyError end
      | None => Raise TypeError
      end
  | VList l => match i with VBool b => elem_at (bool_index b) l | _ => Raise TypeError end
  | VStr s => match i with VBool b => char_at (bool_index b) s | _ => Raise TypeError end
  | VNone | VBool _ => Raise TypeError
  end.

(** [v[0]]: the integer 0 hashes and compares as [False]. *)
Definition getitem0 (v : value) : outcome value :=
  match v with
  | VDict d => match dict_get (KBool false) d with Some x => Ok x | None => Raise KeyError end
  | VList l => elem_at 0 l
  | VStr s => char_at 0 s
  | VNone | VBool _ => Raise TypeError
  end.

Fixpoint list_set (n : nat) (x : value) (l : list value) : option (list value) :=
  match l, n with
  | [], _ => None
  | _ :: r, O => Some (x :: r)
  | y :: r, S m => option_map (cons y) (list_set m x r)
  end.

(** [v[i] = x], returning the container after the assignment. *)
Definition setitem (v i x : value) : outcome value :=
  match v with
  | VDict d =>
      match key_of_value i with
      | Some k => Ok (VDict (dict_set k x d))
      | None => Raise TypeError
      end
  | VList l =>
      match i with
      | VBool b => match list_set (bool_index b) x l with
                   | Some l' => Ok (VList l')
                   | None => Raise IndexError
                   end
      | _ => Raise TypeError
      end
  | VStr _ | VNone | VBool _ => Raise TypeError
  end.

(** [x in v] *)
Definition contains (v x : value) : outcome bool :=
  match v with
  | VDict d =>
      match key_of_value x with
      | Some k => Ok (dict_mem k d)
      | None => Raise TypeError
      end
  | VList l => Ok (existsb (fun y => py_eq x y) l)
  | VStr s => match x with VStr t => Ok (PyStr.is_infix t s) | _ => Raise TypeError end
  | VNone | VBool _ => Raise TypeError
  end.

(** [v.append(x)], returning the list after the call. *)
Definition append (v x : value) : outcome value :=
  match v with
  | VList l => Ok (VList (l ++ [x]))
  | _ => Raise AttributeError
  end.

(** [len(v)] *)
Definition len (v : value) : outcome nat :=
  match v with
  | VList l => Ok (length l)
  | VDict d => Ok (length d)
  | VStr s => Ok (String.length s)
  | VNone | VBool _ => Raise TypeError
  end.

(** [v.lower()] *)
Definition lower (v : value) : outcome string :=
  match v with
  | VStr s => Ok (PyStr.lower s)
  | _ => Raise AttributeError
  end.

End Py.

(** ** [datetime]

    Naive dates and times as Python's [datetime] holds them, the text
    [isoformat()] writes ([YYYY-MM-DDTHH:MM:SS], followed by [.ffffff] when
    the microsecond is not zero) and [fromisoformat] on that text.  Any
    other string is taken as a malformed stamp ([ValueError]); the program
    itself writes no other form.  Python reads more texts than these (a
    date alone, another separator, an offset): what is proved of a stamp
    is proved of one that is read here. *)

Module Datetime.
Local Open Scope Z_scope.

Record datetime : Type := mk_datetime {
  year : Z; month : Z; day : Z;
  hour : Z; minute : Z; second : Z; microsecond : Z
}.

Definition is_leap (y : Z) : bool :=
  (y mod 4 =? 0) && (negb (y mod 100 =? 0) || (y mod 400 =? 0)).

Definition days_in_month (y m : Z) : Z :=
  if m =? 2 then (if is_leap y then 29 else 28)
  else if (m =? 4) || (m =? 6) || (m =? 9) || (m =? 11) then 30
  else 31.

Definition days_before_year (y : Z) : Z :=
  let p := y - 1 in p * 365 + p / 4 - p / 100 + p / 400.

Definition days_before_month (y m : Z) : Z :=
  fold_left (fun acc k => acc + days_in_month y (Z.of_nat k))
            (seq 1 (Z.to_nat (m - 1))) 0.

(** [d.toordinal()]: 1 for the first of January of year 1. *)
Definition toordinal (d : datetime) : Z :=
  days_before_year (year d) + days_before_month (year d) (month d) + day d.

(** Microseconds since the start of day 0. *)
Definition to_micro (d : datetime) : Z :=
  (((toordinal d * 24 + hour d) * 60 + minute d) * 60 + second d) * 1000000
  + microsecond d.

(** [a - b], a [timedelta], in microseconds. *)
Definition sub (a b : datetime) : Z := to_micro a - to_micro b.

(** [timedelta(hours=h)] in microseconds. *)
Definition timedelta_hours (h : Z) : Z := h * 3600 * 1000000.

Definition valid (d : datetime) : bool :=
  (1 <=? year d) && (year d <=? 9999) &&
  (1 <=? month d) && (month d <=? 12) &&
  (1 <=? day d) && (day d <=? days_in_month (year d) (month d)) &&
  (0 <=? hour d) && (hour d <? 24) &&
  (0 <=? minute d) && (minute d <? 60) &&
  (0 <=? second d) && (second d <? 60) &&
  (0 <=? microsecond d) && (microsecond d <? 1000000).

Definition digit (n : Z) : ascii := ascii_of_nat (48 + Z.to_nat (n mod 10)).

(** [n] written with [w] decimal digits, zero padded. *)
Fixpoint pad (w : nat) (n : Z) (tail : string) : string :=
  match w with
  | O => tail
  | S w' => pad w' (n / 10) (String (digit n) tail)
  end.

(** [d.isoformat()] *)
Definition isoformat (d : datetime) : string :=
  pad 4 (year d) (String "-" (pad 2 (month d) (String "-" (pad 2 (day d)
    (String "T" (pad 2 (hour d) (String ":" (pad 2 (minute d) (String ":"
      (pad 2 (second d)
         (if microsecond d =? 0 then EmptyString
          else String "." (pad 6 (microsecond d) EmptyString)))))))))))).

Definition digit_val (c : ascii) : option Z :=
  let n := nat_of_ascii c in
  if (48 <=? n)%nat && (n <=? 57)%nat then Some (Z.of_nat (n - 48)) else None.

(** Reads exactly [w] decimal digits off the front of [s]. *)
Fixpoint take_digits (w : nat) (acc : Z) (s : string) : option (Z * string) :=
  match w with
  | O => Some (acc, s)
  | S w' =>
      match s with
      | String c r =>
          match digit_val c with
          | Some v => take_digits w' (acc * 10 + v) r
          | None => None
          end
      | EmptyString => None
      end
  end.

(** Reads the one character [c] off the front of [s]. *)
Definition take_char (c : ascii) (s : string) : option string :=
  match s with
  | String a r => if Ascii.eqb a c then Some r else None
  | EmptyString => None
  end.

Definition obind' {A B} (m : option A) (k : A -> option B) : option B :=
  match m with Some a => k a | None => None end.

Definition parse (s : string) : option datetime :=
  obind' (take_digits 4 0 s) (fun '(y, s) =>
  obind' (take_char "-" s) (fun s =>
  obind' (take_digits 2 0 s) (fun '(mo, s) =>
  obind' (take_char "-" s) (fun s =>
  obind' (take_digits 2 0 s) (fun '(d, s) =>
  obind' (take_char "T" s) (fun s =>
  obind' (take_digits 2 0 s) (fun '(h, s) =>
  obind' (take_char ":" s) (fun s =>
  obind' (take_digits 2 0 s) (fun '(mi, s) =>
  obind' (take_char ":" s) (fun s =>
  obind' (take_digits 2 0 s) (fun '(sec, s) =>
  match s with
  | EmptyString => Some (mk_datetime y mo d h mi sec 0)
  | _ =>
      obind' (take_char "." s) (fun s =>
      obind' (take_digits 6 0 s) (fun '(us, s) =>
      match s with
      | EmptyString => Some (mk_datetime y mo d h mi sec us)
      | _ => None
      end))
  end))))))))))).

(** [datetime.fromisoformat(s)]; [None] stands for [ValueError]. *)
Definition fromisoformat (s : string) : option datetime :=
  match parse s with
  | Some d => if valid d then Some d else None
  | None => None
  end.

End Datetime.

Definition datetime : Type := Datetime.datetime.

(** [CACHE_TTL_HOURS] *)
Definition CACHE_TTL_HOURS : Z := 24.

(** ** The cache object and the file behind it

    [disk] is the file at [cache_path]: absent, holding text that
    [json.load] rejects, or holding a JSON document.  [data] is
    [self.data]. *)

Inductive file_state : Type :=
| FileMissing
| FileGarbage
| FileJson (doc : value).

Record world : Type := mk_world {
  data : value;
  disk : file_state
}.

(** Methods run on the world and either return or raise; what they wrote
    before raising stays written. *)
Definition M (A : Type) : Type := world -> outcome A * world.

Definition ret {A} (a : A) : M A := fun w => (Ok a, w).

Definition bind {A B} (m : M A) (k : A -> M B) : M B :=
  fun w => match m w with
           | (Ok a, w') => k a w'
           | (Raise e, w') => (Raise e, w')
           end.

Definition lift {A} (o : outcome A) : M A := fun w => (o, w).

Definition get_data : M value := fun w => (Ok (data w), w).

Definition set_data (v : value) : M unit :=
  fun w => (Ok tt, mk_world v (disk w)).

Definition write_disk (f : file_state) : M unit :=
  fun w => (Ok tt, mk_world (data w) f).

Declare Scope cache_scope.
Delimit Scope cache_scope with cache.
Notation "x <- m ;; k" := (bind m (fun x => k))
  (at level 61, m at next level, right associativity) : cache_scope.
Notation "m ;;; k" := (bind m (fun _ => k))
  (at level 61, right associativity) : cache_scope.

(** What [json.load] reads back from what [json.dump] wrote: keys become
    their JSON text, and of two keys with the same text the later value
    stays, at the place of the earlier key. *)
Definition key_text (k : key) : string :=
  match k with
  | KNone => "null"
  | KBool true => "true"
  | KBool false => "false"
  | KStr s => s
  end.

Fixpoint jsonify (v : value) : value :=
  match v with
  | VList l => VList (map jsonify l)
  | VDict d =>
      VDict ((fix go (d acc : list (key * value)) {struct d} : list (key * value) :=
                match d with
                | [] => acc
                | (k, x) :: r => go r (dict_set (KStr (key_text k)) (jsonify x) acc)
                end) d [])
  | _ => v
  end.

Module NotionCache.
Local Open Scope cache_scope.

(** The structure [_load] falls back to. *)
Definition empty_data : value :=
  VDict [ (KStr "pages", VDict []);
          (KStr "databases", VDict []);
          (KStr "hierarchy", VDict []);
          (KStr "last_refresh", VNone) ].

(** [self.cache_path.exists()] *)
Definition file_exists (f : file_state) : bool :=
  match f with FileMissing => false | _ => true end.

(** [json.load(open(path))] *)
Definition json_load (f : file_state) : outcome value :=
  match f with
  | FileMissing => Raise OSError
  | FileGarbage => Raise ValueError
  | FileJson doc => Ok doc
  end.

(** [try: body except Exception: handler] *)
Definition try_except {A} (body handler : outcome A) : outcome A :=
  match body with
  | Ok a => Ok a
  | Raise _ => handler
  end.

Definition _load (f : file_state) : outcome value :=
  if negb (file_exists f) then Ok empty_data
  else try_except (json_load f) (Ok empty_data).

(** [NotionCache(cache_path)] *)
Definition init (f : file_state) : outcome world :=
  obind (_load f) (fun d => Ok (mk_world d f)).

Definition _save : M unit :=
  d <- get_data ;;
  write_disk (FileJson (jsonify d)).

(** [datetime.fromisoformat(v)] *)
Definition py_fromisoformat (v : value) : outcome datetime :=
  match v with
  | VStr s => match Datetime.fromisoformat s with
              | Some d => Ok d
              | None => Raise ValueError
              end
  | _ => Raise TypeError
  end.

(** [is_stale], [now] being what [datetime.now()] reads. *)
Definition is_stale (now : datetime) : M bool :=
  d <- get_data ;;
  lr <- lift (Py.get d "last_refresh" VNone) ;;
  if negb (truthy lr) then ret true
  else
    d <- get_data ;;
    s <- lift (Py.getitem d (VStr "last_refresh")) ;;
    last_refresh <- lift (py_fromisoformat s) ;;
    ret (Z.gtb (Datetime.sub now last_refresh)
               (Datetime.timedelta_hours CACHE_TTL_HOURS)).

(** [a or b], [b] being evaluated only when [a] is falsy. *)
Definition py_or (a : value) (b : outcome value) : outcome value :=
  if truthy a then Ok a else b.

(** The title of a search result (lines 129-137). *)
Definition extract_title (item obj_type : value) : outcome value :=
  (if py_eq obj_type (VStr "page") then
     props <- Py.get item "properties" (VDict []) ;;
     t <- Py.get props "title" VNone ;;
     title_prop <- py_or t (Py.get props "Name" VNone) ;;
     if truthy title_prop then
       tt <- Py.get title_prop "title" VNone ;;
       if truthy tt then
         arr <- Py.getitem title_prop (VStr "title") ;;
         first <- Py.getitem0 arr ;;
         Py.get first "plain_text" (VStr "Untitled")
       else Ok (VStr "Untitled")
     else Ok (VStr "Untitled")
   else if py_eq obj_type (VStr "database") then
     t <- Py.get item "title" VNone ;;
     if truthy t then
       arr <- Py.getitem item (VStr "title") ;;
       n <- Py.len arr ;;
       if (0 <? n)%nat then
         arr <- Py.getitem item (VStr "title") ;;
         first <- Py.getitem0 arr ;;
         Py.get first "plain_text" (VStr "Untitled")
       else Ok (VStr "Untitled")
     else Ok (VStr "Untitled")
   else Ok (VStr "Untitled"))%outcome.

(** [parent.get("page_id") or parent.get("database_id") or
    parent.get("workspace")] *)
Definition extract_parent_id (parent : value) : outcome value :=
  (p <- Py.get parent "page_id" VNone ;;
   py_or p (d <- Py.get parent "database_id" VNone ;;
            py_or d (Py.get parent "workspace" VNone)))%outcome.

(** [self.data[coll][k] = x] *)
Definition store (coll : string) (k x : value) : M unit :=
  d <- get_data ;;
  c <- lift (Py.getitem d (VStr coll)) ;;
  c' <- lift (Py.setitem c k x) ;;
  d' <- lift (Py.setitem d (VStr coll) c') ;;
  set_data d'.

(** [self.data["hierarchy"]] *)
Definition hierarchy : M value :=
  d <- get_data ;;
  lift (Py.getitem d (VStr "hierarchy")).

(** Lines 159-163. *)
Definition update_hierarchy (parent_id item_id : value) : M unit :=
  if truthy parent_id && negb (py_eq parent_id (VStr "workspace")) then
    h <- hierarchy ;;
    known <- lift (Py.contains h parent_id) ;;
    (if negb known then store "hierarchy" parent_id (VList []) else ret tt) ;;;
    h <- hierarchy ;;
    children <- lift (Py.getitem h parent_id) ;;
    listed <- lift (Py.contains children item_id) ;;
    if negb listed then
      h <- hierarchy ;;
      children <- lift (Py.getitem h parent_id) ;;
      children' <- lift (Py.append children item_id) ;;
      store "hierarchy" parent_id children'
    else ret tt
  else ret tt.

(** The body of the loop of [update_from_search] on one result, [now]
    being what [datetime.now()] reads for it. *)
Definition update_item (now : datetime) (item : value) : M unit :=
  obj_type <- lift (Py.get item "object" VNone) ;;
  item_id <- lift (Py.get item "id" VNone) ;;
  title <- lift (extract_title item obj_type) ;;
  parent <- lift (Py.get item "parent" (VDict [])) ;;
  parent_id <- lift (extract_parent_id parent) ;;
  url <- lift (Py.get item "url" VNone) ;;
  archived <- lift (Py.get item "archived" (VBool false)) ;;
  let cache_entry :=
    VDict [ (KStr "id", item_id);
            (KStr "title", title);
            (KStr "parent_id", parent_id);
            (KStr "url", url);
            (KStr "last_seen", VStr (Datetime.isoformat now));
            (KStr "archived", archived) ] in
  (if py_eq obj_type (VStr "page") then store "pages" item_id cache_entry
   else if py_eq obj_type (VStr "database") then store "databases" item_id cache_entry
   else ret tt) ;;;
  update_hierarchy parent_id item_id.

(** The loop over the results; [clock n] is the [n]-th reading of
    [datetime.now()] from here on. *)
Fixpoint update_items (clock : nat -> datetime) (results : list value) : M unit :=
  match results with
  | [] => ret tt
  | item :: rest =>
      update_item (clock O) item ;;;
      update_items (fun n => clock (S n)) rest
  end.

Definition update_from_search (clock : nat -> datetime) (results : list value) : M unit :=
  update_items clock results ;;;
  d <- get_data ;;
  d' <- lift (Py.setitem d (VStr "last_refresh")
                (VStr (Datetime.isoformat (clock (length results))))) ;;
  set_data d' ;;;
  _save.

(** The loop of [_find_by_title] over [collection.items()]: the
    identifiers whose entry matches, in iteration order. *)
Fixpoint matching (title : string) (parent_id : value)
         (items : list (key * value)) : outcome (list value) :=
  match items with
  | [] => Ok []
  | (item_id, item) :: rest =>
      (t <- Py.getitem item (VStr "title") ;;
       tl <- Py.lower t ;;
       hit <- (if String.eqb tl (PyStr.lower title) then
                 if is_none parent_id then Ok true
                 else p <- Py.get item "parent_id" VNone ;;
                      Ok (py_eq p parent_id)
               else Ok false) ;;
       more <- matching title parent_id rest ;;
       Ok (if hit then value_of_key item_id :: more else more))%outcome
  end.

Definition _find_by_title (title obj_type : string) (parent_id : value) : M value :=
  d <- get_data ;;
  collection <- lift (Py.get d (if String.eqb obj_type "page" then "pages" else "databases")
                             (VDict [])) ;;
  items <- lift (Py.items collection) ;;
  matches <- lift (matching title parent_id items) ;;
  ret (match matches with
       | m :: _ => m
       | [] => VNone
       end).

(** The loop of [find_by_path]; [i] is the index [enumerate] gives. *)
Fixpoint traverse (obj_type : string) (i : nat) (parts : list string)
         (current_id : value) : M value :=
  match parts with
  | [] => ret current_id
  | part :: rest =>
      current_id <- (if Nat.eqb i 0 then _find_by_title part obj_type VNone
                     else _find_by_title part obj_type current_id) ;;
      if negb (truthy current_id) then ret VNone
      else traverse obj_type (S i) rest current_id
  end.

Definition find_by_path (path obj_type : string) : M value :=
  let parts := map PyStr.strip (PyStr.split "/" path) in
  if Nat.eqb (length parts) 1 then
    _find_by_title (nth 0 parts EmptyString) obj_type VNone
  else traverse obj_type 0 parts VNone.

(** The loop of [get_title] over the two collections. *)
Fixpoint get_title_in (collections : list string) (item_id : string) : M value :=
  match collections with
  | [] => ret VNone
  | collection :: rest =>
      d <- get_data ;;
      c <- lift (Py.get d collection (VDict [])) ;;
      item <- lift (Py.get c item_id VNone) ;;
      if truthy item then lift (Py.getitem item (VStr "title"))
      else get_title_in rest item_id
  end.

Definition get_title (item_id : string) : M value :=
  get_title_in ["pages"; "databases"] item_id.

End NotionCache.

(** ** The resolver *)

(** [is_uuid] *)
Definition is_uuid (value : string) : bool :=
  let cleaned := PyStr.remove_char "-" value in
  Nat.eqb (String.length cleaned) 32 &&
  PyStr.all_chars (fun c => PyStr.mem_char c "0123456789abcdef") (PyStr.lower cleaned).

(** What [resolve_id] asks of its collaborators: the two cache methods,
    the gateway's [search_notion] and [click.echo].  A program is the tree
    of the calls it makes, each with the continuation that receives the
    reply. *)
Inductive call : Type -> Type :=
| FindByPath (path obj_type : string) : call value
| UpdateFromSearch (results : list value) : call unit
| SearchNotion (api_key query filter_type : string) : call (list value)
| Echo (msg : string) : call unit.

Inductive prog (A : Type) : Type :=
| Return (a : A)
| Throw (e : exn)
| Call (R : Type) (c : call R) (k : R -> prog A).

Arguments Return {A} a.
Arguments Throw {A} e.
Arguments Call {A R} c k.

Declare Scope prog_scope.
Delimit Scope prog_scope with prog.
Notation "x <- c ;; k" := (Call c (fun x => k))
  (at level 61, c at next level, right associativity) : prog_scope.

Definition not_found_message (obj_type name_or_id : string) : string :=
  "Could not find " ++ obj_type ++ " '" ++ name_or_id ++ "'".

Definition searching_message (name_or_id : string) : string :=
  "🔍 '" ++ name_or_id ++ "' not in cache, searching...".

(** [resolve_id(cache, name_or_id, obj_type, api_key)] *)
Definition resolve_id (name_or_id obj_type api_key : string) : prog value :=
  (if is_uuid name_or_id then Return (VStr name_or_id)
   else
     resolved_id <- FindByPath name_or_id obj_type ;;
     if truthy resolved_id then Return resolved_id
     else
       _ <- Echo (searching_message name_or_id) ;;
       results <- SearchNotion api_key
                    (PyStr.last_of (PyStr.split "/" name_or_id)) obj_type ;;
       match results with
       | _ :: _ =>
           _ <- UpdateFromSearch results ;;
           resolved_id <- FindByPath name_or_id obj_type ;;
           if truthy resolved_id then Return resolved_id
           else Throw (ClickException (not_found_message obj_type name_or_id))
       | [] => Throw (ClickException (not_found_message obj_type name_or_id))
       end)%prog.

(** A call that was made, whatever its reply type. *)
Inductive made : Type :=
| Made (R : Type) (c : call R).

Arguments Made {R} c.

Section Run.
(** The gateway: what [search_notion(api_key, query, filter_type)]
    returns or raises. *)
Variable search_notion : string -> string -> string -> outcome (list value).
(** The readings of [datetime.now()] during [update_from_search]. *)
Variable clock : nat -> datetime.

Definition perform {R} (c : call R) : M R :=
  match c in call R return M R with
  | FindByPath path obj_type => NotionCache.find_by_path path obj_type
  | UpdateFromSearch results => NotionCache.update_from_search clock results
  | SearchNotion api_key query filter_type =>
    lift (search_notion api_key query filter_type)
  | Echo _ => ret tt
  end.

(** Runs a program against the cache and the gateway: its outcome, the
    world it leaves and the calls it made, in order. *)
Fixpoint run {A} (p : prog A) (w : world) : outcome A * world * list made :=
  match p with
  | Return a => (Ok a, w, [])
  | Throw e => (Raise e, w, [])
  | Call c k =>
      match perform c w with
      | (Ok r, w') =>
          let '(o, w'', t) := run (k r) w' in (o, w'', Made c :: t)
      | (Raise e, w') => (Raise e, w', [Made c])
      end
  end.

End Run.

(** ** Search results and cache states of the expected shape *)

(** The parent reference of a remote object. *)
Inductive parent_ref : Type :=
| PageParent (id : string)
| DatabaseParent (id : string)
| BlockParent (id : string)
| WorkspaceParent.

Inductive object_kind : Type :=
| Page
| Database.

(** A well-formed search result: a page or a database as the search
    endpoint returns it.  [r_title] holds the [plain_text] of the rich-text
    items of the title; for a page, [r_title_name] is the name of its title
    property. *)
Record search_result : Type := mk_result {
  r_object : object_kind;
  r_id : string;
  r_title_name : string;
  r_title : list string;
  r_parent : parent_ref;
  r_url : string;
  r_archived : bool
}.

Definition encode_rich_text (t : string) : value :=
  VDict [ (KStr "type", VStr "text"); (KStr "plain_text", VStr t) ].

Definition encode_parent (p : parent_ref) : value :=
  match p with
  | PageParent id => VDict [ (KStr "type", VStr "page_id"); (KStr "page_id", VStr id) ]
  | DatabaseParent id =>
      VDict [ (KStr "type", VStr "database_id"); (KStr "database_id", VStr id) ]
  | BlockParent id => VDict [ (KStr "type", VStr "block_id"); (KStr "block_id", VStr id) ]
  | WorkspaceParent => VDict [ (KStr "type", VStr "workspace"); (KStr "workspace", VBool true) ]
  end.

(** The JSON object of a search result. *)
Definition encode (r : search_result) : value :=
  match r_object r with
  | Page =>
      VDict [ (KStr "object", VStr "page");
              (KStr "id", VStr (r_id r));
              (KStr "parent", encode_parent (r_parent r));
              (KStr "archived", VBool (r_archived r));
              (KStr "properties",
                VDict [ (KStr (r_title_name r),
                          VDict [ (KStr "id", VStr "title");
                                  (KStr "type", VStr "title");
                                  (KStr "title", VList (map encode_rich_text (r_title r))) ]) ]);
              (KStr "url", VStr (r_url r)) ]
  | Database =>
      VDict [ (KStr "object", VStr "database");
              (KStr "id", VStr (r_id r));
              (KStr "title", VList (map encode_rich_text (r_title r)));
              (KStr "parent", encode_parent (r_parent r));
              (KStr "url", VStr (r_url r));
              (KStr "archived", VBool (r_archived r)) ]
  end.

(** The document of a cache: the four keys in the order [_load] and
    [_save] keep them. *)
Definition cache_data (pages databases hier : list (key * value)) (last_refresh : value) : value :=
  VDict [ (KStr "pages", VDict pages);
          (KStr "databases", VDict databases);
          (KStr "hierarchy", VDict hier);
          (KStr "last_refresh", last_refresh) ].

(** An entry the lookups can read: a dictionary with a string title. *)
Definition entry_ok (e : value) : bool :=
  match e with
  | VDict fields =>
      match dict_get (KStr "title") fields with
      | Some (VStr _) => true
      | _ => false
      end
  | _ => false
  end.

Definition coll_ok (c : list (key * value)) : bool :=
  forallb (fun kv => entry_ok (snd kv)) c.

(** Every parent of the hierarchy index maps to a list. *)
Definition hier_ok (h : list (key * value)) : bool :=
  forallb (fun kv => match snd kv with VList _ => true | _ => false end) h.

(** [last_refresh] is [None] or a stamp [fromisoformat] reads. *)
Definition stamp_ok (lr : value) : bool :=
  match lr with
  | VNone => true
  | VStr s => match Datetime.fromisoformat s with Some _ => true | None => false end
  | _ => false
  end.

(** A method that reads: whatever it returns or raises, it leaves the
    world as it found it. *)
Definition readonly {A} (m : M A) : Prop :=
  forall w, snd (m w) = w.

(** An identifier-shaped name, in the words of the resolver's contract:
    with the hyphens taken out, exactly 32 characters, each a hexadecimal
    digit of either case. *)
Definition is_hex_digit (c : ascii) : bool :=
  PyStr.mem_char c "0123456789abcdefABCDEF".

Definition identifier_shaped (s : string) : Prop :=
  let t := PyStr.remove_char "-" s in
  String.length t = 32%nat /\
  Forall (fun c => is_hex_digit c = true) (list_ascii_of_string t).

(** [last_refresh] is absent from the document, or holds a falsy value. *)
Definition never_refreshed (d : list (key * value)) : Prop :=
  match dict_get (KStr "last_refresh") d with
  | None => True
  | Some v => truthy v = false
  end.

(** ** What the methods compute on a cache of the expected shape

    The functions below describe, on the parts of a well-shaped document,
    what the methods above do to them; the properties prove that
    description before they use it. *)

Definition world_of (pages databases hier : list (key * value))
           (last_refresh : value) (f : file_state) : world :=
  mk_world (cache_data pages databases hier last_refresh) f.

(** The collection [_find_by_title] reads for [obj_type]. *)
Definition collection_of (obj_type : string) (pages databases : list (key * value))
  : list (key * value) :=
  if String.eqb obj_type "page" then pages else databases.

(** The entry's title equals [title], case ignored. *)
Definition title_matches (title : string) (e : value) : bool :=
  match e with
  | VDict fields =>
      match dict_get (KStr "title") fields with
      | Some (VStr t) => String.eqb (PyStr.lower t) (PyStr.lower title)
      | _ => false
      end
  | _ => false
  end.

(** [e.get("parent_id") == parent] *)
Definition child_of (parent : value) (e : value) : bool :=
  match e with
  | VDict fields =>
      py_eq (match dict_get (KStr "parent_id") fields with
             | Some v => v
             | None => VNone
             end) parent
  | _ => false
  end.

(** The identifier of the first entry, in the order of the collection,
    that satisfies [pred]; [None] when there is none. *)
Definition first_by (pred : value -> bool) (c : list (key * value)) : value :=
  match filter (fun kv => pred (snd kv)) c with
  | kv :: _ => value_of_key (fst kv)
  | [] => VNone
  end.

(** First entry with the title, whatever its parent. *)
Definition first_titled (title : string) (c : list (key * value)) : value :=
  first_by (title_matches title) c.

(** First entry with the title among the children of [parent]. *)
Definition first_child (title : string) (parent : value) (c : list (key * value)) : value :=
  first_by (fun e => title_matches title e && child_of parent e) c.

(** Segments after the first: each is looked up among the children of the
    identifier resolved so far. *)
Fixpoint descend (c : list (key * value)) (segments : list string) (current : value) : value :=
  match segments with
  | [] => current
  | s :: rest =>
      let next := first_child s current c in
      if truthy next then descend c rest next else VNone
  end.

(** Path resolution: the first segment by title alone, the others by
    title under the identifier resolved so far. *)
Definition resolve_path (c : list (key * value)) (segments : list string) : value :=
  match segments with
  | [] => VNone
  | [s] => first_titled s c
  | s :: rest =>
      let root := first_titled s c in
      if truthy root then descend c rest root else VNone
  end.

(** The segments [find_by_path] walks. *)
Definition segments_of (path : string) : list string :=
  map PyStr.strip (PyStr.split "/" path).

(** The [object] field of a result. *)
Definition kind_name (k : object_kind) : string :=
  match k with
  | Page => "page"
  | Database => "database"
  end.

(** The title [update_from_search] stores for a result. *)
Definition first_plain_text (title : list string) : value :=
  match title with
  | t :: _ => VStr t
  | [] => VStr "Untitled"
  end.

Definition title_of (r : search_result) : value :=
  match r_object r with
  | Page =>
      if String.eqb (r_title_name r) "title" || String.eqb (r_title_name r) "Name"
      then first_plain_text (r_title r)
      else VStr "Untitled"
  | Database => first_plain_text (r_title r)
  end.

(** The [parent_id] it stores: the identifier of a page or database
    parent, the flag [True] of a workspace parent, [None] otherwise. *)
Definition parent_id_of (r : search_result) : value :=
  match r_parent r with
  | PageParent id | DatabaseParent id => if String.eqb id "" then VNone else VStr id
  | BlockParent _ => VNone
  | WorkspaceParent => VBool true
  end.

(** The cache entry it builds at clock reading [now]. *)
Definition entry_of (now : datetime) (r : search_result) : value :=
  VDict [ (KStr "id", VStr (r_id r));
          (KStr "title", title_of r);
          (KStr "parent_id", parent_id_of r);
          (KStr "url", VStr (r_url r));
          (KStr "last_seen", VStr (Datetime.isoformat now));
          (KStr "archived", VBool (r_archived r)) ].

(** The key of the hierarchy index a result is filed under, if any. *)
Definition hier_key_of (r : search_result) : option key :=
  match parent_id_of r with
  | VStr id => if String.eqb id "workspace" then None else Some (KStr id)
  | VBool true => Some (KBool true)
  | _ => None
  end.

(** Filing [child] under [k] in a hierarchy index whose values are lists. *)
Definition hier_add (k : key) (child : value) (h : list (key * value)) : list (key * value) :=
  let h1 := if dict_mem k h then h else dict_set k (VList []) h in
  match dict_get k h1 with
  | Some (VList l) =>
      if existsb (fun y => py_eq child y) l then h1
      else dict_set k (VList (l ++ [child])) h1
  | _ => h1
  end.

Definition step_pages (now : datetime) (r : search_result) (p : list (key * value)) :=
  match r_object r with
  | Page => dict_set (KStr (r_id r)) (entry_of now r) p
  | Database => p
  end.

Definition step_databases (now : datetime) (r : search_result) (q : list (key * value)) :=
  match r_object r with
  | Page => q
  | Database => dict_set (KStr (r_id r)) (entry_of now r) q
  end.

Definition step_hier (r : search_result) (h : list (key * value)) :=
  match hier_key_of r with
  | Some k => hier_add k (VStr (r_id r)) h
  | None => h
  end.

(** The three parts after the loop of [update_from_search] has run over
    [results] with the readings of [clock]. *)
Fixpoint fold_pages (clock : nat -> datetime) (results : list search_result)
         (p : list (key * value)) : list (key * value) :=
  match results with
  | [] => p
  | r :: rest => fold_pages (fun n => clock (S n)) rest (step_pages (clock O) r p)
  end.

Fixpoint fold_databases (clock : nat -> datetime) (results : list search_result)
         (q : list (key * value)) : list (key * value) :=
  match results with
  | [] => q
  | r :: rest => fold_databases (fun n => clock (S n)) rest (step_databases (clock O) r q)
  end.

Fixpoint fold_hier (results : list search_result) (h : list (key * value))
  : list (key * value) :=
  match results with
  | [] => h
  | r :: rest => fold_hier rest (step_hier r h)
  end.

(** The document after [update_from_search]. *)
Definition updated_data (clock : nat -> datetime) (R : list search_result)
           (p q h : list (key * value)) : value :=
  cache_data (fold_pages clock R p) (fold_databases clock R q) (fold_hier R h)
             (VStr (Datetime.isoformat (clock (length R)))).

(** The entry [e] with its [parent_id] replaced by [v]. *)
Definition with_parent (v : value) (e : value) : value :=
  match e with
  | VDict fields => VDict (dict_set (KStr "parent_id") v fields)
  | _ => e
  end.

(** The collection with the [parent_id] of every entry replaced, entry
    [k] getting [g k]. *)
Definition reparent (g : key -> value) (c : list (key * value)) : list (key * value) :=
  map (fun kv => (fst kv, with_parent (g (fst kv)) (snd kv))) c.

(** ** Successive writes to one dictionary

    [put_all kv l d] is [d] after the items of [l] were processed in order,
    item [a] assigning [d[k] = v] when [kv a] is [Some (k, v)] and leaving
    [d] alone otherwise; [last_put kv l k] is the value the last
    assignment to [k] wrote, if any. *)
Section Overwrite.
Variable A : Type.
Variable kv : A -> option (key * value).

Definition put (a : A) (d : list (key * value)) : list (key * value) :=
  match kv a with
  | Some (k, v) => dict_set k v d
  | None => d
  end.

Fixpoint put_all (l : list A) (d : list (key * value)) : list (key * value) :=
  match l with
  | [] => d
  | a :: r => put_all r (put a d)
  end.

Fixpoint last_put (l : list A) (k : key) : option value :=
  match l with
  | [] => None
  | a :: r =>
      match last_put r k with
      | Some v => Some v
      | None =>
          match kv a with
          | Some (k', v) => if key_eqb k' k then Some v else None
          | None => None
          end
      end
  end.

End Overwrite.

(** The results of a call with the clock reading each one is given. *)
Fixpoint stamped (clock : nat -> datetime) (results : list search_result)
  : list (datetime * search_result) :=
  match results with
  | [] => []
  | r :: rest => (clock O, r) :: stamped (fun n => clock (S n)) rest
  end.

(** The assignment a stamped result makes to [pages], to [databases]. *)
Definition page_put (tr : datetime * search_result) : option (key * value) :=
  match r_object (snd tr) with
  | Page => Some (KStr (r_id (snd tr)), entry_of (fst tr) (snd tr))
  | Database => None
  end.

Definition database_put (tr : datetime * search_result) : option (key * value) :=
  match r_object (snd tr) with
  | Page => None
  | Database => Some (KStr (r_id (snd tr)), entry_of (fst tr) (snd tr))
  end.

(** [child] is listed under [k] in the hierarchy index. *)
Definition filed (k : key) (child : value) (h : list (key * value)) : Prop :=
  exists l, dict_get k h = Some (VList l) /\ existsb (fun y => py_eq child y) l = true.

(** An entry, a collection and a document with the time stamps
    ([last_seen], [last_refresh]) blanked. *)
Definition forget_seen (e : value) : value :=
  match e with
  | VDict fields => VDict (dict_set (KStr "last_seen") VNone fields)
  | _ => e
  end.

Definition forget_coll (c : list (key * value)) : list (key * value) :=
  map (fun kv => (fst kv, forget_seen (snd kv))) c.

Definition forget_field (kv : key * value) : key * value :=
  match fst kv with
  | KStr name =>
      if String.eqb name "pages" || String.eqb name "databases" then
        (fst kv, match snd kv with VDict c => VDict (forget_coll c) | v => v end)
      else if String.eqb name "last_refresh" then (fst kv, VNone)
      else kv
  | _ => kv
  end.

Definition forget_times (d : value) : value :=
  match d with
  | VDict top => VDict (map forget_field top)
  | _ => d
  end.

(** The entry of a result with its [last_seen] blanked, and the
    assignments that write it. *)
Definition blank_entry (r : search_result) : value :=
  VDict [ (KStr "id", VStr (r_id r));
          (KStr "title", title_of r);
          (KStr "parent_id", parent_id_of r);
          (KStr "url", VStr (r_url r));
          (KStr "last_seen", VNone);
          (KStr "archived", VBool (r_archived r)) ].

Definition blank_page_put (r : search_result) : option (key * value) :=
  match r_object r with
  | Page => Some (KStr (r_id r), blank_entry r)
  | Database => None
  end.

Definition blank_database_put (r : search_result) : option (key * value) :=
  match r_object r with
  | Page => None
  | Database => Some (KStr (r_id r), blank_entry r)
  end.

(** An assignment of a kind to every identifier, as the remote store
    has it: [pages] holds only identifiers of pages, [databases] only
    identifiers of databases, and a result has the kind of its identifier. *)
Definition keys_of_kind (kind_of : string -> object_kind) (k : object_kind)
           (c : list (key * value)) : Prop :=
  forall key, dict_mem key c = true -> exists id, key = KStr id /\ kind_of id = k.

Definition result_of_kind (kind_of : string -> object_kind) (r : search_result) : Prop :=
  r_object r = kind_of (r_id r).

(** No identifier in both mappings. *)
Definition disjoint_keys (p q : list (key * value)) : Prop :=
  forall key, dict_mem key p = true -> dict_mem key q = true -> False.

(** A sequence of calls of [update_from_search], each with its clock. *)
Fixpoint update_all (calls : list ((nat -> datetime) * list search_result)) : M unit :=
  match calls with
  | [] => ret tt
  | (clock, results) :: rest =>
      bind (NotionCache.update_from_search clock (map encode results))
           (fun _ => update_all rest)
  end.

(** The name of the collection a result is stored in. *)
Definition collection_name (k : object_kind) : string :=
  match k with
  | Page => "pages"
  | Database => "databases"
  end.




(** ** Caches, results, clocks and gateways of the examples *)

(** The cache of a first run, with no file yet. *)
Definition fresh_world : world := mk_world NotionCache.empty_data FileMissing.

Definition noon (d : Z) : datetime := Datetime.mk_datetime 2024 1 d 12 0 0 0.

(** A clock that reads [t] every time. *)
Definition frozen (t : datetime) : nat -> datetime := fun _ => t.

Definition no_results : string -> string -> string -> outcome (list value) :=
  fun _ _ _ => Ok [].

(** An empty cache last refreshed at [stamp]. *)
Definition refreshed_world (stamp : string) : world :=
  mk_world (cache_data [] [] [] (VStr stamp)) FileMissing.

(** A cache whose only page titled "A" has a parent that is not cached. *)
Definition orphan_pages : list (key * value) :=
  [ (KStr "a", VDict [ (KStr "id", VStr "a"); (KStr "title", VStr "A");
                       (KStr "parent_id", VStr "zzz") ]);
    (KStr "b", VDict [ (KStr "id", VStr "b"); (KStr "title", VStr "B");
                       (KStr "parent_id", VStr "a") ]) ].

(** A chain Parent / Mid / Leaf whose middle node is a database. *)
Definition mixed_pages : list (key * value) :=
  [ (KStr "parent", VDict [ (KStr "id", VStr "parent"); (KStr "title", VStr "Parent");
                            (KStr "parent_id", VBool true) ]);
    (KStr "leaf", VDict [ (KStr "id", VStr "leaf"); (KStr "title", VStr "Leaf");
                          (KStr "parent_id", VStr "mid") ]) ].

Definition mixed_databases : list (key * value) :=
  [ (KStr "mid", VDict [ (KStr "id", VStr "mid"); (KStr "title", VStr "Mid");
                         (KStr "parent_id", VStr "parent") ]) ].

(** A file that parses as JSON but is not a cache: an entry without a
    title, no [databases], a stamp that is no date. *)
Definition malformed_doc : value :=
  VDict [ (KStr "pages", VDict [ (KStr "p1", VDict [ (KStr "id", VStr "p1") ]) ]);
          (KStr "last_refresh", VStr "yesterday") ].

Definition malformed_world : world := mk_world malformed_doc (FileJson malformed_doc).

Definition tasks_database : search_result :=
  mk_result Database "d1" "" ["Tasks"] WorkspaceParent "https://notion.so/d1" false.

(** A page at the top of the workspace, and two results that report one
    identifier under both kinds. *)
Definition notes_page : search_result :=
  mk_result Page "p1" "title" ["Notes"] WorkspaceParent "https://notion.so/p1" false.

Definition clashing_results : list search_result :=
  [ mk_result Page "x" "title" ["One"] WorkspaceParent "https://notion.so/x" false;
    mk_result Database "x" "" ["Two"] WorkspaceParent "https://notion.so/x" false ].

(** A gateway that answers every search with the one page "Notes". *)
Definition finds_notes : string -> string -> string -> outcome (list value) :=
  fun _ _ _ => Ok [encode notes_page].

(** ** Further shapes of caches *)

(** Every identifier of the collection is a string, as in any document
    read back from the cache file. *)
Definition string_keys (c : list (key * value)) : bool :=
  forallb (fun kv => match fst kv with KStr _ => true | _ => false end) c.

(** The three mappings of a cache, as the methods read them off
    [self.data]; the empty mapping where the document has none. *)
Definition mapping_of (name : string) (w : world) : list (key * value) :=
  match Py.getitem (data w) (VStr name) with
  | Ok (VDict c) => c
  | _ => []
  end.

Definition pages_of (w : world) : list (key * value) := mapping_of "pages" w.
Definition databases_of (w : world) : list (key * value) := mapping_of "databases" w.
Definition hierarchy_of (w : world) : list (key * value) := mapping_of "hierarchy" w.

(** No child is listed twice under one parent. *)
Definition children_distinct (h : list (key * value)) : Prop :=
  forall k l, dict_get k h = Some (VList l) -> NoDup l.

(** The identifier of a parent the hierarchy index files children under:
    a page or a database, its identifier neither empty nor the word
    "workspace". *)
Definition indexed_parent (r : search_result) : option string :=
  match r_parent r with
  | PageParent id | DatabaseParent id =>
      if String.eqb id "" || String.eqb id "workspace" then None else Some id
  | BlockParent _ | WorkspaceParent => None
  end.

(** The world [update_from_search] leaves. *)
Definition after_update (clock : nat -> datetime) (R : list search_result) (w : world) : world :=
  snd (NotionCache.update_from_search clock (map encode R) w).

(** ** Documents the cache file holds as they are *)

(** No key occurs twice. *)
Fixpoint distinct_keys (d : list (key * value)) : bool :=
  match d with
  | [] => true
  | (k, _) :: r => negb (dict_mem k r) && distinct_keys r
  end.

(** A value that JSON represents exactly: every dictionary in it has
    string keys, each once. *)
Fixpoint json_stable (v : value) : bool :=
  match v with
  | VList l => forallb json_stable l
  | VDict d =>
      string_keys d && distinct_keys d && forallb (fun kv => json_stable (snd kv)) d
  | _ => true
  end.

(** The items of a dictionary as [json.load] reads them back, added to
    those read so far. *)
Fixpoint json_items (d acc : list (key * value)) : list (key * value) :=
  match d with
  | [] => acc
  | (k, x) :: r => json_items r (dict_set (KStr (key_text k)) (jsonify x) acc)
  end.

(** A cache object made from the file another one saved. *)
Definition save_and_reopen (w : world) : outcome world :=
  NotionCache.init (disk (snd (NotionCache._save w))).

(** A page under the page of [notes_page]. *)
Definition child_page : search_result :=
  mk_result Page "c1" "title" ["Child"] (PageParent "p1") "https://notion.so/c1" false.

(** A cache with a page whose title holds a slash. *)
Definition slash_pages : list (key * value) :=
  [ (KStr "s", VDict [ (KStr "id", VStr "s"); (KStr "title", VStr "Plans/2024");
                       (KStr "parent_id", VNone) ]) ].

(** One more step down a path: [title] among the children of [parent],
    as the loop of [find_by_path] looks a segment up after the first one:
    a falsy result ends the walk with [None]. *)
Definition find_child (title obj_type : string) (parent : value) : M value :=
  bind (NotionCache._find_by_title title obj_type parent)
       (fun v => ret (if truthy v then v else VNone)).

(** [isinstance(v, dict)] *)
Definition is_dict (v : value) : bool :=
  match v with VDict _ => true | _ => false end.

(** ** Builders of request bodies

    The builders put their arguments into the objects they build whatever
    their type.  [obj] is the universe they work on: the values above, the
    integers and the [datetime] objects; the keys of its dictionaries are
    the hashable values as before. *)

Inductive obj : Type :=
| ONone
| OBool (b : bool)
| ONum (n : Z)
| OStr (s : string)
| OMoment (d : datetime)
| OList (l : list obj)
| ODict (d : list (key * obj)).

(** [bool(o)] *)
Definition obj_truthy (o : obj) : bool :=
  match o with
  | ONone => false
  | OBool b => b
  | ONum n => negb (Z.eqb n 0)
  | OStr s => negb (String.eqb s "")
  | OMoment _ => true
  | OList l => match l with [] => false | _ => true end
  | ODict d => match d with [] => false | _ => true end
  end.

(** [isinstance(o, str)] *)
Definition is_str (o : obj) : bool :=
  match o with OStr _ => true | _ => false end.

(** [s in names], for a string and a sequence of strings. *)
Definition str_in (s : string) (names : list string) : bool :=
  existsb (String.eqb s) names.

(** [o in names], for any object and a sequence of strings. *)
Definition obj_in (o : obj) (names : list string) : bool :=
  match o with
  | OStr s => str_in s names
  | _ => false
  end.

(** [a or b] *)
Definition obj_or (a b : obj) : obj := if obj_truthy a then a else b.

(** [d.get(k, default)] on a dictionary with string keys. *)
Definition kw_get (d : list (key * obj)) (k : string) (default : obj) : obj :=
  match dict_get (KStr k) d with
  | Some x => x
  | None => default
  end.

(** [o[k]] and [o[k] = x] for a string [k]. *)
Definition obj_getitem (o : obj) (k : string) : outcome obj :=
  match o with
  | ODict d => match dict_get (KStr k) d with Some x => Ok x | None => Raise KeyError end
  | _ => Raise TypeError
  end.

Definition obj_setitem (o : obj) (k : string) (x : obj) : outcome obj :=
  match o with
  | ODict d => Ok (ODict (dict_set (KStr k) x d))
  | _ => Raise TypeError
  end.

(** [create_rich_text(content, annotations, link)] *)
Definition create_rich_text (content annotations link : obj) : obj :=
  let text_obj := [ (KStr "content", content) ] in
  let text_obj :=
    if obj_truthy link
    then dict_set (KStr "link") (ODict [ (KStr "url", link) ]) text_obj
    else text_obj in
  let rich_text_item := [ (KStr "type", OStr "text"); (KStr "text", ODict text_obj) ] in
  let rich_text_item :=
    if obj_truthy annotations
    then dict_set (KStr "annotations") annotations rich_text_item
    else rich_text_item in
  OList [ ODict rich_text_item ].

(** [create_property(prop_type, value, property_name)]; the third
    argument is not used. *)
Definition create_property (prop_type : string) (value property_name : obj) : outcome obj :=
  if String.eqb prop_type "title" then
    if is_str value then Ok (ODict [ (KStr "title", create_rich_text value ONone ONone) ])
    else Ok (ODict [ (KStr "title", value) ])
  else if String.eqb prop_type "rich_text" then
    if is_str value then Ok (ODict [ (KStr "rich_text", create_rich_text value ONone ONone) ])
    else Ok (ODict [ (KStr "rich_text", value) ])
  else if String.eqb prop_type "number" then
    Ok (ODict [ (KStr "number", value) ])
  else if String.eqb prop_type "select" then
    if is_str value then Ok (ODict [ (KStr "select", ODict [ (KStr "name", value) ]) ])
    else Ok (ODict [ (KStr "select", value) ])
  else if String.eqb prop_type "multi_select" then
    match value with
    | OList l =>
        if forallb is_str l
        then Ok (ODict [ (KStr "multi_select",
                          OList (map (fun v => ODict [ (KStr "name", v) ]) l)) ])
        else Ok (ODict [ (KStr "multi_select", value) ])
    | _ => Ok (ODict [ (KStr "multi_select", value) ])
    end
  else if String.eqb prop_type "date" then
    match value with
    | OStr _ => Ok (ODict [ (KStr "date", ODict [ (KStr "start", value) ]) ])
    | OMoment d =>
        Ok (ODict [ (KStr "date", ODict [ (KStr "start", OStr (Datetime.isoformat d)) ]) ])
    | _ => Ok (ODict [ (KStr "date", value) ])
    end
  else if String.eqb prop_type "checkbox" then
    Ok (ODict [ (KStr "checkbox", OBool (obj_truthy value)) ])
  else if String.eqb prop_type "url" then
    Ok (ODict [ (KStr "url", value) ])
  else if String.eqb prop_type "email" then
    Ok (ODict [ (KStr "email", value) ])
  else if String.eqb prop_type "phone_number" then
    Ok (ODict [ (KStr "phone_number", value) ])
  else if String.eqb prop_type "status" then
    if is_str value then Ok (ODict [ (KStr "status", ODict [ (KStr "name", value) ]) ])
    else Ok (ODict [ (KStr "status", value) ])
  else Raise ValueError.

(** [if arg: properties[name] = create_property(prop_type, arg)] *)
Definition add_property (arg : obj) (name prop_type : string)
           (properties : list (key * obj)) : outcome (list (key * obj)) :=
  if obj_truthy arg then
    obind (create_property prop_type arg ONone)
          (fun p => Ok (dict_set (KStr name) p properties))
  else Ok properties.

(** [create_todo_properties]; the assignee is not used. *)
Definition create_todo_properties
           (title description due_date priority tags status assignee : obj) : outcome obj :=
  (task <- create_property "title" title ONone ;;
   let properties := [ (KStr "Task", task) ] in
   properties <- add_property description "Description" "rich_text" properties ;;
   properties <- add_property due_date "Due Date" "date" properties ;;
   properties <- add_property priority "Priority" "select" properties ;;
   properties <- add_property tags "Tags" "multi_select" properties ;;
   properties <- add_property status "Status" "status" properties ;;
   Ok (ODict properties))%outcome.

(** [build_filter(property_name, filter_type, condition, value)]: the
    dictionary display, in which a repeated key keeps its place and takes
    the later value, then the assignment into the inner dictionary. *)
Definition build_filter (property_name : obj) (filter_type condition : string)
           (value : obj) : outcome obj :=
  (let filter_obj :=
     ODict (dict_set (KStr filter_type) (ODict []) [ (KStr "property", property_name) ]) in
   let x :=
     if (match value with ONone => true | _ => false end)
        && str_in condition ["is_empty"; "is_not_empty"]
     then OBool true else value in
   inner <- obj_getitem filter_obj filter_type ;;
   inner <- obj_setitem inner condition x ;;
   obj_setitem filter_obj filter_type inner)%outcome.

(** [build_compound_filter(filters, operator)] *)
Definition build_compound_filter (filters : obj) (operator : string) : outcome obj :=
  if negb (str_in operator ["and"; "or"]) then Raise ValueError
  else Ok (ODict [ (KStr operator, filters) ]).

(** [build_sorts(sorts)], on a list of pairs. *)
Fixpoint build_sorts_from (sort_objects : list obj) (sorts : list (obj * obj))
  : outcome (list obj) :=
  match sorts with
  | [] => Ok sort_objects
  | (prop, direction) :: rest =>
      if negb (obj_in direction ["ascending"; "descending"]) then Raise ValueError
      else build_sorts_from
             (sort_objects ++ [ ODict [ (KStr "property", prop);
                                        (KStr "direction", direction) ] ])%list rest
  end.

Definition build_sorts (sorts : list (obj * obj)) : outcome obj :=
  obind (build_sorts_from [] sorts) (fun sort_objects => Ok (OList sort_objects)).

(** [if arg: conditions.append(build_filter(...))] *)
Definition add_condition (arg : obj) (property_name filter_type condition : string)
           (conditions : list obj) : outcome (list obj) :=
  if obj_truthy arg then
    obind (build_filter (OStr property_name) filter_type condition arg)
          (fun c => Ok (conditions ++ [c])%list)
  else Ok conditions.

(** [build_todo_filter(status, priority, due_before, due_after, tags)] *)
Definition build_todo_filter (status priority due_before due_after tags : obj) : outcome obj :=
  (conditions <- add_condition status "Status" "status" "equals" [] ;;
   conditions <- add_condition priority "Priority" "select" "equals" conditions ;;
   conditions <- add_condition due_before "Due Date" "date" "on_or_before" conditions ;;
   conditions <- add_condition due_after "Due Date" "date" "on_or_after" conditions ;;
   conditions <- add_condition tags "Tags" "multi_select" "contains" conditions ;;
   match conditions with
   | [] => Ok ONone
   | [c] => Ok c
   | _ => build_compound_filter (OList conditions) "and"
   end)%outcome.

(** [if content: block_content["rich_text"] = create_rich_text(content,
    annotations)] *)
Definition add_rich_text (content annotations : obj) (block_content : list (key * obj))
  : list (key * obj) :=
  if obj_truthy content
  then dict_set (KStr "rich_text") (create_rich_text content annotations ONone) block_content
  else block_content.

(** [create_block(block_type, content, annotations, **kwargs)] *)
Definition create_block (block_type : string) (content annotations : obj)
           (kwargs : list (key * obj)) : outcome obj :=
  if String.eqb block_type "divider" then
    Ok (ODict [ (KStr "type", OStr "divider"); (KStr "divider", ODict []) ])
  else if String.eqb block_type "table_of_contents" then
    Ok (ODict [ (KStr "type", OStr "table_of_contents");
                (KStr "table_of_contents",
                  ODict [ (KStr "color", kw_get kwargs "color" (OStr "default")) ]) ])
  else if String.eqb block_type "breadcrumb" then
    Ok (ODict [ (KStr "type", OStr "breadcrumb"); (KStr "breadcrumb", ODict []) ])
  else if String.eqb block_type "column_list" then
    Ok (ODict [ (KStr "type", OStr "column_list"); (KStr "column_list", ODict []) ])
  else if String.eqb block_type "column" then
    Ok (ODict [ (KStr "type", OStr "column"); (KStr "column", ODict []) ])
  else if str_in block_type ["paragraph"; "heading_1"; "heading_2"; "heading_3";
                             "quote"; "callout"; "toggle"] then
    let block_content := add_rich_text content annotations [] in
    let block_content :=
      if String.eqb block_type "callout" then
        dict_set (KStr "color") (kw_get kwargs "color" (OStr "default"))
          (dict_set (KStr "icon") (ODict [ (KStr "emoji", kw_get kwargs "icon" (OStr "💡")) ])
             block_content)
      else block_content in
    Ok (ODict (dict_set (KStr block_type) (ODict block_content)
                 [ (KStr "type", OStr block_type) ]))
  else if str_in block_type ["bulleted_list_item"; "numbered_list_item"] then
    let block_content := add_rich_text content annotations [] in
    Ok (ODict (dict_set (KStr block_type) (ODict block_content)
                 [ (KStr "type", OStr block_type) ]))
  else if String.eqb block_type "to_do" then
    let block_content := [ (KStr "checked", kw_get kwargs "checked" (OBool false)) ] in
    let block_content := add_rich_text content annotations block_content in
    Ok (ODict [ (KStr "type", OStr "to_do"); (KStr "to_do", ODict block_content) ])
  else if String.eqb block_type "code" then
    let block_content := [ (KStr "language", kw_get kwargs "language" (OStr "plain text")) ] in
    let block_content := add_rich_text content annotations block_content in
    Ok (ODict [ (KStr "type", OStr "code"); (KStr "code", ODict block_content) ])
  else if String.eqb block_type "equation" then
    Ok (ODict [ (KStr "type", OStr "equation");
                (KStr "equation",
                  ODict [ (KStr "expression",
                            kw_get kwargs "expression" (obj_or content (OStr ""))) ]) ])
  else if str_in block_type ["image"; "video"; "file"; "pdf"; "audio"] then
    let url := kw_get kwargs "url" content in
    if negb (obj_truthy url) then Raise ValueError
    else Ok (ODict (dict_set (KStr block_type)
                      (ODict [ (KStr "type", OStr "external");
                               (KStr "external", ODict [ (KStr "url", url) ]) ])
                      [ (KStr "type", OStr block_type) ]))
  else if str_in block_type ["bookmark"; "embed"; "link_preview"] then
    let url := kw_get kwargs "url" content in
    if negb (obj_truthy url) then Raise ValueError
    else Ok (ODict (dict_set (KStr block_type) (ODict [ (KStr "url", url) ])
                      [ (KStr "type", OStr block_type) ]))
  else if String.eqb block_type "link_to_page" then
    let page_id := kw_get kwargs "page_id" ONone in
    if negb (obj_truthy page_id) then Raise ValueError
    else Ok (ODict [ (KStr "type", OStr "link_to_page");
                     (KStr "link_to_page",
                       ODict [ (KStr "type", OStr "page_id"); (KStr "page_id", page_id) ]) ])
  else if String.eqb block_type "child_page" then
    let title := kw_get kwargs "title" content in
    if negb (obj_truthy title) then Raise ValueError
    else Ok (ODict [ (KStr "type", OStr "child_page");
                     (KStr "child_page", ODict [ (KStr "title", title) ]) ])
  else if String.eqb block_type "child_database" then
    let title := kw_get kwargs "title" content in
    if negb (obj_truthy title) then Raise ValueError
    else Ok (ODict [ (KStr "type", OStr "child_database");
                     (KStr "child_database", ODict [ (KStr "title", title) ]) ])
  else if String.eqb block_type "table" then
    let table_width := kw_get kwargs "table_width" (ONum 2) in
    let has_column_header := kw_get kwargs "has_column_header" (OBool false) in
    let has_row_header := kw_get kwargs "has_row_header" (OBool false) in
    Ok (ODict [ (KStr "type", OStr "table");
                (KStr "table",
                  ODict [ (KStr "table_width", table_width);
                          (KStr "has_column_header", has_column_header);
                          (KStr "has_row_header", has_row_header) ]) ])
  else Raise ValueError.

(** The block types [create_block] knows, and those that need an
    argument. *)
Definition block_types : list string :=
  [ "divider"; "table_of_contents"; "breadcrumb"; "column_list"; "column";
    "paragraph"; "heading_1"; "heading_2"; "heading_3"; "quote"; "callout"; "toggle";
    "bulleted_list_item"; "numbered_list_item"; "to_do"; "code"; "equation";
    "image"; "video"; "file"; "pdf"; "audio"; "bookmark"; "embed"; "link_preview";
    "link_to_page"; "child_page"; "child_database"; "table" ].

(** The property types [create_property] knows. *)
Definition property_types : list string :=
  [ "title"; "rich_text"; "number"; "select"; "multi_select"; "date"; "checkbox";
    "url"; "email"; "phone_number"; "status" ].

(** [get_auth_headers(api_key)], [getenv] being what
    [os.getenv("NOTION_API_KEY")] reads. *)
Definition get_auth_headers (getenv : option string) (api_key : option string)
  : outcome value :=
  let api_key := match api_key with None => getenv | Some k => Some k end in
  match api_key with
  | None => Raise ValueError
  | Some k =>
      if negb (truthy (VStr k)) || String.eqb (PyStr.strip k) "" then Raise ValueError
      else Ok (VDict [ (KStr "Authorization", VStr ("Bearer " ++ k));
                       (KStr "Content-Type", VStr "application/json");
                       (KStr "Notion-Version", VStr "2022-06-28") ])
  end.

(** The argument a block of type [block_type] cannot do without, if there
    is one: the [url] of a media, bookmark, embed or link-preview block,
    the [page_id] of a link to a page, the [title] of a child page or
    database; [url] and [title] default to the content. *)
Definition required_argument (block_type : string) (content : obj)
           (kwargs : list (key * obj)) : option obj :=
  if str_in block_type ["image"; "video"; "file"; "pdf"; "audio";
                        "bookmark"; "embed"; "link_preview"]
  then Some (kw_get kwargs "url" content)
  else if String.eqb block_type "link_to_page" then Some (kw_get kwargs "page_id" ONone)
  else if str_in block_type ["child_page"; "child_database"]
  then Some (kw_get kwargs "title" content)
  else None.

(** The key [get_auth_headers] uses: the argument when there is one, the
    environment otherwise. *)
Definition effective_key (getenv api_key : option string) : option string :=
  match api_key with
  | Some k => Some k
  | None => getenv
  end.

(** ** Strings of ASCII characters

    [PyStr.lower] and [PyStr.strip] are [str.lower()] and [str.strip()]
    on the strings of ASCII characters: there the cased letters are A-Z
    and the white space is what [PyStr.is_space] lists.  Outside them
    Python folds and trims more (accented capitals, the no-break space),
    so the properties that depend on what folding or trimming compute are
    stated for paths, names, keys and titles of ASCII characters. *)

Definition is_ascii_char (c : ascii) : bool := (nat_of_ascii c <? 128)%nat.

Definition is_ascii (s : string) : bool := PyStr.all_chars is_ascii_char s.

(** The title of the entry, when it is a string, is ASCII. *)
Definition ascii_title (e : value) : bool :=
  match e with
  | VDict fields =>
      match dict_get (KStr "title") fields with
      | Some (VStr t) => is_ascii t
      | _ => true
      end
  | _ => true
  end.

Definition ascii_titles (c : list (key * value)) : bool :=
  forallb (fun kv => ascii_title (snd kv)) c.

(** The titles [_find_by_title] folds for [obj_type] are ASCII, whatever
    else the document holds. *)
Definition titles_ascii (obj_type : string) (w : world) : bool :=
  match Py.get (data w) (if String.eqb obj_type "page" then "pages" else "databases")
               (VDict []) with
  | Ok (VDict c) => ascii_titles c
  | _ => true
  end.

(** ** Chains of titles

    [only_match c s parent id]: the entry [id] of [c] is titled [s], case
    ignored, and is the only such entry, among the children of [parent]
    when there is one, among all the entries otherwise. *)
Definition under (parent : option string) (e : value) : bool :=
  match parent with
  | None => true
  | Some pid => child_of (VStr pid) e
  end.

Definition only_match (c : list (key * value)) (s : string) (parent : option string)
           (id : string) : Prop :=
  id <> "" /\
  (exists e, In (KStr id, e) c /\ title_matches s e = true /\ under parent e = true) /\
  (forall k e, In (k, e) c -> title_matches s e = true -> under parent e = true ->
               k = KStr id).

(** A chain of entries of [c]: each step gives a title and the identifier
    of the one entry with that title under the entry of the step before;
    the first step has no parent constraint. *)
Fixpoint chain_from (c : list (key * value)) (parent : option string)
         (steps : list (string * string)) : Prop :=
  match steps with
  | [] => True
  | (s, id) :: rest => only_match c s parent id /\ chain_from c (Some id) rest
  end.

(** A chain Parent / Leaf inside the pages. *)
Definition chained_pages : list (key * value) :=
  [ (KStr "parent", VDict [ (KStr "id", VStr "parent"); (KStr "title", VStr "Parent");
                            (KStr "parent_id", VBool true) ]);
    (KStr "leaf", VDict [ (KStr "id", VStr "leaf"); (KStr "title", VStr "Leaf");
                          (KStr "parent_id", VStr "parent") ]) ].

(** * Properties *)

(** ** Keys and dictionaries *)

Lemma key_eqb_eq (a b : key) : key_eqb a b = true <-> a = b.
Proof.
  destruct a as [|x|x], b as [|y|y]; simpl; split; intro H;
    try discriminate; try reflexivity.
  - apply Bool.eqb_prop in H. now subst.
  - injection H as ->. apply Bool.eqb_reflx.
  - apply String.eqb_eq in H. now subst.
  - injection H as ->. apply String.eqb_refl.
Qed.

Lemma key_eqb_refl (a : key) : key_eqb a a = true.
Proof. now apply key_eqb_eq. Qed.

Lemma key_eqb_neq (a b : key) : key_eqb a b = false <-> a <> b.
Proof.
  split.
  - intros H E. apply key_eqb_eq in E. congruence.
  - intro N. destruct (key_eqb a b) eqn:E; [|reflexivity].
    apply key_eqb_eq in E. contradiction.
Qed.


Section DictFacts.
Variable V : Type.
Implicit Types (d : list (key * V)) (k : key) (v : V).

Lemma dict_get_set_same k v d : dict_get k (dict_set k v d) = Some v.
Proof.
  induction d as [|[k' v'] r IH]; simpl.
  - now rewrite key_eqb_refl.
  - destruct (key_eqb k' k) eqn:E; simpl; rewrite E; auto.
Qed.

Lemma dict_get_set_other k k' v d :
  k <> k' -> dict_get k (dict_set k' v d) = dict_get k d.
Proof.
  intro N. induction d as [|[k0 v0] r IH]; simpl.
  - apply not_eq_sym, key_eqb_neq in N. now rewrite N.
  - destruct (key_eqb k0 k') eqn:E; simpl.
    + apply key_eqb_eq in E. subst k0.
      apply not_eq_sym, key_eqb_neq in N. now rewrite N.
    + destruct (key_eqb k0 k); auto.
Qed.

Lemma dict_mem_get k d : dict_mem k d = true <-> exists v, dict_get k d = Some v.
Proof.
  induction d as [|[k' v'] r IH]; simpl.
  - split; [discriminate | intros [v H]; discriminate].
  - destruct (key_eqb k' k); simpl; [|exact IH].
    split; eauto.
Qed.


Lemma dict_mem_set k k' v d :
  dict_mem k (dict_set k' v d) = key_eqb k' k || dict_mem k d.
Proof.
  induction d as [|[k0 v0] r IH]; simpl.
  - now rewrite orb_false_r.
  - destruct (key_eqb k0 k') eqn:E; simpl.
    + apply key_eqb_eq in E. subst k0.
      destruct (key_eqb k' k); reflexivity.
    + rewrite IH. destruct (key_eqb k0 k), (key_eqb k' k); reflexivity.
Qed.

(** Writing what is already there changes nothing. *)
Lemma dict_set_same k v d : dict_get k d = Some v -> dict_set k v d = d.
Proof.
  induction d as [|[k' v'] r IH]; simpl; [discriminate|].
  destruct (key_eqb k' k); intro H.
  - now injection H as ->.
  - now rewrite IH.
Qed.

(** Of two writes to one key the later stays. *)
Lemma dict_set_set k v v' d : dict_set k v (dict_set k v' d) = dict_set k v d.
Proof.
  induction d as [|[k0 v0] r IH]; simpl.
  - now rewrite key_eqb_refl.
  - destruct (key_eqb k0 k) eqn:E; simpl; rewrite E; [reflexivity|].
    now rewrite IH.
Qed.

(** Writes to two keys commute once one of the keys is present. *)
Lemma dict_set_comm k k' v v' d :
  k <> k' -> dict_mem k d = true ->
  dict_set k v (dict_set k' v' d) = dict_set k' v' (dict_set k v d).
Proof.
  intros N. induction d as [|[k0 v0] r IH]; simpl; [discriminate|].
  destruct (key_eqb k0 k) eqn:E, (key_eqb k0 k') eqn:E'; simpl;
    rewrite ?E, ?E'; intro H; try reflexivity.
  - apply key_eqb_eq in E, E'. congruence.
  - simpl in H. now rewrite IH.
Qed.


End DictFacts.

(** ** Reading methods *)

Lemma readonly_ret {A} (a : A) : readonly (ret a).
Proof. intro w. reflexivity. Qed.

Lemma readonly_lift {A} (o : outcome A) : readonly (lift o).
Proof. intro w. reflexivity. Qed.

Lemma readonly_get_data : readonly get_data.
Proof. intro w. reflexivity. Qed.

Lemma readonly_bind {A B} (m : M A) (k : A -> M B) :
  readonly m -> (forall a, readonly (k a)) -> readonly (bind m k).
Proof.
  intros Hm Hk w. unfold bind. specialize (Hm w).
  destruct (m w) as [[a|e] w']; simpl in Hm; subst w'.
  - apply Hk.
  - reflexivity.
Qed.

Create HintDb readonly.
#[local] Hint Resolve readonly_ret readonly_lift readonly_get_data : readonly.

Ltac readonly_step :=
  match goal with
  | |- readonly (bind _ _) => apply readonly_bind; [|intro]
  | |- readonly (if ?b then _ else _) => destruct b
  | |- readonly _ => solve [auto with readonly]
  end.

Lemma readonly__find_by_title title obj_type parent_id :
  readonly (NotionCache._find_by_title title obj_type parent_id).
Proof. unfold NotionCache._find_by_title. repeat readonly_step. Qed.

Lemma readonly_traverse obj_type parts :
  forall i current_id, readonly (NotionCache.traverse obj_type i parts current_id).
Proof.
  induction parts as [|part rest IH]; intros i cur; simpl.
  - auto with readonly.
  - apply readonly_bind.
    + destruct (Nat.eqb i 0); apply readonly__find_by_title.
    + intro v. destruct (negb (truthy v)); [auto with readonly | apply IH].
Qed.

Lemma readonly_find_by_path path obj_type :
  readonly (NotionCache.find_by_path path obj_type).
Proof.
  unfold NotionCache.find_by_path.
  destruct (Nat.eqb _ 1).
  - apply readonly__find_by_title.
  - apply readonly_traverse.
Qed.

Lemma readonly_get_title_in collections item_id :
  readonly (NotionCache.get_title_in collections item_id).
Proof.
  induction collections as [|c rest IH]; simpl.
  - auto with readonly.
  - repeat readonly_step.
Qed.

Lemma readonly_is_stale now : readonly (NotionCache.is_stale now).
Proof. unfold NotionCache.is_stale. repeat readonly_step. Qed.

(** C10.  [find_by_path], [get_title] and [is_stale] are pure reads: on
    every world and for every argument, whether they return or raise, the
    in-memory document [self.data] (pages, databases, hierarchy,
    last_refresh) and the cache file are afterwards what they were. *)
Theorem reads_leave_cache_unchanged :
  forall (w : world) (path obj_type item_id : string) (now : datetime),
    snd (NotionCache.find_by_path path obj_type w) = w /\
    snd (NotionCache.get_title item_id w) = w /\
    snd (NotionCache.is_stale now w) = w.
Proof.
  intros w path obj_type item_id now. repeat split.
  - apply readonly_find_by_path.
  - apply readonly_get_title_in.
  - apply readonly_is_stale.
Qed.

(** ** Identifiers *)

Lemma hex_digit_lower (c : ascii) :
  is_hex_digit c = PyStr.mem_char (PyStr.lower_char c) "0123456789abcdef".
Proof. destruct c as [[] [] [] [] [] [] [] []]; reflexivity. Qed.

Lemma all_hex_lower (t : string) :
  PyStr.all_chars (fun c => PyStr.mem_char c "0123456789abcdef") (PyStr.lower t) = true
  <-> Forall (fun c => is_hex_digit c = true) (list_ascii_of_string t).
Proof.
  induction t as [|c r IH].
  - simpl. split; [constructor | reflexivity].
  - cbn [PyStr.lower PyStr.all_chars list_ascii_of_string].
    rewrite andb_true_iff, IH, <- hex_digit_lower. split.
    + intros [H1 H2]. now constructor.
    + intro H. inversion H; subst. now split.
Qed.

(** [is_uuid] decides exactly the identifier-shaped names. *)
Lemma is_uuid_shaped (s : string) : is_uuid s = true <-> identifier_shaped s.
Proof.
  unfold is_uuid, identifier_shaped.
  rewrite andb_true_iff, Nat.eqb_eq, all_hex_lower. reflexivity.
Qed.

(** C7.  A name that, with its hyphens taken out, is exactly 32 hexadecimal
    characters is returned unchanged by [resolve_id], whatever the cache
    holds and whatever the gateway would answer: no call is made, neither
    to [find_by_path] nor to [search_notion], and the world is left as it
    was.  Nothing checks that the identifier exists remotely. *)
Theorem identifier_returned_unchanged :
  forall (name_or_id obj_type api_key : string)
         (search_notion : string -> string -> string -> outcome (list value))
         (clock : nat -> datetime) (w : world),
    identifier_shaped name_or_id ->
    run search_notion clock (resolve_id name_or_id obj_type api_key) w
    = (Ok (VStr name_or_id), w, []).
Proof.
  intros name_or_id obj_type api_key search_notion clock w H.
  apply is_uuid_shaped in H. unfold resolve_id. rewrite H. reflexivity.
Qed.

Lemma identifier_returned_unchanged_witness :
  run no_results (frozen (noon 1))
      (resolve_id "123E4567-e89b-12d3-a456-426614174000" "page" "secret") fresh_world
  = (Ok (VStr "123E4567-e89b-12d3-a456-426614174000"), fresh_world, []).
Proof.
  apply identifier_returned_unchanged.
  split.
  - vm_compute. reflexivity.
  - vm_compute. repeat (apply Forall_cons; [reflexivity|]). apply Forall_nil.
Defined.

(** ** Staleness *)

(** C1, as the code has it.  On a document [d]: when [last_refresh] is
    absent or falsy [is_stale] returns true; when it holds a stamp read
    as [t], [is_stale] returns true if and only if the time elapsed since
    [t] strictly exceeds 24 hours, so that at exactly 24 hours elapsed it
    returns false. *)
Theorem is_stale_strict_threshold :
  forall (now : datetime) (w : world) (d : list (key * value)),
    data w = VDict d ->
    (never_refreshed d -> fst (NotionCache.is_stale now w) = Ok true) /\
    (forall s t,
        dict_get (KStr "last_refresh") d = Some (VStr s) ->
        Datetime.fromisoformat s = Some t ->
        (fst (NotionCache.is_stale now w) = Ok true <->
         (Datetime.sub now t > Datetime.timedelta_hours 24)%Z) /\
        (Datetime.sub now t = Datetime.timedelta_hours 24 ->
         fst (NotionCache.is_stale now w) = Ok false)).
Proof.
  intros now [dat f] d Hd. simpl in Hd. subst dat.
  unfold NotionCache.is_stale, never_refreshed, bind, get_data, lift, ret,
    CACHE_TTL_HOURS.
  cbn [data Py.get Py.getitem key_of_value fst].
  split.
  - destruct (dict_get (KStr "last_refresh") d) as [v|]; cbn [truthy negb fst].
    + intros ->. reflexivity.
    + reflexivity.
  - intros s t Hs Ht. rewrite Hs. cbn [truthy].
    assert (Hne : (s =? "") = false).
    { destruct s; [discriminate Ht | reflexivity]. }
    rewrite Hne. cbn [negb data Py.getitem key_of_value]. rewrite Hs.
    cbn [NotionCache.py_fromisoformat]. rewrite Ht. cbn [fst]. split.
    + split.
      * intro H. injection H as H. now apply Z.gtb_gt.
      * intro H. apply Z.gtb_gt in H. now rewrite H.
    + intros ->. now rewrite Z.gtb_ltb, Z.ltb_irrefl.
Qed.

Lemma is_stale_strict_threshold_witness :
  data (refreshed_world "2024-01-01T12:00:00")
  = VDict [ (KStr "pages", VDict []); (KStr "databases", VDict []);
            (KStr "hierarchy", VDict []);
            (KStr "last_refresh", VStr "2024-01-01T12:00:00") ] /\
  fst (NotionCache.is_stale (noon 2) (refreshed_world "2024-01-01T12:00:00")) = Ok false.
Proof.
  split; [reflexivity|].
  eapply (is_stale_strict_threshold (noon 2)
            (refreshed_world "2024-01-01T12:00:00")).
  - reflexivity.
  - reflexivity.
  - vm_compute. reflexivity.
  - vm_compute. reflexivity.
Defined.

(** C1 as worded fails: with exactly 24 hours elapsed since
    [last_refresh], [is_stale] returns false. *)
Lemma is_stale_exactly_24_hours :
  Datetime.fromisoformat "2024-01-01T12:00:00" = Some (noon 1) /\
  Datetime.sub (noon 2) (noon 1) = Datetime.timedelta_hours 24 /\
  fst (NotionCache.is_stale (noon 2) (refreshed_world "2024-01-01T12:00:00")) <> Ok true.
Proof.
  split; [vm_compute; reflexivity|].
  split; [vm_compute; reflexivity|].
  vm_compute. discriminate.
Qed.

(** ** Running the methods on a cache of the expected shape *)

Lemma extract_title_encode r :
  NotionCache.extract_title (encode r) (VStr (kind_name (r_object r)))
  = Ok (title_of r).
Proof.
  destruct r as [k id name title parent url arch]. unfold encode, title_of. simpl r_object.
  destruct k; cbn.
  - destruct (name =? "title") eqn:E1; cbn.
    + destruct title; reflexivity.
    + destruct (name =? "Name") eqn:E2; cbn.
      * destruct title; reflexivity.
      * reflexivity.
  - destruct title; reflexivity.
Qed.

Lemma extract_parent_id_encode p r :
  r_parent r = p ->
  NotionCache.extract_parent_id (encode_parent p) = Ok (parent_id_of r).
Proof.
  intros <-. unfold parent_id_of, NotionCache.extract_parent_id, NotionCache.py_or.
  destruct (r_parent r) as [id|id|id|]; cbn; try reflexivity;
    destruct (id =? ""); reflexivity.
Qed.

Lemma store_pages p q h lr f k x :
  NotionCache.store "pages" (VStr k) x (world_of p q h lr f)
  = (Ok tt, world_of (dict_set (KStr k) x p) q h lr f).
Proof. reflexivity. Qed.

Lemma store_databases p q h lr f k x :
  NotionCache.store "databases" (VStr k) x (world_of p q h lr f)
  = (Ok tt, world_of p (dict_set (KStr k) x q) h lr f).
Proof. reflexivity. Qed.

Lemma store_hierarchy p q h lr f k x :
  NotionCache.store "hierarchy" (value_of_key k) x (world_of p q h lr f)
  = (Ok tt, world_of p q (dict_set k x h) lr f).
Proof. destruct k; reflexivity. Qed.

Lemma hier_ok_get h k v :
  hier_ok h = true -> dict_get k h = Some v -> exists l, v = VList l.
Proof.
  unfold hier_ok. induction h as [|[k' v'] r IH]; simpl; [discriminate|].
  rewrite andb_true_iff. intros [H1 H2].
  destruct (key_eqb k' k).
  - intro E. injection E as <-. destruct v'; try discriminate. eauto.
  - auto.
Qed.

Lemma hier_ok_set h k l :
  hier_ok h = true -> hier_ok (dict_set k (VList l) h) = true.
Proof.
  unfold hier_ok. induction h as [|[k' v'] r IH]; simpl; [reflexivity|].
  rewrite andb_true_iff. intros [H1 H2].
  destruct (key_eqb k' k); simpl.
  - now rewrite H2.
  - now rewrite H1, IH.
Qed.

Lemma hier_add_ok k c h : hier_ok h = true -> hier_ok (hier_add k c h) = true.
Proof.
  intro H. unfold hier_add.
  set (h1 := if dict_mem k h then h else dict_set k (VList []) h).
  assert (H1 : hier_ok h1 = true).
  { unfold h1. destruct (dict_mem k h); [assumption | now apply hier_ok_set]. }
  destruct (dict_get k h1) as [[| | |l|]|]; try assumption.
  destruct (existsb _ l); [assumption | now apply hier_ok_set].
Qed.

Lemma bind_run {A B} (m : M A) (k : A -> M B) w a w' :
  m w = (Ok a, w') -> bind m k w = k a w'.
Proof. intro H. unfold bind. now rewrite H. Qed.

Lemma hierarchy_shaped p q h lr f :
  NotionCache.hierarchy (world_of p q h lr f) = (Ok (VDict h), world_of p q h lr f).
Proof. reflexivity. Qed.

Lemma key_of_value_of_key k : key_of_value (value_of_key k) = Some k.
Proof. now destruct k. Qed.

Lemma contains_dict h k : Py.contains (VDict h) (value_of_key k) = Ok (dict_mem k h).
Proof. unfold Py.contains. now rewrite key_of_value_of_key. Qed.

Lemma getitem_dict h k v :
  dict_get k h = Some v -> Py.getitem (VDict h) (value_of_key k) = Ok v.
Proof. intro H. unfold Py.getitem. now rewrite key_of_value_of_key, H. Qed.

Lemma update_hierarchy_shaped p q h lr f k c :
  hier_ok h = true ->
  truthy (value_of_key k) = true ->
  py_eq (value_of_key k) (VStr "workspace") = false ->
  NotionCache.update_hierarchy (value_of_key k) c (world_of p q h lr f)
  = (Ok tt, world_of p q (hier_add k c h) lr f).
Proof.
  intros Hh Ht Hw. unfold NotionCache.update_hierarchy. rewrite Ht, Hw. cbn [negb andb].
  unfold hier_add.
  erewrite bind_run by apply hierarchy_shaped.
  unfold lift at 1. erewrite bind_run by (rewrite contains_dict; reflexivity).
  set (h1 := if dict_mem k h then h else dict_set k (VList []) h).
  assert (H1 : hier_ok h1 = true).
  { unfold h1. destruct (dict_mem k h); [assumption | now apply hier_ok_set]. }
  assert (Hm : exists l, dict_get k h1 = Some (VList l)).
  { unfold h1. destruct (dict_mem k h) eqn:E.
    - apply dict_mem_get in E. destruct E as [v E].
      destruct (@hier_ok_get _ _ _ Hh E) as [l ->]. eauto.
    - exists []. apply dict_get_set_same. }
  destruct Hm as [l Hl].
  erewrite (@bind_run _ _ _ _ _ tt (world_of p q h1 lr f)).
  2:{ unfold h1. destruct (dict_mem k h); cbn [negb];
      [reflexivity | apply store_hierarchy]. }
  erewrite bind_run by apply hierarchy_shaped.
  unfold lift at 1. erewrite bind_run by (rewrite (@getitem_dict _ _ _ Hl); reflexivity).
  unfold lift at 1. erewrite bind_run by reflexivity.
  rewrite Hl. cbn [Py.contains].
  destruct (existsb (fun y => py_eq c y) l); cbn [negb].
  - reflexivity.
  - erewrite bind_run by apply hierarchy_shaped.
    unfold lift at 1. erewrite bind_run by (rewrite (@getitem_dict _ _ _ Hl); reflexivity).
    unfold lift at 1. erewrite bind_run by reflexivity.
    apply store_hierarchy.
Qed.

Lemma get_object r : Py.get (encode r) "object" VNone = Ok (VStr (kind_name (r_object r))).
Proof. unfold encode. now destruct (r_object r). Qed.

Lemma get_id r : Py.get (encode r) "id" VNone = Ok (VStr (r_id r)).
Proof. unfold encode. now destruct (r_object r). Qed.

Lemma get_parent r : Py.get (encode r) "parent" (VDict []) = Ok (encode_parent (r_parent r)).
Proof. unfold encode. now destruct (r_object r). Qed.

Lemma get_url r : Py.get (encode r) "url" VNone = Ok (VStr (r_url r)).
Proof. unfold encode. now destruct (r_object r). Qed.

Lemma get_archived r : Py.get (encode r) "archived" (VBool false) = Ok (VBool (r_archived r)).
Proof. unfold encode. now destruct (r_object r). Qed.

Lemma update_hierarchy_result r c p q h lr f :
  hier_ok h = true ->
  NotionCache.update_hierarchy (parent_id_of r) c (world_of p q h lr f)
  = (Ok tt, world_of p q (match hier_key_of r with
                          | Some k => hier_add k c h
                          | None => h
                          end) lr f).
Proof.
  intro Hh. unfold hier_key_of.
  destruct (parent_id_of r) as [|[]|id| |] eqn:E.
  - reflexivity.
  - now apply (@update_hierarchy_shaped p q h lr f (KBool true) c).
  - reflexivity.
  - destruct (id =? "workspace") eqn:W.
    + unfold NotionCache.update_hierarchy. cbn [py_eq]. rewrite W.
      now rewrite andb_false_r.
    + assert (T : truthy (VStr id) = true).
      { unfold parent_id_of in E.
        destruct (r_parent r) as [i|i|i|]; try discriminate;
          destruct (i =? "") eqn:Ei; try discriminate;
          injection E as <-; cbn; now rewrite Ei. }
      now apply (@update_hierarchy_shaped p q h lr f (KStr id) c).
  - unfold parent_id_of in E.
    destruct (r_parent r) as [i|i|i|]; try discriminate; destruct (i =? ""); discriminate.
  - unfold parent_id_of in E.
    destruct (r_parent r) as [i|i|i|]; try discriminate; destruct (i =? ""); discriminate.
Qed.

Lemma update_item_shaped now r p q h lr f :
  hier_ok h = true ->
  NotionCache.update_item now (encode r) (world_of p q h lr f)
  = (Ok tt, world_of (step_pages now r p) (step_databases now r q) (step_hier r h) lr f).
Proof.
  intro Hh. unfold NotionCache.update_item.
  unfold lift at 1. erewrite bind_run by (rewrite get_object; reflexivity).
  unfold lift at 1. erewrite bind_run by (rewrite get_id; reflexivity).
  unfold lift at 1. erewrite bind_run by (rewrite extract_title_encode; reflexivity).
  unfold lift at 1. erewrite bind_run by (rewrite get_parent; reflexivity).
  unfold lift at 1. erewrite bind_run
    by (rewrite (@extract_parent_id_encode _ r eq_refl); reflexivity).
  unfold lift at 1. erewrite bind_run by (rewrite get_url; reflexivity).
  unfold lift at 1. erewrite bind_run by (rewrite get_archived; reflexivity).
  fold (entry_of now r).
  erewrite (@bind_run _ _ _ _ _ tt
              (world_of (step_pages now r p) (step_databases now r q) h lr f)).
  - unfold step_hier. now apply update_hierarchy_result.
  - unfold step_pages, step_databases. destruct (r_object r); reflexivity.
Qed.

(** ** Stamps *)

Section Stamps.
Import Datetime.
Local Open Scope Z_scope.

Lemma digit_val_digit n : digit_val (digit n) = Some (n mod 10).
Proof.
  unfold digit_val, digit.
  assert (H : 0 <= n mod 10 < 10) by (apply Z.mod_pos_bound; lia).
  set (m := Z.to_nat (n mod 10)).
  assert (Hm : (m < 10)%nat) by (unfold m; lia).
  rewrite nat_ascii_embedding by lia.
  replace ((48 <=? 48 + m)%nat && (48 + m <=? 57)%nat) with true.
  2:{ symmetry. apply andb_true_iff. split; apply Nat.leb_le; lia. }
  f_equal. unfold m. lia.
Qed.

Lemma take_pad_gen w : forall v n rest acc,
  take_digits (w + v) acc (pad w n rest)
  = take_digits v (acc * 10 ^ Z.of_nat w + n mod 10 ^ Z.of_nat w) rest.
Proof.
  induction w as [|w IH]; intros v n rest acc.
  - cbn [pad Nat.add]. f_equal. rewrite Z.mod_1_r. simpl. lia.
  - cbn [pad]. replace (S w + v)%nat with (w + S v)%nat by lia.
    rewrite IH. cbn [take_digits]. rewrite digit_val_digit. f_equal.
    rewrite Nat2Z.inj_succ, Z.pow_succ_r by lia.
    rewrite (Z.rem_mul_r n 10 (10 ^ Z.of_nat w)) by lia. lia.
Qed.

Lemma take_pad w n rest :
  0 <= n < 10 ^ Z.of_nat w ->
  take_digits w 0 (pad w n rest) = Some (n, rest).
Proof.
  intro H. replace w with (w + 0)%nat at 1 by lia.
  rewrite take_pad_gen. cbn [take_digits]. now rewrite Z.mod_small.
Qed.

Lemma parse_isoformat d : valid d = true -> parse (isoformat d) = Some d.
Proof.
  unfold valid. rewrite !andb_true_iff, !Z.leb_le, !Z.ltb_lt.
  intros [[[[[[[[[[[[[Hy1 Hy2] Hm1] Hm2] Hd1] Hd2] Hh1] Hh2] Hmi1] Hmi2] Hs1] Hs2] Hu1] Hu2].
  assert (Hd3 : day d <= 31).
  { unfold days_in_month in Hd2.
    destruct (month d =? 2); [destruct (is_leap (year d))|]; try lia.
    destruct ((month d =? 4) || (month d =? 6) || (month d =? 9) || (month d =? 11)); lia. }
  destruct d as [y mo dd h mi s us]. cbn [year month day hour minute second microsecond] in *.
  unfold parse, isoformat. cbn [year month day hour minute second microsecond].
  rewrite take_pad by (simpl; lia). cbn [obind' take_char Ascii.eqb Bool.eqb].
  rewrite take_pad by (simpl; lia). cbn [obind' take_char Ascii.eqb Bool.eqb].
  rewrite take_pad by (simpl; lia). cbn [obind' take_char Ascii.eqb Bool.eqb].
  rewrite take_pad by (simpl; lia). cbn [obind' take_char Ascii.eqb Bool.eqb].
  rewrite take_pad by (simpl; lia). cbn [obind' take_char Ascii.eqb Bool.eqb].
  rewrite take_pad by (simpl; lia). cbn [obind'].
  destruct (us =? 0) eqn:E.
  - apply Z.eqb_eq in E. now subst us.
  - cbn [obind' take_char Ascii.eqb Bool.eqb].
    rewrite take_pad by (simpl; lia). reflexivity.
Qed.

Lemma fromisoformat_isoformat d : valid d = true -> fromisoformat (isoformat d) = Some d.
Proof. intro H. unfold fromisoformat. now rewrite parse_isoformat, H. Qed.

End Stamps.

(** ** The loop of [update_from_search] *)

Lemma step_hier_ok r h : hier_ok h = true -> hier_ok (step_hier r h) = true.
Proof.
  intro H. unfold step_hier. destruct (hier_key_of r); [now apply hier_add_ok | assumption].
Qed.

Lemma fold_hier_ok R : forall h, hier_ok h = true -> hier_ok (fold_hier R h) = true.
Proof.
  induction R as [|r R IH]; intros h H; simpl; [assumption|].
  apply IH. now apply step_hier_ok.
Qed.

Lemma update_items_shaped R :
  forall clock p q h lr f,
    hier_ok h = true ->
    NotionCache.update_items clock (map encode R) (world_of p q h lr f)
    = (Ok tt, world_of (fold_pages clock R p) (fold_databases clock R q)
                       (fold_hier R h) lr f).
Proof.
  induction R as [|r R IH]; intros clock p q h lr f Hh; simpl.
  - reflexivity.
  - erewrite bind_run by now apply update_item_shaped.
    apply IH. now apply step_hier_ok.
Qed.

Lemma update_from_search_shaped R clock p q h lr f :
  hier_ok h = true ->
  NotionCache.update_from_search clock (map encode R) (world_of p q h lr f)
  = (Ok tt, mk_world (updated_data clock R p q h)
                     (FileJson (jsonify (updated_data clock R p q h)))).
Proof.
  intro Hh. unfold NotionCache.update_from_search.
  erewrite bind_run by now apply update_items_shaped.
  rewrite length_map. reflexivity.
Qed.

Lemma matching_ok title parent c :
  coll_ok c = true ->
  NotionCache.matching title parent c
  = Ok (map (fun kv => value_of_key (fst kv))
            (filter (fun kv => title_matches title (snd kv)
                               && (is_none parent || child_of parent (snd kv))) c)).
Proof.
  unfold coll_ok. induction c as [|[k e] c IH]; simpl; [reflexivity|].
  rewrite andb_true_iff. intros [He Hc]. rewrite (IH Hc). clear IH.
  unfold entry_ok in He. destruct e as [| | | |fields]; try discriminate.
  unfold Py.getitem, title_matches, child_of. cbn [key_of_value].
  destruct (dict_get (KStr "title") fields) as [[| |t| |]|]; try discriminate.
  cbn [obind Py.lower].
  destruct (PyStr.lower t =? PyStr.lower title); cbn [andb].
  - destruct (is_none parent); cbn [orb obind Py.get]; [reflexivity|].
    destruct (py_eq _ parent); reflexivity.
  - reflexivity.
Qed.

Lemma find_by_title_shaped title obj_type parent p q h lr f :
  NotionCache._find_by_title title obj_type parent (world_of p q h lr f)
  = (obind (NotionCache.matching title parent (collection_of obj_type p q))
       (fun ms => Ok (match ms with m :: _ => m | [] => VNone end)),
     world_of p q h lr f).
Proof.
  unfold NotionCache._find_by_title, collection_of.
  erewrite bind_run by reflexivity.
  destruct (obj_type =? "page").
  - unfold lift at 1. erewrite bind_run by reflexivity.
    unfold lift, bind, ret. cbn.
    destruct (NotionCache.matching title parent p); reflexivity.
  - unfold lift at 1. erewrite bind_run by reflexivity.
    unfold lift, bind, ret. cbn.
    destruct (NotionCache.matching title parent q); reflexivity.
Qed.

(** ** Lookups on a cache of the expected shape *)

Lemma head_map_filter (pred : value -> bool) (c : list (key * value)) :
  match map (fun kv : key * value => value_of_key (fst kv))
            (filter (fun kv => pred (snd kv)) c) with
  | m :: _ => m
  | [] => VNone
  end = first_by pred c.
Proof. unfold first_by. now destruct (filter _ c). Qed.

Lemma find_by_title_any title obj_type p q h lr f :
  coll_ok (collection_of obj_type p q) = true ->
  NotionCache._find_by_title title obj_type VNone (world_of p q h lr f)
  = (Ok (first_titled title (collection_of obj_type p q)), world_of p q h lr f).
Proof.
  intro H. rewrite find_by_title_shaped, matching_ok by assumption. cbn [obind].
  rewrite (head_map_filter
             (fun e => title_matches title e && (is_none VNone || child_of VNone e))).
  unfold first_titled, first_by.
  erewrite filter_ext; [reflexivity|].
  intro kv. cbn [is_none orb]. now rewrite andb_true_r.
Qed.

Lemma find_by_title_under title obj_type parent p q h lr f :
  coll_ok (collection_of obj_type p q) = true ->
  truthy parent = true ->
  NotionCache._find_by_title title obj_type parent (world_of p q h lr f)
  = (Ok (first_child title parent (collection_of obj_type p q)), world_of p q h lr f).
Proof.
  intros H T. rewrite find_by_title_shaped, matching_ok by assumption. cbn [obind].
  rewrite (head_map_filter
             (fun e => title_matches title e && (is_none parent || child_of parent e))).
  unfold first_child, first_by.
  erewrite filter_ext; [reflexivity|].
  intro kv. destruct parent; try discriminate; reflexivity.
Qed.

Lemma traverse_descend obj_type p q h lr f :
  coll_ok (collection_of obj_type p q) = true ->
  forall parts i current,
    truthy current = true ->
    NotionCache.traverse obj_type (S i) parts current (world_of p q h lr f)
    = (Ok (descend (collection_of obj_type p q) parts current), world_of p q h lr f).
Proof.
  intro H. induction parts as [|part rest IH]; intros i cur T.
  - reflexivity.
  - cbn [NotionCache.traverse Nat.eqb descend].
    erewrite bind_run by now apply find_by_title_under.
    destruct (truthy (first_child part cur _)) eqn:E; cbn [negb].
    + now apply IH.
    + reflexivity.
Qed.

Lemma find_by_path_shaped path obj_type p q h lr f :
  coll_ok (collection_of obj_type p q) = true ->
  NotionCache.find_by_path path obj_type (world_of p q h lr f)
  = (Ok (resolve_path (collection_of obj_type p q) (segments_of path)),
     world_of p q h lr f).
Proof.
  intro H. unfold NotionCache.find_by_path. fold (segments_of path).
  destruct (segments_of path) as [|s [|s' rest]].
  - reflexivity.
  - cbn [length Nat.eqb nth resolve_path]. now apply find_by_title_any.
  - remember (s' :: rest) as tail eqn:Et.
    replace (length (s :: tail) =? 1)%nat with false by now subst tail.
    replace (resolve_path (collection_of obj_type p q) (s :: tail))
      with (let root := first_titled s (collection_of obj_type p q) in
            if truthy root then descend (collection_of obj_type p q) tail root else VNone)
      by now subst tail.
    cbn [NotionCache.traverse Nat.eqb]. cbv zeta.
    erewrite bind_run by now apply find_by_title_any.
    destruct (truthy (first_titled s _)) eqn:E; cbn [negb].
    + now apply traverse_descend.
    + reflexivity.
Qed.

Lemma coll_ok_get c k e :
  coll_ok c = true -> dict_get k c = Some e -> entry_ok e = true.
Proof.
  unfold coll_ok. induction c as [|[k' e'] r IH]; simpl; [discriminate|].
  rewrite andb_true_iff. intros [H1 H2].
  destruct (key_eqb k' k); [intro E; now injection E as <- | auto].
Qed.

Lemma coll_ok_set c k e :
  coll_ok c = true -> entry_ok e = true -> coll_ok (dict_set k e c) = true.
Proof.
  unfold coll_ok. intros Hc He. induction c as [|[k' e'] r IH]; simpl.
  - now rewrite He.
  - simpl in Hc. apply andb_true_iff in Hc. destruct Hc as [H1 H2].
    destruct (key_eqb k' k); simpl.
    + now rewrite He, H2.
    + now rewrite H1, IH.
Qed.

Lemma entry_ok_title e :
  entry_ok e = true -> exists t, Py.getitem e (VStr "title") = Ok (VStr t).
Proof.
  unfold entry_ok, Py.getitem. destruct e as [| | | |fields]; try discriminate.
  cbn [key_of_value].
  destruct (dict_get (KStr "title") fields) as [[| |t| |]|]; try discriminate. eauto.
Qed.

(** What [get_title] returns: the title of the entry in [pages], else of the
    one in [databases], else [None]. *)
Lemma get_title_shaped item_id p q h lr f :
  coll_ok p = true -> coll_ok q = true ->
  exists v, NotionCache.get_title item_id (world_of p q h lr f) = (Ok v, world_of p q h lr f)
            /\ (v = VNone \/ exists t, v = VStr t).
Proof.
  intros Hp Hq. unfold NotionCache.get_title. cbn [NotionCache.get_title_in].
  erewrite bind_run by reflexivity.
  unfold lift at 1. erewrite bind_run by reflexivity.
  unfold lift at 1. erewrite bind_run by reflexivity.
  cbn [data world_of cache_data dict_get key_eqb String.eqb Ascii.eqb Bool.eqb].
  destruct (dict_get (KStr item_id) p) as [e|] eqn:Ee.
  - destruct (truthy e).
    + destruct (@entry_ok_title _ (@coll_ok_get _ _ _ Hp Ee)) as [t Ht].
      exists (VStr t). unfold lift. rewrite Ht. eauto.
    + erewrite bind_run by reflexivity.
      unfold lift at 1. erewrite bind_run by reflexivity.
      unfold lift at 1. erewrite bind_run by reflexivity.
      cbn [data world_of cache_data dict_get key_eqb String.eqb Ascii.eqb Bool.eqb].
      destruct (dict_get (KStr item_id) q) as [e'|] eqn:Ee'.
      * destruct (truthy e').
        -- destruct (@entry_ok_title _ (@coll_ok_get _ _ _ Hq Ee')) as [t Ht].
           exists (VStr t). unfold lift. rewrite Ht. eauto.
        -- exists VNone. eauto.
      * exists VNone. cbn [truthy]. eauto.
  - cbn [truthy].
    erewrite bind_run by reflexivity.
    unfold lift at 1. erewrite bind_run by reflexivity.
    unfold lift at 1. erewrite bind_run by reflexivity.
    cbn [data world_of cache_data dict_get key_eqb String.eqb Ascii.eqb Bool.eqb].
    destruct (dict_get (KStr item_id) q) as [e'|] eqn:Ee'.
    + destruct (truthy e').
      * destruct (@entry_ok_title _ (@coll_ok_get _ _ _ Hq Ee')) as [t Ht].
        exists (VStr t). unfold lift. rewrite Ht. eauto.
      * exists VNone. eauto.
    + exists VNone. cbn [truthy]. eauto.
Qed.

(** ** Path resolution *)

Lemma title_matches_with_parent title v e :
  title_matches title (with_parent v e) = title_matches title e.
Proof.
  destruct e as [| | | |fields]; try reflexivity.
  unfold with_parent, title_matches.
  now rewrite dict_get_set_other by discriminate.
Qed.

Lemma first_titled_reparent title g c :
  first_titled title (reparent g c) = first_titled title c.
Proof.
  unfold first_titled, first_by, reparent.
  induction c as [|[k e] c IH]; [reflexivity|].
  cbn [map filter fst snd]. rewrite title_matches_with_parent.
  destruct (title_matches title e); [reflexivity | exact IH].
Qed.

(** C2, as the code has it.  On a path of two or more segments the first
    segment is resolved by title alone: the parent constraint [None] lifts
    the filter, so the first entry of the requested kind with that title is
    taken whatever [parent_id] it holds (replacing every [parent_id] of the
    collection leaves the choice unchanged), and the remaining segments are
    resolved under the identifier found so far.  Path and titles are of
    ASCII characters, where folding and trimming are Python's. *)
Theorem first_segment_any_parent :
  forall (path obj_type : string) (p q h : list (key * value)) (lr : value)
         (f : file_state) (s : string) (rest : list string),
    coll_ok (collection_of obj_type p q) = true ->
    is_ascii path = true ->
    ascii_titles (collection_of obj_type p q) = true ->
    segments_of path = s :: rest ->
    rest <> [] ->
    let c := collection_of obj_type p q in
    fst (NotionCache.find_by_path path obj_type (world_of p q h lr f))
    = Ok (if truthy (first_titled s c) then descend c rest (first_titled s c) else VNone)
    /\ forall g : key -> value, first_titled s (reparent g c) = first_titled s c.
Proof.
  intros path obj_type p q h lr f s rest Hc _ _ Hs Hr c. split.
  - rewrite find_by_path_shaped by assumption. rewrite Hs. cbn [fst].
    destruct rest as [|s' rest]; [contradiction | reflexivity].
  - intro g. apply first_titled_reparent.
Qed.

Lemma first_segment_any_parent_witness :
  fst (NotionCache.find_by_path "A/B" "page" (world_of orphan_pages [] [] VNone FileMissing))
  = Ok (if truthy (first_titled "A" orphan_pages)
        then descend orphan_pages ["B"] (first_titled "A" orphan_pages) else VNone).
Proof.
  refine (proj1 (@first_segment_any_parent "A/B" "page" orphan_pages [] [] VNone
                   FileMissing "A" ["B"] _ _ _ _ _)).
  - vm_compute. reflexivity.
  - vm_compute. reflexivity.
  - vm_compute. reflexivity.
  - vm_compute. reflexivity.
  - discriminate.
Defined.

(** C2 as worded fails: the only page titled "A" has a non-null
    [parent_id], and "A/B" is found all the same. *)
Lemma first_segment_with_parent_found :
  first_by (fun e => title_matches "A" e && child_of VNone e) orphan_pages = VNone /\
  fst (NotionCache.find_by_path "A/B" "page"
         (world_of orphan_pages [] [] VNone FileMissing)) = Ok (VStr "b").
Proof. split; vm_compute; reflexivity. Qed.

Lemma find_by_title_same_collection title obj_type parent p q h lr f p' q' h' lr' f' :
  collection_of obj_type p q = collection_of obj_type p' q' ->
  fst (NotionCache._find_by_title title obj_type parent (world_of p q h lr f))
  = fst (NotionCache._find_by_title title obj_type parent (world_of p' q' h' lr' f')).
Proof. intro E. rewrite !find_by_title_shaped. cbn [fst]. now rewrite E. Qed.

Lemma bind_fst {A B} (m : M A) (k : A -> M B) w o :
  m w = (o, w) ->
  bind m k w = match o with Ok a => k a w | Raise e => (Raise e, w) end.
Proof. intro H. unfold bind. rewrite H. now destruct o. Qed.

Lemma traverse_same_collection obj_type p q h lr f p' q' h' lr' f' :
  collection_of obj_type p q = collection_of obj_type p' q' ->
  forall parts i current,
    fst (NotionCache.traverse obj_type i parts current (world_of p q h lr f))
    = fst (NotionCache.traverse obj_type i parts current (world_of p' q' h' lr' f')).
Proof.
  intro E. induction parts as [|part rest IH]; intros i cur; [reflexivity|].
  cbn [NotionCache.traverse].
  set (par := if (i =? 0)%nat then VNone else cur).
  replace (if (i =? 0)%nat
           then NotionCache._find_by_title part obj_type VNone
           else NotionCache._find_by_title part obj_type cur)
    with (NotionCache._find_by_title part obj_type par)
    by (unfold par; now destruct (i =? 0)%nat).
  rewrite !(bind_fst _ _ (find_by_title_shaped part obj_type par _ _ _ _ _)).
  rewrite E.
  destruct (obind _ _) as [v|e]; [|reflexivity].
  destruct (negb (truthy v)); [reflexivity | apply IH].
Qed.

Lemma find_by_path_same_collection path obj_type p q h lr f p' q' h' lr' f' :
  collection_of obj_type p q = collection_of obj_type p' q' ->
  fst (NotionCache.find_by_path path obj_type (world_of p q h lr f))
  = fst (NotionCache.find_by_path path obj_type (world_of p' q' h' lr' f')).
Proof.
  intro E. unfold NotionCache.find_by_path.
  destruct (Nat.eqb _ 1).
  - now apply find_by_title_same_collection.
  - now apply traverse_same_collection.
Qed.

Lemma first_by_none pred c :
  (forall kv, In kv c -> pred (snd kv) = false) -> first_by pred c = VNone.
Proof.
  intro H. unfold first_by.
  replace (filter (fun kv => pred (snd kv)) c) with (@nil (key * value)); [reflexivity|].
  symmetry. induction c as [|kv c IH]; [reflexivity|]. simpl.
  rewrite (H kv) by now left. apply IH. intros kv' Hin. apply H. now right.
Qed.

Lemma descend_none c s :
  (forall kv, In kv c -> title_matches s (snd kv) = false) ->
  forall rest current, In s rest -> descend c rest current = VNone.
Proof.
  intro H. induction rest as [|s0 rest IH]; intros cur Hin; [contradiction|].
  cbn [descend]. destruct Hin as [->|Hin].
  - unfold first_child. rewrite first_by_none; [reflexivity|].
    intros kv Hkv. now rewrite (H kv Hkv).
  - destruct (truthy (first_child s0 cur c)); [now apply IH | reflexivity].
Qed.

Lemma resolve_path_none c s segments :
  (forall kv, In kv c -> title_matches s (snd kv) = false) ->
  In s segments -> resolve_path c segments = VNone.
Proof.
  intros H Hin. destruct segments as [|s0 [|s1 rest]].
  - contradiction.
  - destruct Hin as [->|[]]. cbn [resolve_path]. now apply first_by_none.
  - remember (s1 :: rest) as tail. 
    replace (resolve_path c (s0 :: tail))
      with (if truthy (first_titled s0 c) then descend c tail (first_titled s0 c) else VNone)
      by now subst tail.
    destruct Hin as [->|Hin].
    + unfold first_titled at 1. rewrite first_by_none by assumption. reflexivity.
    + destruct (truthy (first_titled s0 c)); [now apply descend_none with s | reflexivity].
Qed.

(** *** Chains inside the collection *)

Lemma first_by_only pred c id :
  (exists e, In (KStr id, e) c /\ pred e = true) ->
  (forall k e, In (k, e) c -> pred e = true -> k = KStr id) ->
  first_by pred c = VStr id.
Proof.
  unfold first_by. induction c as [|[k e] c IH]; intros [e0 [Hin Hp]] Hu; [contradiction|].
  cbn [filter snd]. destruct (pred e) eqn:E.
  - cbn [fst]. now rewrite (Hu k e (or_introl eq_refl) E).
  - apply IH.
    + exists e0. destruct Hin as [Heq|Hin]; [|now split].
      injection Heq as _ He. subst e0. congruence.
    + intros k' e' Hin' Hp'. apply (Hu k' e'); [now right | assumption].
Qed.

Lemma only_match_first c s id :
  only_match c s None id -> first_titled s c = VStr id.
Proof.
  intros [_ [[e [Hin [Ht _]]] Hu]]. unfold first_titled. apply first_by_only.
  - now exists e.
  - intros k e' Hin' Ht'. now apply (Hu k e').
Qed.

Lemma only_match_child c s pid id :
  only_match c s (Some pid) id -> first_child s (VStr pid) c = VStr id.
Proof.
  intros [_ [[e [Hin [Ht Hc]]] Hu]]. unfold first_child. apply first_by_only.
  - exists e. split; [assumption|]. cbn [under] in Hc. now rewrite Ht, Hc.
  - intros k e' Hin' Hp. apply andb_true_iff in Hp as [Ht' Hc']. now apply (Hu k e').
Qed.

Lemma truthy_identifier id : id <> "" -> truthy (VStr id) = true.
Proof. intro H. cbn [truthy]. now destruct (String.eqb_spec id ""). Qed.

Lemma last_default (l : list string) a d d' : last (a :: l) d = last (a :: l) d'.
Proof.
  revert a. induction l as [|b l IH]; intro a; [reflexivity|].
  change (last (b :: l) d = last (b :: l) d'). apply IH.
Qed.

Lemma last_cons (l : list string) a d : last (a :: l) d = last l a.
Proof. destruct l as [|b l]; [reflexivity|]. exact (last_default l b d a). Qed.

Lemma descend_chain c : forall steps pid,
  chain_from c (Some pid) steps ->
  descend c (map fst steps) (VStr pid) = VStr (last (map snd steps) pid).
Proof.
  induction steps as [|[s id] steps IH]; intros pid H; [reflexivity|].
  destruct H as [Hm Hrest]. cbn [map fst snd descend].
  rewrite (only_match_child Hm).
  rewrite (truthy_identifier (proj1 Hm)), last_cons. now apply IH.
Qed.

Lemma resolve_chain c steps :
  steps <> [] -> chain_from c None steps ->
  resolve_path c (map fst steps) = VStr (last (map snd steps) "").
Proof.
  destruct steps as [|[s id] steps]; intros Hne H; [contradiction|].
  destruct H as [Hm Hrest]. cbn [map fst snd]. rewrite last_cons.
  destruct steps as [|step steps].
  - cbn [map resolve_path last]. now apply only_match_first.
  - remember (step :: steps) as tail.
    replace (resolve_path c (s :: map fst tail))
      with (if truthy (first_titled s c)
            then descend c (map fst tail) (first_titled s c) else VNone)
      by (subst tail; reflexivity).
    rewrite (only_match_first Hm), (truthy_identifier (proj1 Hm)).
    now apply descend_chain.
Qed.

(** C9.  [find_by_path] resolves every segment of a path, the
    intermediate ones included, against the collection of the requested
    kind alone: for kind "page" the outcome does not depend on what
    [databases] holds, for kind "database" not on what [pages] holds (nor,
    either way, on the hierarchy index); so a path one of whose segments
    is titled only in the other collection returns not-found, whatever
    chain of [parent_id] links the other collection offers; and a path
    whose segments name a chain of entries of the requested collection,
    each the one entry with its title under the one before, resolves to
    the last entry of the chain.  Where titles are compared, path and
    titles are of ASCII characters, where folding and trimming are
    Python's. *)
Theorem path_resolved_within_kind :
  forall (path : string) (p q h : list (key * value)) (lr : value) (f : file_state),
    (forall q' h' lr' f',
        fst (NotionCache.find_by_path path "page" (world_of p q h lr f))
        = fst (NotionCache.find_by_path path "page" (world_of p q' h' lr' f'))) /\
    (forall p' h' lr' f',
        fst (NotionCache.find_by_path path "database" (world_of p q h lr f))
        = fst (NotionCache.find_by_path path "database" (world_of p' q h' lr' f'))) /\
    (forall s,
        coll_ok p = true -> is_ascii path = true -> ascii_titles p = true ->
        In s (segments_of path) ->
        (forall kv, In kv p -> title_matches s (snd kv) = false) ->
        fst (NotionCache.find_by_path path "page" (world_of p q h lr f)) = Ok VNone) /\
    (forall s,
        coll_ok q = true -> is_ascii path = true -> ascii_titles q = true ->
        In s (segments_of path) ->
        (forall kv, In kv q -> title_matches s (snd kv) = false) ->
        fst (NotionCache.find_by_path path "database" (world_of p q h lr f)) = Ok VNone) /\
    (forall steps,
        coll_ok p = true -> is_ascii path = true -> ascii_titles p = true ->
        segments_of path = map fst steps -> steps <> [] ->
        chain_from p None steps ->
        fst (NotionCache.find_by_path path "page" (world_of p q h lr f))
        = Ok (VStr (last (map snd steps) ""))) /\
    (forall steps,
        coll_ok q = true -> is_ascii path = true -> ascii_titles q = true ->
        segments_of path = map fst steps -> steps <> [] ->
        chain_from q None steps ->
        fst (NotionCache.find_by_path path "database" (world_of p q h lr f))
        = Ok (VStr (last (map snd steps) ""))).
Proof.
  intros path p q h lr f.
  split; [|split; [|split; [|split; [|split]]]].
  - intros. now apply find_by_path_same_collection.
  - intros. now apply find_by_path_same_collection.
  - intros s Hp _ _ Hin Hno. rewrite find_by_path_shaped by exact Hp. cbn [fst].
    f_equal. now apply resolve_path_none with s.
  - intros s Hq _ _ Hin Hno. rewrite find_by_path_shaped by exact Hq. cbn [fst].
    f_equal. now apply resolve_path_none with s.
  - intros steps Hp _ _ Hs Hne Hc. rewrite find_by_path_shaped by exact Hp. cbn [fst].
    f_equal. rewrite Hs. now apply resolve_chain.
  - intros steps Hq _ _ Hs Hne Hc. rewrite find_by_path_shaped by exact Hq. cbn [fst].
    f_equal. rewrite Hs. now apply resolve_chain.
Qed.

Lemma path_resolved_within_kind_witness :
  fst (NotionCache.find_by_path "Parent/Mid/Leaf" "page"
         (world_of mixed_pages mixed_databases [] VNone FileMissing)) = Ok VNone /\
  fst (NotionCache.find_by_path "parent / LEAF" "page"
         (world_of chained_pages mixed_databases [] VNone FileMissing)) = Ok (VStr "leaf").
Proof.
  split.
  - refine (proj1 (proj2 (proj2 (@path_resolved_within_kind "Parent/Mid/Leaf"
              mixed_pages mixed_databases [] VNone FileMissing))) "Mid" _ _ _ _ _).
    + vm_compute. reflexivity.
    + vm_compute. reflexivity.
    + vm_compute. reflexivity.
    + vm_compute. auto.
    + intros kv [<-|[<-|[]]]; vm_compute; reflexivity.
  - refine (proj1 (proj2 (proj2 (proj2 (proj2 (@path_resolved_within_kind "parent / LEAF"
              chained_pages mixed_databases [] VNone FileMissing)))))
              [("parent", "parent"); ("LEAF", "leaf")] _ _ _ _ _ _).
    + vm_compute. reflexivity.
    + vm_compute. reflexivity.
    + vm_compute. reflexivity.
    + vm_compute. reflexivity.
    + discriminate.
    + split; [|split; [|exact I]].
      * split; [discriminate|]. split.
        -- eexists. split; [left; reflexivity|]. split; vm_compute; reflexivity.
        -- intros k e [Heq|[Heq|[]]] Ht Hu; injection Heq as <- <-;
             [reflexivity | vm_compute in Ht; discriminate Ht].
      * split; [discriminate|]. split.
        -- eexists. split; [right; left; reflexivity|]. split; vm_compute; reflexivity.
        -- intros k e [Heq|[Heq|[]]] Ht Hu; injection Heq as <- <-;
             [vm_compute in Ht; discriminate Ht | reflexivity].
Defined.

(** ** Loading, and the methods on what was loaded *)

Lemma is_stale_shaped now p q h lr f :
  stamp_ok lr = true ->
  exists b, NotionCache.is_stale now (world_of p q h lr f) = (Ok b, world_of p q h lr f).
Proof.
  intro H. unfold NotionCache.is_stale.
  erewrite bind_run by reflexivity.
  unfold lift at 1. erewrite bind_run by reflexivity.
  cbn [data world_of cache_data dict_get key_eqb String.eqb Ascii.eqb Bool.eqb].
  destruct lr as [| |s| |]; try discriminate H.
  - exists true. reflexivity.
  - cbn [truthy]. destruct (s =? ""); cbn [negb].
    + exists true. reflexivity.
    + erewrite bind_run by reflexivity.
      unfold lift at 1. erewrite bind_run by reflexivity.
      unfold lift at 1. unfold stamp_ok in H.
      destruct (Datetime.fromisoformat s) as [t|] eqn:E; [|discriminate].
      erewrite bind_run by (cbn [NotionCache.py_fromisoformat]; rewrite E; reflexivity).
      eexists. reflexivity.
Qed.

Lemma title_of_string r : exists t, title_of r = VStr t.
Proof.
  unfold title_of, first_plain_text.
  destruct (r_object r); [destruct (_ || _)|]; destruct (r_title r); eauto.
Qed.

Lemma entry_of_ok now r : entry_ok (entry_of now r) = true.
Proof.
  unfold entry_ok, entry_of. cbn [dict_get key_eqb String.eqb Ascii.eqb Bool.eqb].
  destruct (title_of_string r) as [t ->]. reflexivity.
Qed.

Lemma fold_pages_ok R : forall clock p, coll_ok p = true -> coll_ok (fold_pages clock R p) = true.
Proof.
  induction R as [|r R IH]; intros clock p H; [assumption|].
  cbn [fold_pages]. apply IH. unfold step_pages.
  destruct (r_object r); [apply coll_ok_set; [assumption | apply entry_of_ok] | assumption].
Qed.

Lemma fold_databases_ok R :
  forall clock q, coll_ok q = true -> coll_ok (fold_databases clock R q) = true.
Proof.
  induction R as [|r R IH]; intros clock q H; [assumption|].
  cbn [fold_databases]. apply IH. unfold step_databases.
  destruct (r_object r); [assumption | apply coll_ok_set; [assumption | apply entry_of_ok]].
Qed.

Lemma stamp_ok_isoformat t : Datetime.valid t = true -> stamp_ok (VStr (Datetime.isoformat t)) = true.
Proof. intro H. unfold stamp_ok. now rewrite fromisoformat_isoformat. Qed.

(** A lookup returns [None] or the identifier of an entry of the collection. *)
Lemma first_by_key pred c :
  first_by pred c = VNone \/
  exists k, dict_mem k c = true /\ first_by pred c = value_of_key k.
Proof.
  unfold first_by. induction c as [|[k e] c IH]; [now left|].
  cbn [filter snd]. destruct (pred e).
  - right. exists k. cbn [dict_mem fst]. now rewrite key_eqb_refl.
  - destruct IH as [IH|[k' [Hk IH]]]; [now left|].
    right. exists k'. cbn [dict_mem]. now rewrite Hk, orb_true_r.
Qed.

Lemma descend_key c rest : forall current,
  rest <> [] ->
  descend c rest current = VNone \/
  exists k, dict_mem k c = true /\ descend c rest current = value_of_key k.
Proof.
  induction rest as [|s rest IH]; intros cur Hne; [contradiction|].
  cbn [descend]. destruct (truthy (first_child s cur c)); [|now left].
  destruct rest as [|s' rest'].
  - cbn [descend]. apply first_by_key.
  - apply IH. discriminate.
Qed.

Lemma resolve_path_key c segments :
  resolve_path c segments = VNone \/
  exists k, dict_mem k c = true /\ resolve_path c segments = value_of_key k.
Proof.
  destruct segments as [|s [|s' rest]].
  - now left.
  - apply first_by_key.
  - remember (s' :: rest) as tail.
    replace (resolve_path c (s :: tail))
      with (if truthy (first_titled s c) then descend c tail (first_titled s c) else VNone)
      by now subst tail.
    destruct (truthy (first_titled s c)); [|now left].
    apply descend_key. subst tail. discriminate.
Qed.

(** C5, as the code has it.  [_load] never raises: a missing file and a
    file that cannot be read or parsed give the default empty structure,
    and a file that parses is returned as it is, unvalidated.  On a
    document of the cache's structure (entries with a string title, lists
    in the hierarchy index, [last_refresh] null or a readable stamp), which
    the default structure is, [is_stale], [find_by_path] and [get_title]
    return without raising, a lookup giving [None] or the identifier of a
    cached entry and [get_title] giving [None] or a title, and so does
    [update_from_search] on well-formed results, leaving a document of that
    structure again. *)
Theorem load_and_methods_total :
  (forall f : file_state,
      exists d, NotionCache._load f = Ok d /\
                (f = FileMissing \/ f = FileGarbage -> d = NotionCache.empty_data) /\
                (forall doc, f = FileJson doc -> d = doc)) /\
  NotionCache.empty_data = cache_data [] [] [] VNone /\
  (forall (p q h : list (key * value)) (lr : value) (f : file_state),
      coll_ok p = true -> coll_ok q = true -> hier_ok h = true -> stamp_ok lr = true ->
      (forall now, exists b,
          fst (NotionCache.is_stale now (world_of p q h lr f)) = Ok b) /\
      (forall path obj_type, exists v,
          fst (NotionCache.find_by_path path obj_type (world_of p q h lr f)) = Ok v /\
          (v = VNone \/
           exists k, dict_mem k (collection_of obj_type p q) = true /\ v = value_of_key k)) /\
      (forall item_id, exists v,
          fst (NotionCache.get_title item_id (world_of p q h lr f)) = Ok v /\
          (v = VNone \/ exists t, v = VStr t)) /\
      (forall clock R,
          (forall n, Datetime.valid (clock n) = true) ->
          exists p' q' h' lr',
            NotionCache.update_from_search clock (map encode R) (world_of p q h lr f)
            = (Ok tt, world_of p' q' h' lr' (FileJson (jsonify (cache_data p' q' h' lr'))))
            /\ coll_ok p' = true /\ coll_ok q' = true
            /\ hier_ok h' = true /\ stamp_ok lr' = true)).
Proof.
  split; [|split].
  - intros [| |doc]; eexists; (split; [reflexivity|]); split;
      try (intros [H|H]; try discriminate; reflexivity);
      try (intros doc' H; try discriminate; now injection H).
  - reflexivity.
  - intros p q h lr f Hp Hq Hh Hlr. split; [|split; [|split]].
    + intro now. destruct (@is_stale_shaped now p q h lr f Hlr) as [b ->]. now exists b.
    + intros path obj_type.
      assert (Hc : coll_ok (collection_of obj_type p q) = true)
        by (unfold collection_of; now destruct (obj_type =? "page")).
      rewrite find_by_path_shaped by exact Hc.
      eexists. split; [reflexivity|].
      destruct (resolve_path_key (collection_of obj_type p q) (segments_of path))
        as [E|[k [Hk E]]]; [now left | right; now exists k].
    + intro item_id.
      destruct (@get_title_shaped item_id p q h lr f Hp Hq) as [v [-> Hv]]. now exists v.
    + intros clock R Hclock.
      exists (fold_pages clock R p), (fold_databases clock R q), (fold_hier R h),
        (VStr (Datetime.isoformat (clock (length R)))).
      split; [now apply update_from_search_shaped|].
      split; [now apply fold_pages_ok|].
      split; [now apply fold_databases_ok|].
      split; [now apply fold_hier_ok | now apply stamp_ok_isoformat].
Qed.

Lemma load_and_methods_total_witness :
  exists v,
    fst (NotionCache.find_by_path "A/B" "page"
           (world_of orphan_pages [] [] (VStr "2024-01-01T12:00:00") FileMissing)) = Ok v /\
    (v = VNone \/
     exists k, dict_mem k (collection_of "page" orphan_pages []) = true /\ v = value_of_key k).
Proof.
  refine (proj1 (proj2 ((proj2 (proj2 load_and_methods_total))
            orphan_pages [] [] (VStr "2024-01-01T12:00:00") FileMissing _ _ _ _))
            "A/B" "page"); vm_compute; reflexivity.
Defined.

(** C5 as worded fails: a file that parses is loaded as it is, and on it
    each of the four methods raises. *)
Lemma malformed_state_raises :
  NotionCache.init (FileJson malformed_doc) = Ok malformed_world /\
  fst (NotionCache.is_stale (noon 1) malformed_world) = Raise ValueError /\
  fst (NotionCache.find_by_path "Notes" "page" malformed_world) = Raise KeyError /\
  fst (NotionCache.get_title "p1" malformed_world) = Raise KeyError /\
  fst (NotionCache.update_from_search (frozen (noon 1)) [encode tasks_database]
         malformed_world) = Raise KeyError.
Proof.
  split; [vm_compute; reflexivity|].
  split; [vm_compute; reflexivity|].
  split; [vm_compute; reflexivity|].
  split; vm_compute; reflexivity.
Qed.

(** ** Successive writes *)

Section OverwriteFacts.
Variable A : Type.
Variable kv : A -> option (key * value).

Lemma put_all_get l : forall d k,
  dict_get k (put_all kv l d)
  = match last_put kv l k with
    | Some v => Some v
    | None => dict_get k d
    end.
Proof.
  induction l as [|a r IH]; intros d k; [reflexivity|].
  cbn [put_all last_put]. rewrite IH.
  destruct (last_put kv r k); [reflexivity|].
  unfold put. destruct (kv a) as [[k' v]|]; [|reflexivity].
  destruct (key_eqb k' k) eqn:E.
  - apply key_eqb_eq in E. subst. apply dict_get_set_same.
  - apply key_eqb_neq in E. apply dict_get_set_other. congruence.
Qed.

Lemma put_all_mem l : forall d k, dict_mem k d = true -> dict_mem k (put_all kv l d) = true.
Proof.
  induction l as [|a r IH]; intros d k H; [assumption|].
  cbn [put_all]. apply IH. unfold put.
  destruct (kv a) as [[k' v]|]; [|assumption].
  rewrite dict_mem_set, H. apply orb_true_r.
Qed.

(** A write that a later item of [l] overwrites leaves no trace. *)
Lemma put_all_absorb l : forall d k v v',
  last_put kv l k = Some v' -> dict_mem k d = true ->
  put_all kv l (dict_set k v d) = put_all kv l d.
Proof.
  induction l as [|a r IH]; intros d k v v' Hl Hm; [discriminate|].
  cbn [put_all last_put] in *. unfold put.
  destruct (kv a) as [[k1 v1]|] eqn:Ea.
  - destruct (key_eqb k1 k) eqn:E.
    + apply key_eqb_eq in E. subst k1. now rewrite dict_set_set.
    + apply key_eqb_neq in E.
      destruct (last_put kv r k) as [v2|] eqn:Er; [|discriminate].
      rewrite <- (@dict_set_comm _ k k1) by (assumption || congruence).
      apply IH with v2; [assumption|].
      rewrite dict_mem_set, Hm. apply orb_true_r.
  - destruct (last_put kv r k) as [v2|] eqn:Er; [|discriminate].
    now apply IH with v2.
Qed.

(** A dictionary that already holds what [l] writes last is left as it is. *)
Lemma put_all_fixed l : forall d,
  (forall k v, last_put kv l k = Some v -> dict_get k d = Some v) ->
  put_all kv l d = d.
Proof.
  induction l as [|a r IH]; intros d H; [reflexivity|].
  cbn [put_all]. 
  assert (Hr : forall k v, last_put kv r k = Some v -> dict_get k d = Some v).
  { intros k v E. apply H. cbn [last_put]. now rewrite E. }
  unfold put. destruct (kv a) as [[k v]|] eqn:Ea; [|now apply IH].
  destruct (last_put kv r k) as [v'|] eqn:Er.
  - rewrite put_all_absorb with (v' := v'); [now apply IH | assumption |].
    apply dict_mem_get. exists v'. now apply Hr.
  - rewrite dict_set_same; [now apply IH|].
    apply H. cbn [last_put]. now rewrite Er, Ea, key_eqb_refl.
Qed.

Lemma put_all_idempotent l d : put_all kv l (put_all kv l d) = put_all kv l d.
Proof.
  apply put_all_fixed. intros k v H. now rewrite put_all_get, H.
Qed.

End OverwriteFacts.

(** ** The collections after [update_from_search] *)

Lemma fold_pages_put R : forall clock p,
  fold_pages clock R p = put_all page_put (stamped clock R) p.
Proof.
  induction R as [|r R IH]; intros clock p; [reflexivity|].
  cbn [fold_pages stamped put_all]. rewrite IH. f_equal.
  unfold step_pages, put, page_put. cbn [fst snd]. now destruct (r_object r).
Qed.

Lemma fold_databases_put R : forall clock q,
  fold_databases clock R q = put_all database_put (stamped clock R) q.
Proof.
  induction R as [|r R IH]; intros clock q; [reflexivity|].
  cbn [fold_databases stamped put_all]. rewrite IH. f_equal.
  unfold step_databases, put, database_put. cbn [fst snd]. now destruct (r_object r).
Qed.

Lemma stamped_ext R : forall clock clock',
  (forall n, (n < length R)%nat -> clock' n = clock n) ->
  stamped clock' R = stamped clock R.
Proof.
  induction R as [|r R IH]; intros clock clock' H; [reflexivity|].
  cbn [stamped]. rewrite (H O) by (simpl; lia). f_equal.
  apply IH. intros n Hn. apply H. simpl. lia.
Qed.

Lemma forget_coll_set k v c :
  forget_coll (dict_set k v c) = dict_set k (forget_seen v) (forget_coll c).
Proof.
  unfold forget_coll. induction c as [|[k' v'] c IH]; [reflexivity|].
  cbn [dict_set map fst snd]. destruct (key_eqb k' k); cbn [map fst snd]; [reflexivity|].
  now rewrite IH.
Qed.

Lemma forget_entry_of t r : forget_seen (entry_of t r) = blank_entry r.
Proof. reflexivity. Qed.

Lemma forget_put_all_pages R : forall clock p,
  forget_coll (put_all page_put (stamped clock R) p)
  = put_all blank_page_put R (forget_coll p).
Proof.
  induction R as [|r R IH]; intros clock p; [reflexivity|].
  cbn [stamped put_all]. rewrite IH. f_equal.
  unfold put, blank_page_put, page_put. cbn [fst snd].
  destruct (r_object r); [|reflexivity].
  now rewrite forget_coll_set, forget_entry_of.
Qed.

Lemma forget_put_all_databases R : forall clock q,
  forget_coll (put_all database_put (stamped clock R) q)
  = put_all blank_database_put R (forget_coll q).
Proof.
  induction R as [|r R IH]; intros clock q; [reflexivity|].
  cbn [stamped put_all]. rewrite IH. f_equal.
  unfold put, blank_database_put, database_put. cbn [fst snd].
  destruct (r_object r); [reflexivity|].
  now rewrite forget_coll_set, forget_entry_of.
Qed.

(** ** The hierarchy index after [update_from_search] *)

Lemma hier_add_filed_same k id h :
  hier_ok h = true -> filed k (VStr id) (hier_add k (VStr id) h).
Proof.
  intro Hh. unfold hier_add.
  set (h1 := if dict_mem k h then h else dict_set k (VList []) h).
  assert (Hm : exists l, dict_get k h1 = Some (VList l)).
  { unfold h1. destruct (dict_mem k h) eqn:E.
    - apply dict_mem_get in E. destruct E as [v E].
      destruct (@hier_ok_get _ _ _ Hh E) as [l ->]. eauto.
    - exists []. apply dict_get_set_same. }
  destruct Hm as [l Hl]. rewrite Hl.
  destruct (existsb (fun y => py_eq (VStr id) y) l) eqn:E.
  - exists l. now split.
  - exists (l ++ [VStr id])%list. split; [apply dict_get_set_same|].
    rewrite existsb_app. cbn [existsb py_eq]. rewrite String.eqb_refl.
    now rewrite orb_true_r.
Qed.

Lemma hier_add_fixed k c h : filed k c h -> hier_add k c h = h.
Proof.
  intros [l [Hl He]]. unfold hier_add.
  assert (Hm : dict_mem k h = true) by (apply dict_mem_get; eauto).
  now rewrite Hm, Hl, He.
Qed.

Lemma hier_add_filed_other k c k' c' h :
  filed k c h -> filed k c (hier_add k' c' h).
Proof.
  intros [l [Hl He]]. unfold hier_add.
  destruct (key_eqb k' k) eqn:E.
  - apply key_eqb_eq in E. subst k'.
    assert (Hm : dict_mem k h = true) by (apply dict_mem_get; eauto).
    rewrite Hm, Hl.
    destruct (existsb (fun y => py_eq c' y) l).
    + exists l. now split.
    + exists (l ++ [c'])%list. split; [apply dict_get_set_same|].
      now rewrite existsb_app, He.
  - apply key_eqb_neq in E.
    set (h1 := if dict_mem k' h then h else dict_set k' (VList []) h).
    assert (H1 : dict_get k h1 = Some (VList l)).
    { unfold h1. destruct (dict_mem k' h); [assumption|].
      rewrite dict_get_set_other by congruence. assumption. }
    destruct (dict_get k' h1) as [[| | |l'|]|]; try (exists l; now split).
    destruct (existsb (fun y => py_eq c' y) l'); [exists l; now split|].
    exists l. split; [|assumption].
    rewrite dict_get_set_other by congruence. assumption.
Qed.

Lemma step_hier_filed r k c h : filed k c h -> filed k c (step_hier r h).
Proof.
  intro H. unfold step_hier.
  destruct (hier_key_of r); [now apply hier_add_filed_other | assumption].
Qed.

Lemma fold_hier_keeps R : forall k c h, filed k c h -> filed k c (fold_hier R h).
Proof.
  induction R as [|r R IH]; intros k c h H; [assumption|].
  cbn [fold_hier]. apply IH. now apply step_hier_filed.
Qed.

Lemma fold_hier_files R : forall h r k,
  hier_ok h = true -> In r R -> hier_key_of r = Some k ->
  filed k (VStr (r_id r)) (fold_hier R h).
Proof.
  induction R as [|r0 R IH]; intros h r k Hh Hin Hk; [contradiction|].
  cbn [fold_hier]. destruct Hin as [->|Hin].
  - apply fold_hier_keeps. unfold step_hier. rewrite Hk.
    now apply hier_add_filed_same.
  - apply IH; [now apply step_hier_ok | assumption | assumption].
Qed.

Lemma fold_hier_fixed R : forall h,
  (forall r k, In r R -> hier_key_of r = Some k -> filed k (VStr (r_id r)) h) ->
  fold_hier R h = h.
Proof.
  induction R as [|r R IH]; intros h H; [reflexivity|].
  cbn [fold_hier].
  assert (E : step_hier r h = h).
  { unfold step_hier. destruct (hier_key_of r) as [k|] eqn:Ek; [|reflexivity].
    apply hier_add_fixed. apply H; [now left | assumption]. }
  rewrite E. apply IH. intros r' k Hin Hk. apply H; [now right | assumption].
Qed.

Lemma fold_hier_idempotent R h :
  hier_ok h = true -> fold_hier R (fold_hier R h) = fold_hier R h.
Proof.
  intro Hh. apply fold_hier_fixed. intros r k Hin Hk. now apply fold_hier_files.
Qed.

(** ** Applying the same results twice *)

Lemma forget_times_data p q h lr :
  forget_times (cache_data p q h lr) = cache_data (forget_coll p) (forget_coll q) h VNone.
Proof. reflexivity. Qed.

(** C6, as the code has it.  Applying [update_from_search] to the same
    well-formed results a second time yields a cache equal to the one
    after the first application in everything but the time stamps: the
    [last_seen] of the entries and [last_refresh] carry the clock readings
    of the latest call.  When the clock gives the second call the readings
    it gave the first, cache and file are equal outright. *)
Theorem update_twice_up_to_stamps :
  forall (clock1 clock2 : nat -> datetime) (R : list search_result)
         (p q h : list (key * value)) (lr : value) (f : file_state),
    hier_ok h = true ->
    exists w1 w2,
      NotionCache.update_from_search clock1 (map encode R) (world_of p q h lr f) = (Ok tt, w1) /\
      NotionCache.update_from_search clock2 (map encode R) w1 = (Ok tt, w2) /\
      forget_times (data w2) = forget_times (data w1) /\
      ((forall n, (n <= length R)%nat -> clock2 n = clock1 n) -> w2 = w1).
Proof.
  intros clock1 clock2 R p q h lr f Hh.
  assert (Hh1 : hier_ok (fold_hier R h) = true) by now apply fold_hier_ok.
  eexists. eexists.
  split; [now apply update_from_search_shaped|].
  split.
  { apply (@update_from_search_shaped R clock2 (fold_pages clock1 R p)
             (fold_databases clock1 R q) (fold_hier R h)
             (VStr (Datetime.isoformat (clock1 (length R))))). exact Hh1. }
  cbn [data]. unfold updated_data. split.
  - rewrite !forget_times_data. rewrite fold_hier_idempotent by assumption.
    rewrite !fold_pages_put, !fold_databases_put.
    rewrite !forget_put_all_pages, !forget_put_all_databases.
    now rewrite !put_all_idempotent.
  - intro Hc.
    assert (Es : stamped clock2 R = stamped clock1 R).
    { apply stamped_ext. intros n Hn. apply Hc. lia. }
    rewrite fold_hier_idempotent by assumption.
    rewrite !fold_pages_put, !fold_databases_put, Es, !put_all_idempotent.
    now rewrite (Hc (length R)) by lia.
Qed.

Lemma update_twice_up_to_stamps_witness :
  exists w1 w2,
    NotionCache.update_from_search (frozen (noon 1)) (map encode [notes_page]) fresh_world
    = (Ok tt, w1) /\
    NotionCache.update_from_search (frozen (noon 2)) (map encode [notes_page]) w1
    = (Ok tt, w2) /\
    forget_times (data w2) = forget_times (data w1) /\
    ((forall n, (n <= 1)%nat -> frozen (noon 2) n = frozen (noon 1) n) -> w2 = w1).
Proof.
  apply (@update_twice_up_to_stamps (frozen (noon 1)) (frozen (noon 2)) [notes_page]
           [] [] [] VNone FileMissing).
  reflexivity.
Defined.

(** C6 as worded fails: a day later the same results leave another
    [last_refresh] (and other [last_seen]) in the cache. *)
Lemma update_twice_changes_stamps :
  let w1 := snd (NotionCache.update_from_search (frozen (noon 1))
                   (map encode [notes_page]) fresh_world) in
  let w2 := snd (NotionCache.update_from_search (frozen (noon 2))
                   (map encode [notes_page]) w1) in
  data w2 <> data w1.
Proof.
  intros w1 w2 H.
  apply (f_equal (fun d => Py.get d "last_refresh" VNone)) in H.
  vm_compute in H. discriminate H.
Qed.

(** ** Workspace parents *)

Lemma stamped_app R1 : forall clock R2,
  stamped clock (R1 ++ R2)
  = (stamped clock R1 ++ stamped (fun n => clock (length R1 + n)%nat) R2)%list.
Proof.
  induction R1 as [|r R1 IH]; intros clock R2; [reflexivity|].
  cbn [app stamped length]. now rewrite IH.
Qed.

Lemma last_put_app {A} (kv : A -> option (key * value)) l1 l2 k :
  last_put kv (l1 ++ l2)%list k
  = match last_put kv l2 k with
    | Some v => Some v
    | None => last_put kv l1 k
    end.
Proof.
  induction l1 as [|a l1 IH]; cbn [app last_put].
  - now destruct (last_put kv l2 k).
  - rewrite IH. now destruct (last_put kv l2 k).
Qed.

Lemma last_put_other_ids put R id :
  (forall tr, match put tr with
              | Some (k, _) => k = KStr (r_id (snd tr))
              | None => True
              end) ->
  forall clock,
    (forall r, In r R -> r_id r <> id) ->
    last_put put (stamped clock R) (KStr id) = None.
Proof.
  intro Hput. induction R as [|r R IH]; intros clock H; [reflexivity|].
  cbn [stamped last_put]. rewrite IH by (intros r' Hr; apply H; now right).
  specialize (Hput (clock O, r)). destruct (put (clock O, r)) as [[k v]|]; [|reflexivity].
  cbn [snd] in Hput. subst k. cbn [key_eqb].
  destruct (String.eqb_spec (r_id r) id) as [E|E]; [|reflexivity].
  exfalso. apply (H r); [now left | assumption].
Qed.

Lemma page_put_key tr :
  match page_put tr with
  | Some (k, _) => k = KStr (r_id (snd tr))
  | None => True
  end.
Proof. unfold page_put. now destruct (r_object (snd tr)). Qed.

Lemma database_put_key tr :
  match database_put tr with
  | Some (k, _) => k = KStr (r_id (snd tr))
  | None => True
  end.
Proof. unfold database_put. now destruct (r_object (snd tr)). Qed.

(** The entry a result leaves in its collection when no later result of
    the call has its identifier. *)
Lemma update_stores_entry clock R1 r R2 p q h :
  (forall r', In r' R2 -> r_id r' <> r_id r) ->
  exists c,
    Py.getitem (updated_data clock (R1 ++ r :: R2) p q h)
               (VStr (collection_name (r_object r))) = Ok (VDict c) /\
    dict_get (KStr (r_id r)) c = Some (entry_of (clock (length R1)) r).
Proof.
  intro H. unfold updated_data.
  destruct (r_object r) eqn:Ek.
  - exists (fold_pages clock (R1 ++ r :: R2) p). split; [reflexivity|].
    rewrite fold_pages_put, put_all_get, stamped_app, last_put_app.
    cbn [stamped last_put].
    rewrite (@last_put_other_ids page_put R2 (r_id r) page_put_key) by assumption.
    unfold page_put at 1. cbn [fst snd]. rewrite Ek. cbn [key_eqb].
    now rewrite String.eqb_refl, Nat.add_0_r.
  - exists (fold_databases clock (R1 ++ r :: R2) q). split; [reflexivity|].
    rewrite fold_databases_put, put_all_get, stamped_app, last_put_app.
    cbn [stamped last_put].
    rewrite (@last_put_other_ids database_put R2 (r_id r) database_put_key) by assumption.
    unfold database_put at 1. cbn [fst snd]. rewrite Ek. cbn [key_eqb].
    now rewrite String.eqb_refl, Nat.add_0_r.
Qed.

(** The slip in the guard of the hierarchy index: the parent of a
    workspace-level result is the flag [True], which is truthy and is not
    the string "workspace", so the result is filed under the key [True]. *)
Lemma workspace_parent_filed_under_true clock R r p q h lr f :
  hier_ok h = true -> In r R -> r_parent r = WorkspaceParent ->
  exists w',
    NotionCache.update_from_search clock (map encode R) (world_of p q h lr f) = (Ok tt, w') /\
    exists hier,
      Py.getitem (data w') (VStr "hierarchy") = Ok (VDict hier) /\
      filed (KBool true) (VStr (r_id r)) hier.
Proof.
  intros Hh Hin Hp. eexists. split; [now apply update_from_search_shaped|].
  exists (fold_hier R h). split; [reflexivity|].
  apply fold_hier_files; [assumption | assumption |].
  unfold hier_key_of, parent_id_of. now rewrite Hp.
Qed.

(** C3, as the code has it.  For a search result whose parent reference
    is a workspace parent, [update_from_search] stores the entry with
    [parent_id] set to the flag of that reference, [True], not to null
    (the entry read here is the one the result leaves, no later result of
    the call having its identifier). *)
Theorem workspace_parent_stored_as_flag :
  forall (clock : nat -> datetime) (R1 R2 : list search_result) (r : search_result)
         (p q h : list (key * value)) (lr : value) (f : file_state),
    hier_ok h = true ->
    r_parent r = WorkspaceParent ->
    (forall r', In r' R2 -> r_id r' <> r_id r) ->
    exists w' c entry,
      NotionCache.update_from_search clock (map encode (R1 ++ r :: R2)) (world_of p q h lr f)
      = (Ok tt, w') /\
      Py.getitem (data w') (VStr (collection_name (r_object r))) = Ok (VDict c) /\
      dict_get (KStr (r_id r)) c = Some entry /\
      Py.get entry "parent_id" VNone = Ok (VBool true).
Proof.
  intros clock R1 R2 r p q h lr f Hh Hp Hlast.
  destruct (@update_stores_entry clock R1 r R2 p q h Hlast) as [c [Hc He]].
  eexists. exists c. eexists.
  split; [now apply update_from_search_shaped|].
  split; [exact Hc|]. split; [exact He|].
  unfold entry_of, parent_id_of. rewrite Hp. reflexivity.
Qed.

Lemma workspace_parent_stored_as_flag_witness :
  exists w' c entry,
    NotionCache.update_from_search (frozen (noon 1)) (map encode ([] ++ notes_page :: []))
      fresh_world = (Ok tt, w') /\
    Py.getitem (data w') (VStr "pages") = Ok (VDict c) /\
    dict_get (KStr "p1") c = Some entry /\
    Py.get entry "parent_id" VNone = Ok (VBool true).
Proof.
  apply (@workspace_parent_stored_as_flag (frozen (noon 1)) [] [] notes_page
           [] [] [] VNone FileMissing).
  - reflexivity.
  - reflexivity.
  - intros r' [].
Defined.

(** C3 as worded fails: after a page with a workspace parent the entry
    has a [parent_id] that is not null, and the hierarchy index has an
    entry, under the key [True]. *)
Lemma workspace_parent_not_null :
  let w := snd (NotionCache.update_from_search (frozen (noon 1))
                  (map encode [notes_page]) fresh_world) in
  (exists entry,
      obind (Py.getitem (data w) (VStr "pages")) (fun c => Py.getitem c (VStr "p1")) = Ok entry /\
      Py.get entry "parent_id" VNone <> Ok VNone) /\
  Py.getitem (data w) (VStr "hierarchy") = Ok (VDict [ (KBool true, VList [VStr "p1"]) ]).
Proof.
  intro w. split.
  - eexists. split; [vm_compute; reflexivity|]. vm_compute. discriminate.
  - vm_compute. reflexivity.
Qed.

(** ** Pages and databases apart *)

Lemma put_all_keys_of_kind {A} (kv : A -> option (key * value)) kind_of K l :
  forall c,
    keys_of_kind kind_of K c ->
    (forall a k v, In a l -> kv a = Some (k, v) -> exists id, k = KStr id /\ kind_of id = K) ->
    keys_of_kind kind_of K (put_all kv l c).
Proof.
  induction l as [|a l IH]; intros c Hc Hl; [assumption|].
  cbn [put_all]. apply IH.
  - unfold put. destruct (kv a) as [[k v]|] eqn:Ea; [|assumption].
    intros k' Hk'. rewrite dict_mem_set in Hk'. apply orb_true_iff in Hk'.
    destruct Hk' as [E|Hin]; [|now apply Hc].
    apply key_eqb_eq in E. subst k'. apply (Hl a k v); [now left | assumption].
  - intros a' k v Hin. apply Hl. now right.
Qed.

Lemma stamped_in R : forall clock tr, In tr (stamped clock R) -> In (snd tr) R.
Proof.
  induction R as [|r R IH]; intros clock tr H; [contradiction|].
  cbn [stamped] in H. destruct H as [<-|H]; [now left | right; eauto].
Qed.

Lemma fold_pages_of_kind kind_of clock R p :
  Forall (result_of_kind kind_of) R ->
  keys_of_kind kind_of Page p ->
  keys_of_kind kind_of Page (fold_pages clock R p).
Proof.
  intros HR Hp. rewrite fold_pages_put. apply put_all_keys_of_kind; [assumption|].
  intros tr k v Hin E. apply stamped_in in Hin.
  rewrite Forall_forall in HR. specialize (HR _ Hin). unfold result_of_kind in HR.
  unfold page_put in E. destruct (r_object (snd tr)) eqn:Ek; [|discriminate].
  injection E as <- _. exists (r_id (snd tr)). split; [reflexivity | congruence].
Qed.

Lemma fold_databases_of_kind kind_of clock R q :
  Forall (result_of_kind kind_of) R ->
  keys_of_kind kind_of Database q ->
  keys_of_kind kind_of Database (fold_databases clock R q).
Proof.
  intros HR Hq. rewrite fold_databases_put. apply put_all_keys_of_kind; [assumption|].
  intros tr k v Hin E. apply stamped_in in Hin.
  rewrite Forall_forall in HR. specialize (HR _ Hin). unfold result_of_kind in HR.
  unfold database_put in E. destruct (r_object (snd tr)) eqn:Ek; [discriminate|].
  injection E as <- _. exists (r_id (snd tr)). split; [reflexivity | congruence].
Qed.

Lemma kinds_disjoint kind_of p q :
  keys_of_kind kind_of Page p -> keys_of_kind kind_of Database q -> disjoint_keys p q.
Proof.
  intros Hp Hq k Kp Kq.
  destruct (Hp k Kp) as [id [-> Ep]]. destruct (Hq _ Kq) as [id' [E Eq]].
  injection E as <-. congruence.
Qed.

Lemma update_all_of_kind kind_of calls :
  Forall (fun call => Forall (result_of_kind kind_of) (snd call)) calls ->
  forall p q h lr f,
    hier_ok h = true ->
    keys_of_kind kind_of Page p -> keys_of_kind kind_of Database q ->
    exists p' q' h' lr' f',
      update_all calls (world_of p q h lr f) = (Ok tt, world_of p' q' h' lr' f') /\
      keys_of_kind kind_of Page p' /\ keys_of_kind kind_of Database q'.
Proof.
  induction calls as [|[clock R] calls IH]; intros Hcalls p q h lr f Hh Hp Hq.
  - exists p, q, h, lr, f. now repeat split.
  - inversion Hcalls as [|? ? HR Hrest]; subst. cbn [snd] in HR.
    cbn [update_all].
    erewrite bind_run by now apply update_from_search_shaped.
    apply (IH Hrest (fold_pages clock R p) (fold_databases clock R q) (fold_hier R h)
              (VStr (Datetime.isoformat (clock (length R))))).
    + now apply fold_hier_ok.
    + now apply fold_pages_of_kind.
    + now apply fold_databases_of_kind.
Qed.

(** C8, as the code has it.  [update_from_search] files a result under
    the kind the result itself reports and never takes an identifier out
    of the other mapping; so the mappings stay apart as long as the results
    do: when every identifier is reported under one kind only ([kind_of]
    gives it) and the cache starts with its mappings in agreement with
    that, then after any sequence of calls no identifier is in both
    [pages] and [databases]; in particular from the empty cache. *)
Theorem mappings_apart_when_results_are :
  forall (kind_of : string -> object_kind)
         (calls : list ((nat -> datetime) * list search_result)),
    Forall (fun call => Forall (result_of_kind kind_of) (snd call)) calls ->
    (forall p q h lr f,
        hier_ok h = true ->
        keys_of_kind kind_of Page p -> keys_of_kind kind_of Database q ->
        exists p' q' h' lr' f',
          update_all calls (world_of p q h lr f) = (Ok tt, world_of p' q' h' lr' f') /\
          disjoint_keys p' q') /\
    (exists p' q' h' lr' f',
        update_all calls fresh_world = (Ok tt, world_of p' q' h' lr' f') /\
        disjoint_keys p' q').
Proof.
  intros kind_of calls Hcalls. split.
  - intros p q h lr f Hh Hp Hq.
    destruct (@update_all_of_kind kind_of calls Hcalls p q h lr f Hh Hp Hq)
      as [p' [q' [h' [lr' [f' [E [Hp' Hq']]]]]]].
    exists p', q', h', lr', f'. split; [assumption | now apply kinds_disjoint with kind_of].
  - destruct (@update_all_of_kind kind_of calls Hcalls [] [] [] VNone FileMissing)
      as [p' [q' [h' [lr' [f' [E [Hp' Hq']]]]]]];
      try (intros k Hk; discriminate Hk); try reflexivity.
    exists p', q', h', lr', f'. split; [assumption | now apply kinds_disjoint with kind_of].
Qed.

Lemma mappings_apart_when_results_are_witness :
  exists p' q' h' lr' f',
    update_all [ (frozen (noon 1), [notes_page]); (frozen (noon 2), [tasks_database; notes_page]) ]
      fresh_world = (Ok tt, world_of p' q' h' lr' f') /\
    disjoint_keys p' q'.
Proof.
  refine (proj2 (@mappings_apart_when_results_are
                   (fun id => if String.eqb id "p1" then Page else Database) _ _)).
  repeat (apply Forall_cons || apply Forall_nil); reflexivity.
Defined.

(** C8 as worded fails: results that report one identifier as a page and
    as a database leave it in both mappings. *)
Lemma identifier_in_both_mappings :
  let w := snd (NotionCache.update_from_search (frozen (noon 1))
                  (map encode clashing_results) fresh_world) in
  exists p q,
    Py.getitem (data w) (VStr "pages") = Ok (VDict p) /\
    Py.getitem (data w) (VStr "databases") = Ok (VDict q) /\
    dict_mem (KStr "x") p = true /\ dict_mem (KStr "x") q = true.
Proof.
  intro w. eexists. eexists.
  split; [vm_compute; reflexivity|].
  split; [vm_compute; reflexivity|].
  split; vm_compute; reflexivity.
Qed.

(** ** The resolver's fallback *)

Lemma split_not_nil sep s : PyStr.split sep s <> [].
Proof.
  destruct s as [|c r]; cbn [PyStr.split]; [discriminate|].
  destruct (Ascii.eqb c sep); [discriminate|].
  destruct (PyStr.split sep r); discriminate.
Qed.

Lemma split_no_sep sep s : PyStr.mem_char sep s = false -> PyStr.split sep s = [s].
Proof.
  induction s as [|c r IH]; cbn [PyStr.mem_char PyStr.split]; [reflexivity|].
  intro H. apply orb_false_iff in H. destruct H as [Hc Hr].
  rewrite Hc, (IH Hr). reflexivity.
Qed.




Lemma find_by_path_run path obj_type w o :
  fst (NotionCache.find_by_path path obj_type w) = o ->
  NotionCache.find_by_path path obj_type w = (o, w).
Proof.
  intros <-. rewrite <- (readonly_find_by_path path obj_type w) at 3.
  now destruct (NotionCache.find_by_path path obj_type w).
Qed.



(** ** Paths are read through their trimmed, lower-cased segments *)

Lemma matching_lower title title' parent items :
  PyStr.lower title = PyStr.lower title' ->
  NotionCache.matching title parent items = NotionCache.matching title' parent items.
Proof.
  intro H. induction items as [|[k e] items IH]; [reflexivity|].
  cbn [NotionCache.matching]. rewrite IH, H. reflexivity.
Qed.

Lemma find_by_title_lower title title' obj_type parent w :
  PyStr.lower title = PyStr.lower title' ->
  NotionCache._find_by_title title obj_type parent w
  = NotionCache._find_by_title title' obj_type parent w.
Proof.
  intro H. unfold NotionCache._find_by_title, bind, get_data, lift.
  destruct (Py.get (data w) _ _) as [c|e]; [|reflexivity].
  destruct (Py.items c) as [items|e]; [|reflexivity].
  now rewrite (@matching_lower title title' parent items H).
Qed.

Lemma traverse_lower obj_type parts :
  forall parts' i current w,
    map PyStr.lower parts = map PyStr.lower parts' ->
    NotionCache.traverse obj_type i parts current w
    = NotionCache.traverse obj_type i parts' current w.
Proof.
  induction parts as [|part rest IH]; intros [|part' rest'] i cur w H;
    try discriminate H; [reflexivity|].
  cbn [map] in H. injection H as Hp Hr.
  cbn [NotionCache.traverse]. unfold bind.
  assert (E : forall p, NotionCache._find_by_title part' obj_type p w
                        = NotionCache._find_by_title part obj_type p w)
    by (intro p; symmetry; now apply find_by_title_lower).
  destruct (i =? 0)%nat; rewrite E;
    (destruct (NotionCache._find_by_title part obj_type _ w) as [[v|e] w'];
     [|reflexivity]);
    (destruct (negb (truthy v)); [reflexivity | now apply IH]).
Qed.

Lemma lower_char_idem c : PyStr.lower_char (PyStr.lower_char c) = PyStr.lower_char c.
Proof. destruct c as [[] [] [] [] [] [] [] []]; reflexivity. Qed.

Lemma lower_idem s : PyStr.lower (PyStr.lower s) = PyStr.lower s.
Proof.
  induction s as [|c r IH]; [reflexivity|].
  cbn [PyStr.lower]. now rewrite lower_char_idem, IH.
Qed.

Lemma lower_char_space c : PyStr.is_space (PyStr.lower_char c) = PyStr.is_space c.
Proof. destruct c as [[] [] [] [] [] [] [] []]; reflexivity. Qed.

Lemma lower_char_slash c : Ascii.eqb (PyStr.lower_char c) "/" = Ascii.eqb c "/".
Proof. destruct c as [[] [] [] [] [] [] [] []]; reflexivity. Qed.

Lemma lstrip_lower s : PyStr.lstrip (PyStr.lower s) = PyStr.lower (PyStr.lstrip s).
Proof.
  induction s as [|c r IH]; [reflexivity|].
  cbn [PyStr.lower PyStr.lstrip]. rewrite lower_char_space.
  destruct (PyStr.is_space c); [exact IH | reflexivity].
Qed.

Lemma rstrip_lower s : PyStr.rstrip (PyStr.lower s) = PyStr.lower (PyStr.rstrip s).
Proof.
  induction s as [|c r IH]; [reflexivity|].
  cbn [PyStr.lower PyStr.rstrip]. rewrite IH, lower_char_space.
  destruct (PyStr.rstrip r); cbn [PyStr.lower]; [|reflexivity].
  destruct (PyStr.is_space c); reflexivity.
Qed.

Lemma strip_lower s : PyStr.strip (PyStr.lower s) = PyStr.lower (PyStr.strip s).
Proof. unfold PyStr.strip. now rewrite lstrip_lower, rstrip_lower. Qed.

Lemma split_lower s :
  PyStr.split "/" (PyStr.lower s) = map PyStr.lower (PyStr.split "/" s).
Proof.
  induction s as [|c r IH]; [reflexivity|].
  cbn [PyStr.lower PyStr.split]. rewrite lower_char_slash, IH.
  destruct (Ascii.eqb c "/"); [reflexivity|].
  destruct (PyStr.split "/" r); reflexivity.
Qed.

Lemma segments_lower path :
  segments_of (PyStr.lower path) = map PyStr.lower (segments_of path).
Proof.
  unfold segments_of. rewrite split_lower, !map_map.
  apply map_ext. intro s. apply strip_lower.
Qed.

(** X1.  [find_by_path] reads a path only through its segments, trimmed
    and lower-cased: two paths of ASCII characters with the same such
    segments give the same outcome on every cache with ASCII titles,
    raised errors included.  In particular the case of the letters of a
    path does not matter. *)
Theorem find_by_path_normalised :
  forall (w : world) (obj_type path path' : string),
    is_ascii path = true ->
    is_ascii path' = true ->
    titles_ascii obj_type w = true ->
    map PyStr.lower (segments_of path) = map PyStr.lower (segments_of path') ->
    NotionCache.find_by_path path obj_type w = NotionCache.find_by_path path' obj_type w.
Proof.
  intros w obj_type path path' _ _ _ H. unfold NotionCache.find_by_path.
  fold (segments_of path) (segments_of path').
  assert (Hl : length (segments_of path) = length (segments_of path')).
  { rewrite <- (length_map PyStr.lower (segments_of path)), H. apply length_map. }
  rewrite Hl. destruct (Nat.eqb (length (segments_of path')) 1).
  - apply find_by_title_lower.
    destruct (segments_of path) as [|s l], (segments_of path') as [|s' l'];
      try discriminate Hl; [reflexivity|].
    cbn [map] in H. now injection H.
  - now apply traverse_lower.
Qed.

Lemma find_by_path_normalised_witness :
  NotionCache.find_by_path "  Parent /LEAF" "page"
    (world_of mixed_pages mixed_databases [] VNone FileMissing)
  = NotionCache.find_by_path "parent/ leaf  " "page"
      (world_of mixed_pages mixed_databases [] VNone FileMissing).
Proof.
  apply find_by_path_normalised; vm_compute; reflexivity.
Defined.

(** X2.  Lower-casing a path of ASCII characters does not change what
    [find_by_path] does on a cache with ASCII titles. *)
Theorem find_by_path_ignores_case :
  forall (w : world) (obj_type path : string),
    is_ascii path = true ->
    titles_ascii obj_type w = true ->
    NotionCache.find_by_path (PyStr.lower path) obj_type w
    = NotionCache.find_by_path path obj_type w.
Proof.
  intros w obj_type path _ _. unfold NotionCache.find_by_path.
  fold (segments_of (PyStr.lower path)) (segments_of path).
  rewrite segments_lower, length_map.
  destruct (Nat.eqb (length (segments_of path)) 1).
  - apply find_by_title_lower.
    destruct (segments_of path) as [|s l]; [reflexivity|]. cbn [map nth]. apply lower_idem.
  - apply traverse_lower. rewrite map_map. apply map_ext. intro s. apply lower_idem.
Qed.

Lemma find_by_path_ignores_case_witness :
  NotionCache.find_by_path (PyStr.lower "A / B") "page"
    (world_of orphan_pages [] [] VNone FileMissing)
  = NotionCache.find_by_path "A / B" "page"
      (world_of orphan_pages [] [] VNone FileMissing).
Proof.
  apply find_by_path_ignores_case; vm_compute; reflexivity.
Defined.

(** ** What a lookup finds *)

Lemma first_by_sound pred c :
  first_by pred c = VNone \/
  exists k e, In (k, e) c /\ pred e = true /\ first_by pred c = value_of_key k.
Proof.
  unfold first_by. induction c as [|[k e] c IH]; [now left|].
  cbn [filter snd]. destruct (pred e) eqn:E.
  - right. exists k, e. split; [now left | now split].
  - destruct IH as [IH|[k' [e' [Hin [Hp IH]]]]]; [now left|].
    right. exists k', e'. split; [now right | now split].
Qed.

Lemma descend_sound c rest : forall current,
  rest <> [] ->
  descend c rest current = VNone \/
  exists k e, In (k, e) c /\ title_matches (last rest "") e = true /\
              descend c rest current = value_of_key k.
Proof.
  induction rest as [|s rest IH]; intros cur Hne; [contradiction|].
  cbn [descend]. destruct (truthy (first_child s cur c)); [|now left].
  destruct rest as [|s' rest'].
  - cbn [descend last]. unfold first_child.
    destruct (first_by_sound (fun e => title_matches s e && child_of cur e) c)
      as [E|[k [e [Hin [Hp E]]]]]; [now left|].
    right. exists k, e. apply andb_true_iff in Hp. now repeat split.
  - replace (last (s :: s' :: rest') "") with (last (s' :: rest') "") by reflexivity.
    apply IH. discriminate.
Qed.

Lemma resolve_path_sound c segments :
  resolve_path c segments = VNone \/
  exists k e, In (k, e) c /\ title_matches (last segments "") e = true /\
              resolve_path c segments = value_of_key k.
Proof.
  destruct segments as [|s [|s' rest]].
  - now left.
  - cbn [resolve_path last]. unfold first_titled.
    destruct (first_by_sound (title_matches s) c) as [E|[k [e [Hin [Hp E]]]]]; [now left|].
    right. now exists k, e.
  - remember (s' :: rest) as tail.
    replace (resolve_path c (s :: tail))
      with (if truthy (first_titled s c) then descend c tail (first_titled s c) else VNone)
      by now subst tail.
    replace (last (s :: tail) "") with (last tail "") by now subst tail.
    destruct (truthy (first_titled s c)); [|now left].
    apply descend_sound. subst tail. discriminate.
Qed.

(** A lookup that returns has read every entry of the collection. *)
Lemma matching_returns title parent c ms :
  NotionCache.matching title parent c = Ok ms -> coll_ok c = true.
Proof.
  unfold coll_ok. revert ms. induction c as [|[k e] c IH]; intros ms H; [reflexivity|].
  cbn [forallb snd]. cbn [NotionCache.matching] in H.
  destruct (Py.getitem e (VStr "title")) as [t|x] eqn:Et; [|discriminate].
  cbn [obind] in H. destruct (Py.lower t) as [tl|x] eqn:El; [|discriminate].
  cbn [obind] in H.
  destruct (if (tl =? PyStr.lower title)%string
            then if is_none parent then Ok true
                 else obind (Py.get e "parent_id" VNone) (fun p => Ok (py_eq p parent))
            else Ok false) as [hit|x]; [|discriminate].
  cbn [obind] in H.
  destruct (NotionCache.matching title parent c) as [more|x]; [|discriminate].
  rewrite (@IH more eq_refl), andb_true_r.
  unfold entry_ok. destruct e as [|b|s|l|fields]; try discriminate.
  unfold Py.getitem in Et. cbn [key_of_value] in Et.
  destruct (dict_get (KStr "title") fields) as [v|]; [|discriminate].
  injection Et as ->. now destruct t.
Qed.

Lemma find_by_title_returns title obj_type parent p q h lr f v :
  fst (NotionCache._find_by_title title obj_type parent (world_of p q h lr f)) = Ok v ->
  coll_ok (collection_of obj_type p q) = true.
Proof.
  rewrite find_by_title_shaped. cbn [fst].
  destruct (NotionCache.matching title parent (collection_of obj_type p q)) as [ms|x] eqn:E;
    [|discriminate].
  intros _. exact (@matching_returns _ _ _ _ E).
Qed.

Lemma find_by_path_returns path obj_type p q h lr f v :
  fst (NotionCache.find_by_path path obj_type (world_of p q h lr f)) = Ok v ->
  v <> VNone ->
  coll_ok (collection_of obj_type p q) = true.
Proof.
  unfold NotionCache.find_by_path.
  destruct (map PyStr.strip (PyStr.split "/" path)) as [|s [|s' rest]] eqn:Es.
  - cbn. intros [= <-] H. now elim H.
  - cbn [length Nat.eqb nth]. intros H _. exact (@find_by_title_returns _ _ _ _ _ _ _ _ _ H).
  - cbn [length Nat.eqb NotionCache.traverse]. unfold bind at 1.
    destruct (NotionCache._find_by_title s obj_type VNone (world_of p q h lr f))
      as [[v0|x] w0] eqn:E0.
    + intros _ _. apply (find_by_title_returns s obj_type VNone p q h lr f (v:=v0)).
      now rewrite E0.
    + discriminate.
Qed.

(** X3. An identifier that [find_by_path] returns is the key of an entry
    of the collection of the requested kind, and the title of that entry is
    the last segment of the path, case ignored; path and titles are of
    ASCII characters. *)
Theorem find_by_path_sound :
  forall (path obj_type : string) (p q h : list (key * value)) (lr : value)
         (f : file_state) (v : value),
    is_ascii path = true ->
    ascii_titles (collection_of obj_type p q) = true ->
    fst (NotionCache.find_by_path path obj_type (world_of p q h lr f)) = Ok v ->
    v <> VNone ->
    exists k e,
      In (k, e) (collection_of obj_type p q) /\
      v = value_of_key k /\
      title_matches (last (segments_of path) "") e = true.
Proof.
  intros path obj_type p q h lr f v _ _ Hv Hne.
  pose proof (@find_by_path_returns _ _ _ _ _ _ _ _ Hv Hne) as Hok.
  rewrite (@find_by_path_shaped path obj_type p q h lr f Hok) in Hv. cbn [fst] in Hv.
  injection Hv as <-.
  destruct (resolve_path_sound (collection_of obj_type p q) (segments_of path))
    as [E|[k [e [Hin [Ht E]]]]]; [contradiction|].
  exists k, e. now repeat split.
Qed.

Lemma find_by_path_sound_witness :
  exists k e,
    In (k, e) (collection_of "page" orphan_pages []) /\
    VStr "b" = value_of_key k /\
    title_matches (last (segments_of "A / b") "") e = true.
Proof.
  apply (@find_by_path_sound "A / b" "page" orphan_pages [] [] VNone FileMissing (VStr "b")).
  - vm_compute; reflexivity.
  - vm_compute; reflexivity.
  - vm_compute; reflexivity.
  - discriminate.
Defined.

Lemma first_by_complete pred c k e :
  string_keys c = true -> In (k, e) c -> pred e = true ->
  exists id, first_by pred c = VStr id.
Proof.
  unfold first_by, string_keys. induction c as [|[k' e'] c IH]; [contradiction|].
  cbn [forallb fst filter snd]. intros Hk Hin Hp. apply andb_true_iff in Hk as [Hk Hks].
  destruct (pred e') eqn:E.
  - destruct k' as [| |id]; try discriminate. now exists id.
  - destruct Hin as [[= -> ->]|Hin]; [congruence|]. now apply IH.
Qed.

(** X4. A name without a slash resolves to an identifier as soon as one
    entry of the collection has that title, case and surrounding white
    space ignored; name and titles are of ASCII characters. *)
Theorem title_lookup_complete :
  forall (name obj_type : string) (p q h : list (key * value)) (lr : value)
         (f : file_state) (k : key) (e : value),
    coll_ok (collection_of obj_type p q) = true ->
    string_keys (collection_of obj_type p q) = true ->
    is_ascii name = true ->
    ascii_titles (collection_of obj_type p q) = true ->
    PyStr.mem_char "/" name = false ->
    In (k, e) (collection_of obj_type p q) ->
    title_matches (PyStr.strip name) e = true ->
    exists id,
      fst (NotionCache.find_by_path name obj_type (world_of p q h lr f)) = Ok (VStr id).
Proof.
  intros name obj_type p q h lr f k e Hok Hkeys _ _ Hname Hin Ht.
  rewrite (@find_by_path_shaped name obj_type p q h lr f Hok). cbn [fst].
  unfold segments_of. rewrite (@split_no_sep _ _ Hname). cbn [map resolve_path].
  destruct (@first_by_complete (title_matches (PyStr.strip name)) _ k e Hkeys Hin Ht) as [id E].
  exists id. unfold first_titled. now rewrite E.
Qed.

Lemma title_lookup_complete_witness :
  exists id,
    fst (NotionCache.find_by_path "  LEAF " "page"
           (world_of mixed_pages mixed_databases [] VNone FileMissing)) = Ok (VStr id).
Proof.
  apply (@title_lookup_complete "  LEAF " "page" mixed_pages mixed_databases [] VNone
           FileMissing (KStr "leaf")
           (VDict [ (KStr "id", VStr "leaf"); (KStr "title", VStr "Leaf");
                    (KStr "parent_id", VStr "mid") ])).
  - vm_compute; reflexivity.
  - vm_compute; reflexivity.
  - vm_compute; reflexivity.
  - vm_compute; reflexivity.
  - vm_compute; reflexivity.
  - right; left; reflexivity.
  - vm_compute; reflexivity.
Defined.

(** *** Titles no path can name *)

Lemma mem_char_lstrip c s :
  PyStr.mem_char c s = false -> PyStr.mem_char c (PyStr.lstrip s) = false.
Proof.
  induction s as [|a r IH]; [trivial|]. cbn [PyStr.lstrip].
  destruct (PyStr.is_space a); [|trivial].
  cbn [PyStr.mem_char]. intro H. apply orb_false_iff in H as [_ Hr]. now apply IH.
Qed.

Lemma mem_char_rstrip c s :
  PyStr.mem_char c s = false -> PyStr.mem_char c (PyStr.rstrip s) = false.
Proof.
  induction s as [|a r IH]; [trivial|]. cbn [PyStr.rstrip PyStr.mem_char].
  intro H. apply orb_false_iff in H as [Ha Hr]. specialize (IH Hr).
  destruct (PyStr.rstrip r) as [|b r'].
  - destruct (PyStr.is_space a); [reflexivity|]. cbn [PyStr.mem_char]. now rewrite Ha.
  - cbn [PyStr.mem_char] in *. now rewrite Ha.
Qed.

Lemma mem_char_strip c s :
  PyStr.mem_char c s = false -> PyStr.mem_char c (PyStr.strip s) = false.
Proof. intro H. unfold PyStr.strip. now apply mem_char_rstrip, mem_char_lstrip. Qed.

Lemma split_segments_no_sep sep s :
  forall seg, In seg (PyStr.split sep s) -> PyStr.mem_char sep seg = false.
Proof.
  induction s as [|c r IH]; cbn [PyStr.split]; intros seg Hin.
  - destruct Hin as [<-|[]]. reflexivity.
  - destruct (Ascii.eqb c sep) eqn:Ec.
    + destruct Hin as [<-|Hin]; [reflexivity | now apply IH].
    + destruct (PyStr.split sep r) as [|seg' segs].
      * destruct Hin as [<-|[]]. cbn [PyStr.mem_char]. now rewrite Ec.
      * destruct Hin as [<-|Hin].
        -- cbn [PyStr.mem_char]. rewrite Ec. apply IH. now left.
        -- apply IH. now right.
Qed.

(** No segment of a path holds a slash. *)
Lemma segments_no_slash path :
  forall seg, In seg (segments_of path) -> PyStr.mem_char "/" seg = false.
Proof.
  unfold segments_of. intros seg Hin. apply in_map_iff in Hin as [s [<- Hin]].
  apply mem_char_strip. exact (@split_segments_no_sep _ _ _ Hin).
Qed.

Lemma segments_not_nil path : segments_of path <> [].
Proof.
  unfold segments_of. intro H. apply map_eq_nil in H. exact (@split_not_nil _ _ H).
Qed.

Lemma last_in (l : list string) d : l <> [] -> In (last l d) l.
Proof.
  induction l as [|a [|b r] IH]; intro H; [contradiction | now left |].
  right. apply IH. discriminate.
Qed.

Lemma lower_mem_slash s : PyStr.mem_char "/" (PyStr.lower s) = PyStr.mem_char "/" s.
Proof.
  induction s as [|c r IH]; [reflexivity|].
  cbn [PyStr.lower PyStr.mem_char]. now rewrite lower_char_slash, IH.
Qed.

Lemma nodup_keys_same (c : list (key * value)) k a b :
  NoDup (map fst c) -> In (k, a) c -> In (k, b) c -> a = b.
Proof.
  induction c as [|[k' e'] c IH]; [contradiction|].
  cbn [map fst]. intros Hnd Ha Hb. inversion Hnd as [|? ? Hnot Hnd']; subst.
  destruct Ha as [[= -> ->]|Ha], Hb as [[= <-]|Hb].
  - reflexivity.
  - elim Hnot. apply in_map_iff. now exists (k, b).
  - subst. elim Hnot. apply in_map_iff. now exists (k', a).
  - now apply IH.
Qed.

(** X5. No path names an entry whose title holds a slash: whatever the
    path, [find_by_path] never returns the identifier of such an entry. *)
Theorem slash_title_never_found :
  forall (path obj_type : string) (p q h : list (key * value)) (lr : value)
         (f : file_state) (id title : string) (fields : list (key * value)),
    NoDup (map fst (collection_of obj_type p q)) ->
    In (KStr id, VDict fields) (collection_of obj_type p q) ->
    dict_get (KStr "title") fields = Some (VStr title) ->
    PyStr.mem_char "/" title = true ->
    fst (NotionCache.find_by_path path obj_type (world_of p q h lr f)) <> Ok (VStr id).
Proof.
  intros path obj_type p q h lr f id title fields Hnd Hin Ht Hslash Hfound.
  assert (Hne : VStr id <> VNone) by discriminate.
  pose proof (@find_by_path_returns _ _ _ _ _ _ _ _ Hfound Hne) as Hok.
  rewrite (@find_by_path_shaped path obj_type p q h lr f Hok) in Hfound. cbn [fst] in Hfound.
  destruct (resolve_path_sound (collection_of obj_type p q) (segments_of path))
    as [E|[k [e [Hin' [Hm E]]]]]; [congruence|].
  rewrite E in Hfound. injection Hfound as Hk.
  destruct k as [| |id']; try discriminate. injection Hk as ->.
  rewrite <- (@nodup_keys_same _ _ _ _ Hnd Hin Hin') in Hm.
  unfold title_matches in Hm. rewrite Ht in Hm. apply String.eqb_eq in Hm.
  pose proof (@segments_no_slash path _ (@last_in _ "" (@segments_not_nil path))) as Hseg.
  rewrite <- lower_mem_slash, <- Hm, lower_mem_slash in Hseg. congruence.
Qed.

Lemma slash_title_never_found_witness :
  fst (NotionCache.find_by_path "Plans/2024" "page"
         (world_of slash_pages [] [] VNone FileMissing)) <> Ok (VStr "s").
Proof.
  apply (@slash_title_never_found "Plans/2024" "page" slash_pages [] [] VNone FileMissing
           "s" "Plans/2024"
           [ (KStr "id", VStr "s"); (KStr "title", VStr "Plans/2024");
             (KStr "parent_id", VNone) ]).
  - vm_compute. constructor; [intros [] | constructor].
  - left; reflexivity.
  - reflexivity.
  - vm_compute; reflexivity.
Defined.

(** ** Paths are resolved segment by segment *)

Lemma split_app sep a b :
  PyStr.split sep (a ++ String sep b) = (PyStr.split sep a ++ PyStr.split sep b)%list.
Proof.
  induction a as [|c r IH].
  - cbn [append PyStr.split]. now rewrite Ascii.eqb_refl.
  - cbn [append PyStr.split]. rewrite IH. destruct (Ascii.eqb c sep); [reflexivity|].
    destruct (PyStr.split sep r) as [|seg segs] eqn:E; [now apply split_not_nil in E|].
    reflexivity.
Qed.

Lemma find_by_title_run title obj_type parent w :
  NotionCache._find_by_title title obj_type parent w
  = (fst (NotionCache._find_by_title title obj_type parent w), w).
Proof.
  pose proof (@readonly__find_by_title title obj_type parent w) as H.
  destruct (NotionCache._find_by_title title obj_type parent w) as [o w0].
  cbn [snd] in H. now subst w0.
Qed.

Lemma last_step title obj_type parent w :
  bind (NotionCache._find_by_title title obj_type parent)
       (fun v => if negb (truthy v) then ret VNone
                 else NotionCache.traverse obj_type 2 [] v) w
  = find_child title obj_type parent w.
Proof.
  unfold find_child, bind. rewrite find_by_title_run.
  destruct (fst (NotionCache._find_by_title title obj_type parent w)) as [v|e]; [|reflexivity].
  cbn [NotionCache.traverse]. now destruct (truthy v).
Qed.

Lemma traverse_snoc obj_type s w rest : forall i current,
  truthy current = true ->
  NotionCache.traverse obj_type (S i) (rest ++ [s]) current w
  = match fst (NotionCache.traverse obj_type (S i) rest current w) with
    | Ok v => if truthy v then find_child s obj_type v w else (Ok VNone, w)
    | Raise e => (Raise e, w)
    end.
Proof.
  induction rest as [|q rest IH]; intros i cur Hcur.
  - cbn [app NotionCache.traverse Nat.eqb ret fst]. rewrite Hcur.
    unfold find_child, bind. rewrite find_by_title_run.
    destruct (fst (NotionCache._find_by_title s obj_type cur w)) as [v|e]; [|reflexivity].
    now destruct (truthy v).
  - cbn [app NotionCache.traverse Nat.eqb]. unfold bind at 1 2.
    rewrite find_by_title_run.
    destruct (fst (NotionCache._find_by_title q obj_type cur w)) as [v|e]; [|reflexivity].
    destruct (truthy v) eqn:Hv; cbn [negb]; [|reflexivity].
    now apply IH.
Qed.

(** X6. A path is resolved segment by segment: adding a segment to a
    path looks that segment up among the children of what the path
    resolves to, and gives [None] when the path resolves to nothing; path,
    segment and titles are of ASCII characters. *)
Theorem find_by_path_extends :
  forall (path s obj_type : string) (w : world),
    is_ascii path = true ->
    is_ascii s = true ->
    titles_ascii obj_type w = true ->
    PyStr.mem_char "/" s = false ->
    fst (NotionCache.find_by_path (path ++ "/" ++ s) obj_type w)
    = match fst (NotionCache.find_by_path path obj_type w) with
      | Ok v => if truthy v then fst (find_child (PyStr.strip s) obj_type v w) else Ok VNone
      | Raise e => Raise e
      end.
Proof.
  intros path s obj_type w _ _ _ Hs. unfold NotionCache.find_by_path.
  replace (path ++ "/" ++ s) with (path ++ String "/" s) by reflexivity.
  rewrite split_app, (@split_no_sep _ _ Hs), map_app. cbn [map].
  destruct (map PyStr.strip (PyStr.split "/" path)) as [|p [|q rest]] eqn:E.
  - apply map_eq_nil in E. now apply split_not_nil in E.
  - cbn [app length Nat.eqb nth NotionCache.traverse]. unfold bind at 1.
    rewrite find_by_title_run.
    destruct (fst (NotionCache._find_by_title p obj_type VNone w)) as [v|e]; [|reflexivity].
    cbn [fst].
    destruct (truthy v) eqn:Hv; cbn [negb fst]; [|reflexivity].
    unfold find_child, bind. rewrite find_by_title_run.
    destruct (fst (NotionCache._find_by_title (PyStr.strip s) obj_type v w)) as [v'|e];
      [|reflexivity].
    cbn [NotionCache.traverse]. now destruct (truthy v').
  - remember (q :: rest) as tail.
    assert (Hl : (length (p :: tail) =? 1)%nat = false) by now subst tail.
    assert (Hl' : (length (((p :: tail) ++ [PyStr.strip s])%list) =? 1)%nat = false)
      by now subst tail.
    rewrite Hl, Hl'. cbn [app NotionCache.traverse Nat.eqb]. unfold bind at 1 2.
    rewrite find_by_title_run.
    destruct (fst (NotionCache._find_by_title p obj_type VNone w)) as [v|e]; [|reflexivity].
    cbn [fst].
    destruct (truthy v) eqn:Hv; cbn [negb fst]; [|reflexivity].
    rewrite (@traverse_snoc obj_type (PyStr.strip s) w tail 0 v Hv).
    destruct (fst (NotionCache.traverse obj_type 1 tail v w)) as [u|e]; [|reflexivity].
    now destruct (truthy u).
Qed.

Lemma find_by_path_extends_witness :
  fst (NotionCache.find_by_path ("a" ++ "/" ++ " B ") "page"
         (world_of orphan_pages [] [] VNone FileMissing))
  = match fst (NotionCache.find_by_path "a" "page"
                 (world_of orphan_pages [] [] VNone FileMissing)) with
    | Ok v => if truthy v
              then fst (find_child (PyStr.strip " B ") "page" v
                          (world_of orphan_pages [] [] VNone FileMissing))
              else Ok VNone
    | Raise e => Raise e
    end.
Proof.
  apply find_by_path_extends; vm_compute; reflexivity.
Defined.

(** ** The cache after an update *)

Lemma after_update_shaped clock R p q h lr f :
  hier_ok h = true ->
  after_update clock R (world_of p q h lr f)
  = world_of (fold_pages clock R p) (fold_databases clock R q) (fold_hier R h)
             (VStr (Datetime.isoformat (clock (length R))))
             (FileJson (jsonify (updated_data clock R p q h))).
Proof.
  intro H. unfold after_update. now rewrite (@update_from_search_shaped R clock p q h lr f H).
Qed.

Lemma pad_not_empty w : forall n tail, tail <> "" -> Datetime.pad w n tail <> "".
Proof.
  induction w as [|w IH]; intros n tail H; [exact H|].
  cbn [Datetime.pad]. apply IH. discriminate.
Qed.

Lemma isoformat_not_empty t : Datetime.isoformat t <> "".
Proof. unfold Datetime.isoformat. apply pad_not_empty. discriminate. Qed.

(** [is_stale] on a cache stamped with a time it can read back. *)
Lemma is_stale_stamped now t p q h f :
  Datetime.valid t = true ->
  NotionCache.is_stale now (world_of p q h (VStr (Datetime.isoformat t)) f)
  = (Ok (Z.gtb (Datetime.sub now t) (Datetime.timedelta_hours CACHE_TTL_HOURS)),
     world_of p q h (VStr (Datetime.isoformat t)) f).
Proof.
  intro Hv. unfold NotionCache.is_stale.
  erewrite bind_run by reflexivity.
  unfold lift at 1. erewrite bind_run by reflexivity.
  cbn [data world_of cache_data dict_get key_eqb String.eqb Ascii.eqb Bool.eqb truthy].
  destruct (Datetime.isoformat t =? "") eqn:E.
  - apply String.eqb_eq in E. now apply isoformat_not_empty in E.
  - cbn [negb]. erewrite bind_run by reflexivity.
    unfold lift at 1. erewrite bind_run by reflexivity.
    unfold lift at 1.
    erewrite bind_run
      by (cbn [NotionCache.py_fromisoformat]; rewrite (@fromisoformat_isoformat _ Hv);
          reflexivity).
    reflexivity.
Qed.

(** X7. After [update_from_search], [is_stale] compares the time of the
    call with the stamp the update took: the cache is stale exactly when
    more than 24 hours separate the two. *)
Theorem stale_after_update :
  forall (clock : nat -> datetime) (R : list search_result) (now : datetime)
         (p q h : list (key * value)) (lr : value) (f : file_state),
    hier_ok h = true ->
    Datetime.valid (clock (length R)) = true ->
    fst (NotionCache.is_stale now (after_update clock R (world_of p q h lr f)))
    = Ok (Z.gtb (Datetime.sub now (clock (length R)))
                (Datetime.timedelta_hours CACHE_TTL_HOURS)).
Proof.
  intros clock R now p q h lr f Hh Hv.
  rewrite (@after_update_shaped clock R p q h lr f Hh).
  now rewrite (@is_stale_stamped now _ _ _ _ _ Hv).
Qed.

Lemma stale_after_update_witness :
  fst (NotionCache.is_stale (noon 2)
         (after_update (frozen (noon 1)) [notes_page] (world_of [] [] [] VNone FileMissing)))
  = Ok (Z.gtb (Datetime.sub (noon 2) (frozen (noon 1) (length [notes_page])))
              (Datetime.timedelta_hours CACHE_TTL_HOURS)).
Proof.
  apply (@stale_after_update (frozen (noon 1)) [notes_page] (noon 2) [] [] [] VNone FileMissing).
  - reflexivity.
  - vm_compute; reflexivity.
Defined.

Lemma mapping_of_pages p q h lr f : pages_of (world_of p q h lr f) = p.
Proof. reflexivity. Qed.

Lemma mapping_of_databases p q h lr f : databases_of (world_of p q h lr f) = q.
Proof. reflexivity. Qed.

Lemma mapping_of_hierarchy p q h lr f : hierarchy_of (world_of p q h lr f) = h.
Proof. reflexivity. Qed.

Lemma last_put_no_page R id : forall clock,
  (forall r, In r R -> r_object r = Page -> r_id r <> id) ->
  last_put page_put (stamped clock R) (KStr id) = None.
Proof.
  induction R as [|r R IH]; intros clock H; [reflexivity|].
  cbn [stamped last_put]. rewrite IH by (intros r' Hr'; apply H; now right).
  unfold page_put. cbn [fst snd]. destruct (r_object r) eqn:Ek; [|reflexivity].
  cbn [key_eqb]. destruct (String.eqb_spec (r_id r) id) as [E|E]; [|reflexivity].
  exfalso. exact (H r (or_introl eq_refl) Ek E).
Qed.

Lemma get_title_page id e p q h lr f :
  dict_get (KStr id) p = Some e -> truthy e = true ->
  NotionCache.get_title id (world_of p q h lr f)
  = (Py.getitem e (VStr "title"), world_of p q h lr f).
Proof.
  intros He Ht. unfold NotionCache.get_title. cbn [NotionCache.get_title_in].
  erewrite bind_run by reflexivity.
  unfold lift at 1. erewrite bind_run by reflexivity.
  unfold lift at 1. erewrite bind_run by reflexivity.
  cbn [data world_of cache_data dict_get key_eqb String.eqb Ascii.eqb Bool.eqb].
  rewrite He, Ht. reflexivity.
Qed.

Lemma get_title_database id e p q h lr f :
  dict_get (KStr id) p = None ->
  dict_get (KStr id) q = Some e -> truthy e = true ->
  NotionCache.get_title id (world_of p q h lr f)
  = (Py.getitem e (VStr "title"), world_of p q h lr f).
Proof.
  intros Hp He Ht. unfold NotionCache.get_title. cbn [NotionCache.get_title_in].
  erewrite bind_run by reflexivity.
  unfold lift at 1. erewrite bind_run by reflexivity.
  unfold lift at 1. erewrite bind_run by reflexivity.
  cbn [data world_of cache_data dict_get key_eqb String.eqb Ascii.eqb Bool.eqb].
  rewrite Hp. cbn [truthy].
  erewrite bind_run by reflexivity.
  unfold lift at 1. erewrite bind_run by reflexivity.
  unfold lift at 1. erewrite bind_run by reflexivity.
  cbn [data world_of cache_data dict_get key_eqb String.eqb Ascii.eqb Bool.eqb].
  rewrite He, Ht. reflexivity.
Qed.

Lemma last_put_page_here clock R1 r R2 :
  r_object r = Page ->
  (forall r', In r' R2 -> r_id r' <> r_id r) ->
  last_put page_put (stamped clock (R1 ++ r :: R2)) (KStr (r_id r))
  = Some (entry_of (clock (length R1)) r).
Proof.
  intros Ek H. rewrite stamped_app, last_put_app. cbn [stamped last_put].
  rewrite (@last_put_other_ids page_put R2 (r_id r) page_put_key) by assumption.
  unfold page_put at 1. cbn [fst snd]. rewrite Ek. cbn [key_eqb].
  now rewrite String.eqb_refl, Nat.add_0_r.
Qed.

Lemma last_put_database_here clock R1 r R2 :
  r_object r = Database ->
  (forall r', In r' R2 -> r_id r' <> r_id r) ->
  last_put database_put (stamped clock (R1 ++ r :: R2)) (KStr (r_id r))
  = Some (entry_of (clock (length R1)) r).
Proof.
  intros Ek H. rewrite stamped_app, last_put_app. cbn [stamped last_put].
  rewrite (@last_put_other_ids database_put R2 (r_id r) database_put_key) by assumption.
  unfold database_put at 1. cbn [fst snd]. rewrite Ek. cbn [key_eqb].
  now rewrite String.eqb_refl, Nat.add_0_r.
Qed.

(** X8. After [update_from_search], [get_title] of the identifier of a
    result returns the title the update extracted from it: the first
    [plain_text] of its title, "Untitled" without one.  For a database,
    no page, cached or among the results, has its identifier. *)
Theorem get_title_after_update :
  forall (clock : nat -> datetime) (R1 R2 : list search_result) (r : search_result)
         (p q h : list (key * value)) (lr : value) (f : file_state),
    hier_ok h = true ->
    (forall r', In r' R2 -> r_id r' <> r_id r) ->
    (r_object r = Database ->
     dict_get (KStr (r_id r)) p = None /\
     forall r', In r' (R1 ++ r :: R2)%list -> r_object r' = Page -> r_id r' <> r_id r) ->
    fst (NotionCache.get_title (r_id r)
           (after_update clock (R1 ++ r :: R2)%list (world_of p q h lr f)))
    = Ok (title_of r).
Proof.
  intros clock R1 R2 r p q h lr f Hh Hlast Hdb.
  rewrite (@after_update_shaped clock _ p q h lr f Hh).
  destruct (r_object r) eqn:Ek.
  - assert (He : dict_get (KStr (r_id r)) (fold_pages clock (R1 ++ r :: R2) p)
                 = Some (entry_of (clock (length R1)) r)).
    { rewrite fold_pages_put, put_all_get.
      now rewrite (@last_put_page_here clock R1 r R2 Ek Hlast). }
    now rewrite (@get_title_page _ _ _ _ _ _ _ He eq_refl).
  - destruct (Hdb eq_refl) as [Hp Hnone].
    assert (Hn : dict_get (KStr (r_id r)) (fold_pages clock (R1 ++ r :: R2) p) = None).
    { rewrite fold_pages_put, put_all_get.
      now rewrite (@last_put_no_page _ (r_id r) clock Hnone). }
    assert (He : dict_get (KStr (r_id r)) (fold_databases clock (R1 ++ r :: R2) q)
                 = Some (entry_of (clock (length R1)) r)).
    { rewrite fold_databases_put, put_all_get.
      now rewrite (@last_put_database_here clock R1 r R2 Ek Hlast). }
    now rewrite (@get_title_database _ _ _ _ _ _ _ Hn He eq_refl).
Qed.

Lemma get_title_after_update_witness :
  fst (NotionCache.get_title (r_id tasks_database)
         (after_update (frozen (noon 1)) ([notes_page] ++ tasks_database :: [])%list
            (world_of [] [] [] VNone FileMissing)))
  = Ok (title_of tasks_database).
Proof.
  apply (@get_title_after_update (frozen (noon 1)) [notes_page] [] tasks_database
           [] [] [] VNone FileMissing).
  - reflexivity.
  - intros r' [].
  - intros _. split; [reflexivity|].
    intros r' [<-|[<-|[]]]; [discriminate | discriminate].
Defined.

(** X9. [update_from_search] never removes an entry, and leaves alone the
    entries of the objects that are not among the results; what the
    hierarchy index lists stays listed. *)
Theorem update_keeps_entries :
  forall (clock : nat -> datetime) (R : list search_result)
         (p q h : list (key * value)) (lr : value) (f : file_state),
    hier_ok h = true ->
    let w := world_of p q h lr f in
    let w' := after_update clock R w in
    (forall k, dict_mem k (pages_of w) = true -> dict_mem k (pages_of w') = true) /\
    (forall k, dict_mem k (databases_of w) = true -> dict_mem k (databases_of w') = true) /\
    (forall id, (forall r, In r R -> r_id r <> id) ->
                dict_get (KStr id) (pages_of w') = dict_get (KStr id) (pages_of w) /\
                dict_get (KStr id) (databases_of w') = dict_get (KStr id) (databases_of w)) /\
    (forall k child, filed k child (hierarchy_of w) -> filed k child (hierarchy_of w')).
Proof.
  intros clock R p q h lr f Hh w w'. subst w w'.
  rewrite (@after_update_shaped clock R p q h lr f Hh).
  rewrite !mapping_of_pages, !mapping_of_databases, !mapping_of_hierarchy.
  split; [|split; [|split]].
  - intros k Hk. rewrite fold_pages_put. now apply put_all_mem.
  - intros k Hk. rewrite fold_databases_put. now apply put_all_mem.
  - intros id Hid. rewrite fold_pages_put, fold_databases_put, !put_all_get.
    rewrite (@last_put_other_ids page_put R id page_put_key clock Hid).
    now rewrite (@last_put_other_ids database_put R id database_put_key clock Hid).
  - intros k child Hf. now apply fold_hier_keeps.
Qed.

Lemma update_keeps_entries_witness :
  let w := world_of orphan_pages [] [] VNone FileMissing in
  let w' := after_update (frozen (noon 1)) [notes_page] w in
  (forall k, dict_mem k (pages_of w) = true -> dict_mem k (pages_of w') = true) /\
  (forall k, dict_mem k (databases_of w) = true -> dict_mem k (databases_of w') = true) /\
  (forall id, (forall r, In r [notes_page] -> r_id r <> id) ->
              dict_get (KStr id) (pages_of w') = dict_get (KStr id) (pages_of w) /\
              dict_get (KStr id) (databases_of w') = dict_get (KStr id) (databases_of w)) /\
  (forall k child, filed k child (hierarchy_of w) -> filed k child (hierarchy_of w')).
Proof.
  apply (@update_keeps_entries (frozen (noon 1)) [notes_page] orphan_pages [] [] VNone FileMissing).
  reflexivity.
Defined.

(** *** The hierarchy index *)

Lemma children_distinct_set k l h :
  children_distinct h -> NoDup l -> children_distinct (dict_set k (VList l) h).
Proof.
  intros Hh Hl k' l' Hget. destruct (key_eqb k' k) eqn:E.
  - apply key_eqb_eq in E. subst k'. rewrite dict_get_set_same in Hget.
    now injection Hget as <-.
  - apply key_eqb_neq in E. rewrite (@dict_get_set_other _ _ _ _ _ E) in Hget.
    exact (Hh k' l' Hget).
Qed.

Lemma not_listed id l :
  existsb (fun y => py_eq (VStr id) y) l = false -> ~ In (VStr id) l.
Proof.
  intros H Hin. assert (E : existsb (fun y => py_eq (VStr id) y) l = true).
  { apply existsb_exists. exists (VStr id). split; [assumption|]. apply String.eqb_refl. }
  congruence.
Qed.

Lemma nodup_snoc (x : value) l : NoDup l -> ~ In x l -> NoDup (l ++ [x]).
Proof.
  induction l as [|a l IH]; intros Hl Hx.
  - constructor; [intros [] | constructor].
  - inversion Hl as [|? ? Ha Hl']; subst. cbn [app]. constructor.
    + intro Hin. apply in_app_or in Hin as [Hin|[<-|[]]]; [now apply Ha|].
      apply Hx. now left.
    + apply IH; [assumption|]. intro Hin. apply Hx. now right.
Qed.

Lemma hier_add_distinct k id h :
  children_distinct h -> children_distinct (hier_add k (VStr id) h).
Proof.
  intro Hh. unfold hier_add.
  set (h1 := if dict_mem k h then h else dict_set k (VList []) h).
  assert (H1 : children_distinct h1).
  { subst h1. destruct (dict_mem k h); [assumption|].
    apply children_distinct_set; [assumption | constructor]. }
  destruct (dict_get k h1) as [[| | |l|]|] eqn:E; try assumption.
  destruct (existsb (fun y => py_eq (VStr id) y) l) eqn:El; [assumption|].
  apply children_distinct_set; [assumption|].
  apply nodup_snoc; [exact (H1 k l E) | now apply not_listed].
Qed.

Lemma fold_hier_distinct R : forall h,
  children_distinct h -> children_distinct (fold_hier R h).
Proof.
  induction R as [|r R IH]; intros h Hh; [assumption|].
  cbn [fold_hier]. apply IH. unfold step_hier.
  destruct (hier_key_of r); [now apply hier_add_distinct | assumption].
Qed.

(** X10. [update_from_search] keeps the lists of the hierarchy index free
    of repetitions: a child that is already listed under its parent is not
    listed again. *)
Theorem update_keeps_children_distinct :
  forall (clock : nat -> datetime) (R : list search_result)
         (p q h : list (key * value)) (lr : value) (f : file_state),
    hier_ok h = true ->
    children_distinct h ->
    children_distinct (hierarchy_of (after_update clock R (world_of p q h lr f))).
Proof.
  intros clock R p q h lr f Hh Hd.
  rewrite (@after_update_shaped clock R p q h lr f Hh), mapping_of_hierarchy.
  now apply fold_hier_distinct.
Qed.

Lemma update_keeps_children_distinct_witness :
  children_distinct
    (hierarchy_of (after_update (frozen (noon 1)) [notes_page; notes_page]
                     (world_of [] [] [] VNone FileMissing))).
Proof.
  apply (@update_keeps_children_distinct (frozen (noon 1)) [notes_page; notes_page]
           [] [] [] VNone FileMissing).
  - reflexivity.
  - intros k l H. discriminate H.
Defined.

Lemma indexed_parent_key r pid :
  indexed_parent r = Some pid -> hier_key_of r = Some (KStr pid).
Proof.
  unfold indexed_parent, hier_key_of, parent_id_of.
  destruct (r_parent r) as [id|id|id|]; try discriminate;
    destruct (id =? "") eqn:E1; cbn [orb]; try discriminate;
    destruct (id =? "workspace") eqn:E2; try discriminate;
    now intros [= ->].
Qed.

(** X11. After [update_from_search], every result whose parent is a page
    or a database is listed under the identifier of that parent in the
    hierarchy index. *)
Theorem child_filed_under_parent :
  forall (clock : nat -> datetime) (R : list search_result) (r : search_result)
         (pid : string) (p q h : list (key * value)) (lr : value) (f : file_state),
    hier_ok h = true ->
    In r R ->
    indexed_parent r = Some pid ->
    filed (KStr pid) (VStr (r_id r))
          (hierarchy_of (after_update clock R (world_of p q h lr f))).
Proof.
  intros clock R r pid p q h lr f Hh Hin Hp.
  rewrite (@after_update_shaped clock R p q h lr f Hh), mapping_of_hierarchy.
  apply fold_hier_files; [assumption | assumption | now apply indexed_parent_key].
Qed.

Lemma child_filed_under_parent_witness :
  filed (KStr "p1") (VStr (r_id child_page))
        (hierarchy_of (after_update (frozen (noon 1)) [notes_page; child_page]
                         (world_of [] [] [] VNone FileMissing))).
Proof.
  apply (@child_filed_under_parent (frozen (noon 1)) [notes_page; child_page] child_page "p1"
           [] [] [] VNone FileMissing).
  - reflexivity.
  - right; left; reflexivity.
  - vm_compute; reflexivity.
Defined.

(** *** A result that is no object *)

Lemma update_items_prefix R1 more : forall clock p q h lr f,
  hier_ok h = true ->
  NotionCache.update_items clock (map encode R1 ++ more) (world_of p q h lr f)
  = NotionCache.update_items (fun n => clock (length R1 + n)%nat) more
      (world_of (fold_pages clock R1 p) (fold_databases clock R1 q) (fold_hier R1 h) lr f).
Proof.
  induction R1 as [|r R1 IH]; intros clock p q h lr f Hh.
  - reflexivity.
  - cbn [map app NotionCache.update_items fold_pages fold_databases fold_hier length].
    erewrite bind_run by now apply update_item_shaped.
    rewrite IH by now apply step_hier_ok. reflexivity.
Qed.

Lemma update_item_not_dict now item w :
  is_dict item = false -> NotionCache.update_item now item w = (Raise AttributeError, w).
Proof.
  intro H. unfold NotionCache.update_item, bind, lift.
  destruct item; try discriminate H; reflexivity.
Qed.

(** X12. A result that is not an object stops [update_from_search] with
    [AttributeError] where it stands: the results before it have been
    merged into the cache in memory, those after it have not, the time of
    the last refresh is not changed and nothing is written to the file. *)
Theorem malformed_result_aborts_update :
  forall (clock : nat -> datetime) (R1 : list search_result) (bad : value)
         (rest : list value) (p q h : list (key * value)) (lr : value) (f : file_state),
    hier_ok h = true ->
    is_dict bad = false ->
    NotionCache.update_from_search clock (map encode R1 ++ bad :: rest)%list
      (world_of p q h lr f)
    = (Raise AttributeError,
       world_of (fold_pages clock R1 p) (fold_databases clock R1 q) (fold_hier R1 h) lr f).
Proof.
  intros clock R1 bad rest p q h lr f Hh Hbad.
  unfold NotionCache.update_from_search. unfold bind at 1.
  rewrite (@update_items_prefix R1 (bad :: rest) clock p q h lr f Hh).
  cbn [NotionCache.update_items]. unfold bind at 1.
  now rewrite (@update_item_not_dict _ bad _ Hbad).
Qed.

Lemma malformed_result_aborts_update_witness :
  NotionCache.update_from_search (frozen (noon 1))
    (map encode [notes_page] ++ VStr "oops" :: [encode child_page])%list
    (world_of [] [] [] VNone FileMissing)
  = (Raise AttributeError,
     world_of (fold_pages (frozen (noon 1)) [notes_page] [])
              (fold_databases (frozen (noon 1)) [notes_page] [])
              (fold_hier [notes_page] []) VNone FileMissing).
Proof.
  apply malformed_result_aborts_update; reflexivity.
Defined.

(** ** Saving and loading *)

Lemma value_induction (P : value -> Prop) :
  P VNone -> (forall b, P (VBool b)) -> (forall s, P (VStr s)) ->
  (forall l, Forall P l -> P (VList l)) ->
  (forall d, Forall (fun kv => P (snd kv)) d -> P (VDict d)) ->
  forall v, P v.
Proof.
  intros HN HB HS HL HD. fix IH 1. intros [|b|s|l|d].
  - exact HN.
  - apply HB.
  - apply HS.
  - apply HL. induction l as [|x l IHl]; constructor; [apply IH | exact IHl].
  - apply HD. induction d as [|[k x] d IHd]; constructor; [apply IH | exact IHd].
Qed.

Lemma jsonify_dict d : jsonify (VDict d) = VDict (json_items d []).
Proof.
  reflexivity.
Qed.

Lemma dict_set_fresh k (v : value) d :
  dict_mem k d = false -> dict_set k v d = (d ++ [(k, v)])%list.
Proof.
  induction d as [|[k' v'] d IH]; [reflexivity|].
  cbn [dict_mem dict_set app]. intro H. apply orb_false_iff in H as [Hk Hd].
  now rewrite Hk, IH.
Qed.

Lemma dict_mem_app k (d e : list (key * value)) :
  dict_mem k (d ++ e)%list = dict_mem k d || dict_mem k e.
Proof.
  induction d as [|[k' v'] d IH]; [reflexivity|].
  cbn [app dict_mem]. now rewrite IH, orb_assoc.
Qed.

Lemma key_eqb_sym a b : key_eqb a b = key_eqb b a.
Proof.
  destruct a as [| [] |x], b as [| [] |y]; try reflexivity. apply String.eqb_sym.
Qed.

Lemma json_items_stable d : forall acc,
  string_keys d = true -> distinct_keys d = true ->
  Forall (fun kv => jsonify (snd kv) = snd kv) d ->
  (forall k, dict_mem k d = true -> dict_mem k acc = false) ->
  json_items d acc = (acc ++ d)%list.
Proof.
  induction d as [|[k x] d IH]; intros acc Hs Hd Hv Hacc.
  - cbn [json_items]. now rewrite app_nil_r.
  - cbn [json_items]. unfold string_keys in Hs. cbn [forallb fst] in Hs.
    apply andb_true_iff in Hs as [Hk Hs]. destruct k as [| |s]; try discriminate.
    cbn [distinct_keys] in Hd. apply andb_true_iff in Hd as [Hfresh Hd].
    apply negb_true_iff in Hfresh.
    inversion Hv as [|? ? Hx Hv']; subst. cbn [snd] in Hx. cbn [key_text]. rewrite Hx.
    rewrite dict_set_fresh
      by (apply Hacc; cbn [dict_mem]; now rewrite key_eqb_refl).
    rewrite IH; [now rewrite <- app_assoc | exact Hs | exact Hd | exact Hv' |].
    intros k Hk'. rewrite dict_mem_app. cbn [dict_mem]. rewrite orb_false_r.
    apply orb_false_iff. split.
    + apply Hacc. cbn [dict_mem]. rewrite Hk'. apply orb_true_r.
    + destruct (key_eqb (KStr s) k) eqn:E; [|reflexivity].
      apply key_eqb_eq in E. subst k. congruence.
Qed.

Lemma jsonify_stable v : json_stable v = true -> jsonify v = v.
Proof.
  induction v as [| | |l IH|d IH] using value_induction; try reflexivity.
  - cbn [json_stable jsonify]. intro H. f_equal.
    induction l as [|x l IHl]; [reflexivity|].
    cbn [forallb] in H. apply andb_true_iff in H as [Hx Hl].
    inversion IH as [|? ? Px Pl]; subst. cbn [map]. now rewrite (Px Hx), (IHl Pl Hl).
  - rewrite jsonify_dict. cbn [json_stable]. intro H.
    apply andb_true_iff in H as [H Hv]. apply andb_true_iff in H as [Hs Hd].
    f_equal. rewrite json_items_stable; [reflexivity | exact Hs | exact Hd | | reflexivity].
    clear Hs Hd. induction d as [|[k x] d IHd]; [constructor|].
    cbn [forallb snd] in Hv. apply andb_true_iff in Hv as [Hx Hv].
    inversion IH as [|? ? Px Pd]; subst. constructor; [exact (Px Hx) | exact (IHd Pd Hv)].
Qed.

Lemma string_keys_set s (v : value) d :
  string_keys d = true -> string_keys (dict_set (KStr s) v d) = true.
Proof.
  unfold string_keys. induction d as [|[k' v'] d IH]; [reflexivity|].
  cbn [forallb fst dict_set]. intro H. apply andb_true_iff in H as [Hk Hd].
  destruct (key_eqb k' (KStr s)); cbn [forallb fst]; rewrite Hk; [exact Hd | now apply IH].
Qed.

Lemma distinct_keys_set k (v : value) d :
  distinct_keys d = true -> distinct_keys (dict_set k v d) = true.
Proof.
  induction d as [|[k' v'] d IH]; [reflexivity|].
  cbn [distinct_keys dict_set]. intro H. apply andb_true_iff in H as [Hk Hd].
  destruct (key_eqb k' k) eqn:E; cbn [distinct_keys].
  - now rewrite Hk, Hd.
  - rewrite dict_mem_set, (key_eqb_sym k k'), E, (IH Hd). cbn [orb]. now rewrite Hk.
Qed.

Lemma values_stable_set k v d :
  json_stable v = true ->
  forallb (fun kv => json_stable (snd kv)) d = true ->
  forallb (fun kv => json_stable (snd kv)) (dict_set k v d) = true.
Proof.
  intro Hv. induction d as [|[k' v'] d IH]; [cbn; now rewrite Hv|].
  cbn [forallb snd dict_set]. intro H. apply andb_true_iff in H as [Hx Hd].
  destruct (key_eqb k' k); cbn [forallb snd]; [now rewrite Hv, Hd | now rewrite Hx, IH].
Qed.

Lemma json_items_keeps_stable d : forall acc,
  Forall (fun kv => json_stable (jsonify (snd kv)) = true) d ->
  json_stable (VDict acc) = true -> json_stable (VDict (json_items d acc)) = true.
Proof.
  induction d as [|[k x] d IH]; intros acc Hd Hacc; [exact Hacc|].
  cbn [json_items]. inversion Hd as [|? ? Hx Hd']; subst. cbn [snd] in Hx.
  apply IH; [exact Hd'|]. cbn [json_stable] in *.
  apply andb_true_iff in Hacc as [H Hv]. apply andb_true_iff in H as [Hs Hk].
  rewrite string_keys_set, distinct_keys_set, values_stable_set by assumption. reflexivity.
Qed.

Lemma jsonify_makes_stable v : json_stable (jsonify v) = true.
Proof.
  induction v as [| | |l IH|d IH] using value_induction; try reflexivity.
  - cbn [jsonify json_stable].
    induction IH as [|x l Hx Hl IHl]; [reflexivity|]. cbn [map forallb]. now rewrite Hx, IHl.
  - rewrite jsonify_dict. apply json_items_keeps_stable; [exact IH | reflexivity].
Qed.

(** X13. A cache whose document JSON represents exactly (string keys,
    each once, at every level) is read back from the file it saved as it
    was. *)
Theorem saved_cache_reads_back :
  forall w : world,
    json_stable (data w) = true ->
    save_and_reopen w = Ok (mk_world (data w) (FileJson (data w))).
Proof.
  intros w H. unfold save_and_reopen, NotionCache._save, bind, get_data, write_disk.
  cbn [snd disk NotionCache.init NotionCache._load NotionCache.file_exists negb
       NotionCache.json_load NotionCache.try_except obind].
  now rewrite (jsonify_stable _ H).
Qed.

Lemma saved_cache_reads_back_witness :
  save_and_reopen (world_of mixed_pages mixed_databases [] VNone FileMissing)
  = Ok (mk_world (data (world_of mixed_pages mixed_databases [] VNone FileMissing))
                 (FileJson (data (world_of mixed_pages mixed_databases [] VNone FileMissing)))).
Proof.
  apply saved_cache_reads_back. vm_compute; reflexivity.
Defined.

(** X14. Whatever a cache holds, the cache read back from the file it
    saved is read back unchanged from then on: saving and reopening it
    again gives the same cache. *)
Theorem reopened_cache_is_stable :
  forall w w1 : world,
    save_and_reopen w = Ok w1 ->
    json_stable (data w1) = true /\ save_and_reopen w1 = Ok w1.
Proof.
  intros w w1. unfold save_and_reopen, NotionCache._save, bind, get_data, write_disk.
  cbn [snd disk NotionCache.init NotionCache._load NotionCache.file_exists negb
       NotionCache.json_load NotionCache.try_except obind].
  intros [= <-]. cbn [data]. split; [apply jsonify_makes_stable|].
  now rewrite (jsonify_stable _ (jsonify_makes_stable (data w))).
Qed.

Lemma reopened_cache_is_stable_witness :
  json_stable (data (mk_world (jsonify malformed_doc) (FileJson (jsonify malformed_doc)))) = true /\
  save_and_reopen (mk_world (jsonify malformed_doc) (FileJson (jsonify malformed_doc)))
  = Ok (mk_world (jsonify malformed_doc) (FileJson (jsonify malformed_doc))).
Proof.
  apply (@reopened_cache_is_stable malformed_world). vm_compute; reflexivity.
Defined.

(** ** The resolver and the cache *)

(** X15. For a name that is not identifier-shaped, the cache lookup
    decides whenever it finds something or fails: [resolve_id] makes that
    one call, passes on the identifier found or the error raised, makes no
    search and leaves the cache as it was. *)
Theorem cache_hit_makes_no_search :
  forall (search_notion : string -> string -> string -> outcome (list value))
         (clock : nat -> datetime) (name_or_id obj_type api_key : string)
         (w : world) (o : outcome value),
    is_uuid name_or_id = false ->
    fst (NotionCache.find_by_path name_or_id obj_type w) = o ->
    match o with Ok v => truthy v = true | Raise _ => True end ->
    run search_notion clock (resolve_id name_or_id obj_type api_key) w
    = (o, w, [Made (FindByPath name_or_id obj_type)]).
Proof.
  intros search_notion clock name kind key w o Hu Hf Ho.
  unfold resolve_id. rewrite Hu. cbn [run perform].
  rewrite (@find_by_path_run name kind w o Hf).
  destruct o as [v|e]; [|reflexivity].
  rewrite Ho. reflexivity.
Qed.

Lemma cache_hit_makes_no_search_witness :
  run no_results (frozen (noon 1)) (resolve_id "a/B" "page" "secret")
      (world_of orphan_pages [] [] VNone FileMissing)
  = (Ok (VStr "b"), world_of orphan_pages [] [] VNone FileMissing,
     [Made (FindByPath "a/B" "page")]).
Proof.
  apply (@cache_hit_makes_no_search no_results (frozen (noon 1)) "a/B" "page" "secret"
           (world_of orphan_pages [] [] VNone FileMissing) (Ok (VStr "b"))).
  - vm_compute; reflexivity.
  - vm_compute; reflexivity.
  - vm_compute; reflexivity.
Defined.

Lemma is_uuid_not_empty s : is_uuid s = true -> s <> "".
Proof. intros H ->. discriminate H. Qed.

(** X16. Whatever the cache holds and whatever the gateway answers, an
    identifier that [resolve_id] returns is truthy: never [None], never
    the empty string. *)
Theorem resolve_id_returns_truthy :
  forall (search_notion : string -> string -> string -> outcome (list value))
         (clock : nat -> datetime) (name_or_id obj_type api_key : string)
         (w : world) (v : value),
    fst (fst (run search_notion clock (resolve_id name_or_id obj_type api_key) w)) = Ok v ->
    truthy v = true.
Proof.
  intros search_notion clock name kind key w v. unfold resolve_id.
  destruct (is_uuid name) eqn:Hu.
  - cbn [run fst]. intros [= <-]. cbn [truthy].
    destruct (String.eqb_spec name ""); [now apply is_uuid_not_empty in Hu | reflexivity].
  - cbn [run perform].
    destruct (NotionCache.find_by_path name kind w) as [[v0|e] w0]; [|discriminate].
    destruct (truthy v0) eqn:Hv0; [cbn [run fst]; now intros [= <-]|].
    cbn [run perform]. unfold ret at 1. unfold lift.
    destruct (search_notion key (PyStr.last_of (PyStr.split "/" name)) kind)
      as [[|r results]|e]; [discriminate| |discriminate].
    cbn [run perform].
    destruct (NotionCache.update_from_search clock (r :: results) w0) as [[[]|e] w1];
      [|discriminate].
    cbn [run perform].
    destruct (NotionCache.find_by_path name kind w1) as [[v1|e] w2]; [|discriminate].
    destruct (truthy v1) eqn:Hv1; [cbn [run fst]; now intros [= <-] | discriminate].
Qed.

Lemma resolve_id_returns_truthy_witness :
  truthy (VStr "p1") = true.
Proof.
  apply (@resolve_id_returns_truthy finds_notes (frozen (noon 1)) "notes" "page" "secret"
           fresh_world (VStr "p1")).
  vm_compute; reflexivity.
Defined.

(** ** Identifier shapes *)

Lemma remove_char_app c a b :
  PyStr.remove_char c (a ++ b) = PyStr.remove_char c a ++ PyStr.remove_char c b.
Proof.
  induction a as [|x a IH]; [reflexivity|].
  cbn [append PyStr.remove_char]. destruct (Ascii.eqb x c); [exact IH|].
  cbn [append]. now rewrite IH.
Qed.

Lemma lower_char_hyphen c : Ascii.eqb (PyStr.lower_char c) "-" = Ascii.eqb c "-".
Proof. destruct c as [[] [] [] [] [] [] [] []]; reflexivity. Qed.

Lemma remove_hyphen_lower s :
  PyStr.remove_char "-" (PyStr.lower s) = PyStr.lower (PyStr.remove_char "-" s).
Proof.
  induction s as [|c r IH]; [reflexivity|].
  cbn [PyStr.lower PyStr.remove_char]. rewrite lower_char_hyphen.
  destruct (Ascii.eqb c "-"); [exact IH|]. cbn [PyStr.lower]. now rewrite IH.
Qed.

Lemma lower_length s : String.length (PyStr.lower s) = String.length s.
Proof. induction s as [|c r IH]; [reflexivity|]. cbn [PyStr.lower String.length]. now rewrite IH. Qed.

(** X17. [is_uuid] looks at a name with its hyphens taken out and its
    letters lower-cased: a hyphen added anywhere, or a change of case,
    does not change its answer. *)
Theorem is_uuid_ignores_hyphens_and_case :
  forall a b : string,
    is_uuid (a ++ String "-" b) = is_uuid (a ++ b) /\
    is_uuid (PyStr.lower a) = is_uuid a.
Proof.
  intros a b. unfold is_uuid. split.
  - rewrite !remove_char_app. cbn [PyStr.remove_char Ascii.eqb Bool.eqb]. reflexivity.
  - now rewrite remove_hyphen_lower, lower_length, lower_idem.
Qed.

(** ** The builders *)

Ltac split_on_string t :=
  repeat match goal with
         | |- context [String.eqb t ?s] => destruct (String.eqb_spec t s) as [->|?]
         end.

Lemma create_property_supported prop_type value property_name :
  str_in prop_type property_types = true ->
  exists payload,
    create_property prop_type value property_name = Ok (ODict [ (KStr prop_type, payload) ]).
Proof.
  unfold create_property, property_types, str_in. cbn [existsb].
  split_on_string prop_type; cbn; try discriminate; intros _;
    try (destruct value as [| | | | |l|]; cbn; eauto).
  destruct (forallb is_str l); eauto.
Qed.

Lemma create_property_unsupported prop_type value property_name :
  str_in prop_type property_types = false ->
  create_property prop_type value property_name = Raise ValueError.
Proof.
  unfold create_property, property_types, str_in. cbn [existsb].
  split_on_string prop_type; cbn; try discriminate. reflexivity.
Qed.

(** X18. [create_property] knows eleven property types.  For each of them
    it returns an object with one key, the name of the type, whatever the
    value is; for any other type it raises [ValueError]. *)
Theorem create_property_outcome :
  forall (prop_type : string) (value property_name : obj),
    if str_in prop_type property_types
    then exists payload,
        create_property prop_type value property_name = Ok (ODict [ (KStr prop_type, payload) ])
    else create_property prop_type value property_name = Raise ValueError.
Proof.
  intros prop_type value property_name.
  destruct (str_in prop_type property_types) eqn:E.
  - now apply create_property_supported.
  - now apply create_property_unsupported.
Qed.

Lemma add_property_ok arg name prop_type properties :
  str_in prop_type property_types = true ->
  exists p,
    add_property arg name prop_type properties
    = Ok (if obj_truthy arg then dict_set (KStr name) p properties else properties).
Proof.
  intro H. unfold add_property.
  destruct (create_property_supported prop_type arg ONone H) as [payload E].
  rewrite E. cbn [obind]. exists (ODict [ (KStr prop_type, payload) ]).
  now destruct (obj_truthy arg).
Qed.

(** X19. [create_todo_properties] never raises.  The object it returns
    always has the property "Task"; it has "Description", "Due Date",
    "Priority", "Tags" and "Status" exactly when the argument of that name
    is truthy, and never a property for the assignee. *)
Theorem create_todo_properties_keys :
  forall title description due_date priority tags status assignee : obj,
  exists properties,
    create_todo_properties title description due_date priority tags status assignee
    = Ok (ODict properties) /\
    dict_mem (KStr "Task") properties = true /\
    dict_mem (KStr "Description") properties = obj_truthy description /\
    dict_mem (KStr "Due Date") properties = obj_truthy due_date /\
    dict_mem (KStr "Priority") properties = obj_truthy priority /\
    dict_mem (KStr "Tags") properties = obj_truthy tags /\
    dict_mem (KStr "Status") properties = obj_truthy status /\
    length properties
    = S (length (filter obj_truthy [description; due_date; priority; tags; status])).
Proof.
  intros title description due_date priority tags status assignee.
  unfold create_todo_properties.
  destruct (@create_property_supported "title" title ONone eq_refl) as [t ->]. cbn [obind].
  destruct (@add_property_ok description "Description" "rich_text"
              [ (KStr "Task", ODict [ (KStr "title", t) ]) ] eq_refl) as [p1 ->].
  cbn [obind].
  match goal with |- context [add_property due_date _ _ ?d] =>
    destruct (@add_property_ok due_date "Due Date" "date" d eq_refl) as [p2 ->] end.
  cbn [obind].
  match goal with |- context [add_property priority _ _ ?d] =>
    destruct (@add_property_ok priority "Priority" "select" d eq_refl) as [p3 ->] end.
  cbn [obind].
  match goal with |- context [add_property tags _ _ ?d] =>
    destruct (@add_property_ok tags "Tags" "multi_select" d eq_refl) as [p4 ->] end.
  cbn [obind].
  match goal with |- context [add_property status _ _ ?d] =>
    destruct (@add_property_ok status "Status" "status" d eq_refl) as [p5 ->] end.
  cbn [obind]. eexists. split; [reflexivity|]. cbn [filter].
  destruct (obj_truthy description), (obj_truthy due_date), (obj_truthy priority),
    (obj_truthy tags), (obj_truthy status); vm_compute; auto 10.
Qed.

Lemma build_sorts_from_spec sorts : forall sort_objects,
  build_sorts_from sort_objects sorts
  = if forallb (fun pd => obj_in (snd pd) ["ascending"; "descending"]) sorts
    then Ok (sort_objects ++ map (fun pd => ODict [ (KStr "property", fst pd);
                                                    (KStr "direction", snd pd) ]) sorts)%list
    else Raise ValueError.
Proof.
  induction sorts as [|[prop direction] sorts IH]; intro acc.
  - cbn [build_sorts_from forallb map]. now rewrite app_nil_r.
  - cbn [build_sorts_from forallb map fst snd].
    destruct (obj_in direction ["ascending"; "descending"]); cbn [negb andb]; [|reflexivity].
    rewrite IH. destruct (forallb _ sorts); [|reflexivity]. now rewrite <- app_assoc.
Qed.

(** X20. [build_sorts] returns one sort object for each pair, in the order
    of the pairs, when every direction is "ascending" or "descending"; as
    soon as one is anything else it raises [ValueError] and returns
    nothing. *)
Theorem build_sorts_checks_directions :
  forall sorts : list (obj * obj),
    build_sorts sorts
    = if forallb (fun pd => obj_in (snd pd) ["ascending"; "descending"]) sorts
      then Ok (OList (map (fun pd => ODict [ (KStr "property", fst pd);
                                             (KStr "direction", snd pd) ]) sorts))
      else Raise ValueError.
Proof.
  intro sorts. unfold build_sorts. rewrite build_sorts_from_spec.
  now destruct (forallb _ sorts).
Qed.

Lemma build_filter_plain property_name filter_type condition value :
  String.eqb filter_type "property" = false ->
  str_in condition ["is_empty"; "is_not_empty"] = false ->
  build_filter property_name filter_type condition value
  = Ok (ODict [ (KStr "property", property_name);
                (KStr filter_type, ODict [ (KStr condition, value) ]) ]).
Proof.
  intros Hf Hc. unfold build_filter. rewrite Hc, andb_false_r.
  cbn [dict_set key_eqb]. rewrite String.eqb_sym, Hf.
  cbn [obj_getitem dict_get key_eqb]. rewrite String.eqb_sym, Hf, String.eqb_refl.
  cbn [obind obj_setitem dict_set key_eqb]. rewrite String.eqb_sym, Hf, String.eqb_refl.
  reflexivity.
Qed.

Lemma add_condition_ok arg property_name filter_type condition conditions :
  String.eqb filter_type "property" = false ->
  str_in condition ["is_empty"; "is_not_empty"] = false ->
  add_condition arg property_name filter_type condition conditions
  = Ok (if obj_truthy arg
        then (conditions ++ [ ODict [ (KStr "property", OStr property_name);
                                      (KStr filter_type, ODict [ (KStr condition, arg) ]) ] ])%list
        else conditions).
Proof.
  intros Hf Hc. unfold add_condition. rewrite (@build_filter_plain _ _ _ _ Hf Hc).
  now destruct (obj_truthy arg).
Qed.

(** X21. [build_todo_filter] never raises.  It returns [None] when none of
    its arguments is truthy, the filter of the argument when exactly one is,
    and otherwise an "and" of one filter for each truthy argument. *)
Theorem build_todo_filter_shape :
  forall status priority due_before due_after tags : obj,
    match length (filter obj_truthy [status; priority; due_before; due_after; tags]) with
    | 0 => build_todo_filter status priority due_before due_after tags = Ok ONone
    | 1 =>
        exists name kind condition arg,
          build_todo_filter status priority due_before due_after tags
          = Ok (ODict [ (KStr "property", OStr name);
                        (KStr kind, ODict [ (KStr condition, arg) ]) ]) /\
          obj_truthy arg = true /\
          In arg [status; priority; due_before; due_after; tags]
    | S (S n) =>
        exists conditions,
          build_todo_filter status priority due_before due_after tags
          = Ok (ODict [ (KStr "and", OList conditions) ]) /\
          length conditions = S (S n)
    end.
Proof.
  intros status priority due_before due_after tags. unfold build_todo_filter.
  rewrite (@add_condition_ok status "Status" "status" "equals" [] eq_refl eq_refl).
  cbn [obind].
  rewrite (@add_condition_ok priority "Priority" "select" "equals" _ eq_refl eq_refl).
  cbn [obind].
  rewrite (@add_condition_ok due_before "Due Date" "date" "on_or_before" _ eq_refl eq_refl).
  cbn [obind].
  rewrite (@add_condition_ok due_after "Due Date" "date" "on_or_after" _ eq_refl eq_refl).
  cbn [obind].
  rewrite (@add_condition_ok tags "Tags" "multi_select" "contains" _ eq_refl eq_refl).
  cbn [obind filter].
  destruct (obj_truthy status) eqn:E1, (obj_truthy priority) eqn:E2,
    (obj_truthy due_before) eqn:E3, (obj_truthy due_after) eqn:E4,
    (obj_truthy tags) eqn:E5;
    cbn [app length build_compound_filter str_in existsb String.eqb Ascii.eqb Bool.eqb
         orb negb];
    try reflexivity;
    try (eexists; split; [reflexivity | reflexivity]);
    do 4 eexists; (split; [reflexivity|]); (split; [eassumption|]); cbn [In]; auto 10.
Qed.

(** X22. [create_block] knows twenty-nine block types.  For a type it
    knows, given the argument the type cannot do without, it returns an
    object with two keys: "type", holding the name of the type, and that
    name, holding the content of the block.  For a type it does not know,
    or without the needed argument, it raises [ValueError]. *)
Theorem create_block_outcome :
  forall (block_type : string) (content annotations : obj) (kwargs : list (key * obj)),
    if str_in block_type block_types &&
       match required_argument block_type content kwargs with
       | Some x => obj_truthy x
       | None => true
       end
    then exists payload,
        create_block block_type content annotations kwargs
        = Ok (ODict [ (KStr "type", OStr block_type); (KStr block_type, payload) ])
    else create_block block_type content annotations kwargs = Raise ValueError.
Proof.
  intros block_type content annotations kwargs.
  unfold create_block, required_argument, block_types, str_in. cbn [existsb].
  split_on_string block_type; cbn;
    repeat match goal with
           | |- context [obj_truthy ?x] => destruct (obj_truthy x); cbn
           end;
    eauto.
Qed.

Lemma lstrip_empty s : PyStr.lstrip s = "" <-> PyStr.all_chars PyStr.is_space s = true.
Proof.
  induction s as [|c r IH]; [now split|].
  cbn [PyStr.lstrip PyStr.all_chars]. destruct (PyStr.is_space c); cbn [andb].
  - exact IH.
  - split; discriminate.
Qed.

Lemma rstrip_keeps_head c r :
  PyStr.is_space c = false -> PyStr.rstrip (String c r) <> "".
Proof.
  intro H. cbn [PyStr.rstrip]. destruct (PyStr.rstrip r); [rewrite H|]; discriminate.
Qed.

Lemma lstrip_head s :
  PyStr.lstrip s = "" \/ exists c r, PyStr.lstrip s = String c r /\ PyStr.is_space c = false.
Proof.
  induction s as [|c r IH]; [now left|].
  cbn [PyStr.lstrip]. destruct (PyStr.is_space c) eqn:E; [exact IH|].
  right. now exists c, r.
Qed.

Lemma strip_empty s : PyStr.strip s = "" <-> PyStr.all_chars PyStr.is_space s = true.
Proof.
  unfold PyStr.strip. rewrite <- lstrip_empty.
  destruct (lstrip_head s) as [E|[c [r [E Hc]]]]; rewrite E.
  - now split.
  - split; [intro H; now apply rstrip_keeps_head in H | discriminate].
Qed.

(** X23. [get_auth_headers] uses the key it is given, and the environment
    only when it is given none.  For a key of ASCII characters, it returns
    headers exactly when that key has a character that is not white space,
    the authorization being "Bearer " followed by the key as it is;
    otherwise it raises [ValueError]. *)
Theorem get_auth_headers_outcome :
  forall getenv api_key : option string,
    (forall k, effective_key getenv api_key = Some k -> is_ascii k = true) ->
    match get_auth_headers getenv api_key with
    | Ok headers =>
        exists k,
          effective_key getenv api_key = Some k /\
          PyStr.all_chars PyStr.is_space k = false /\
          Py.getitem headers (VStr "Authorization") = Ok (VStr ("Bearer " ++ k))
    | Raise e =>
        e = ValueError /\
        match effective_key getenv api_key with
        | Some k => PyStr.all_chars PyStr.is_space k = true
        | None => True
        end
    end.
Proof.
  intros getenv api_key _. unfold get_auth_headers. fold (effective_key getenv api_key).
  destruct (effective_key getenv api_key) as [k|]; [|now split].
  cbn [truthy]. rewrite negb_involutive.
  destruct (String.eqb_spec k "") as [->|Hk]; cbn [orb]; [now split|].
  destruct (String.eqb_spec (PyStr.strip k) "") as [E|E].
  - split; [reflexivity | now apply strip_empty].
  - exists k. split; [reflexivity|]. split; [|reflexivity].
    destruct (PyStr.all_chars PyStr.is_space k) eqn:Ea; [|reflexivity].
    now apply strip_empty in Ea.
Qed.

Lemma get_auth_headers_outcome_witness :
  match get_auth_headers (Some "from-env") (Some " secret ") with
  | Ok headers =>
      exists k,
        effective_key (Some "from-env") (Some " secret ") = Some k /\
        PyStr.all_chars PyStr.is_space k = false /\
        Py.getitem headers (VStr "Authorization") = Ok (VStr ("Bearer " ++ k))
  | Raise e =>
      e = ValueError /\
      match effective_key (Some "from-env") (Some " secret ") with
      | Some k => PyStr.all_chars PyStr.is_space k = true
      | None => True
      end
  end.
Proof.
  apply (@get_auth_headers_outcome (Some "from-env") (Some " secret ")).
  intros k H. injection H as <-. vm_compute; reflexivity.
Defined.
